(** * acord: gateway shard, event dispatcher and voice player

    A shallow embedding of
      - [acord/errors.py]                    (the exception hierarchy),
      - [acord/client/shard.py]              (class [Shard]),
      - [acord/client/handler.py]            ([handle_websocket]),
      - [acord/voice/transports/writer.py]   (class [BasePlayer]),
    followed by the properties established about them.

    Python objects are records, attribute mutation is explicit state
    passing, and a raised exception is the [Abort] outcome of a small
    state-and-error monad.  Collaborators whose code lives outside these
    files (decoders, model constructors, the rate limiter, the opus encoder,
    the voice socket) are interfaces, given as type classes. *)

From Stdlib Require Import ZArith String Ascii List Bool Lia.
From stdpp Require Import gmap strings list pretty.

Set Warnings "-register-all".
Local Open Scope Z_scope.
Local Open Scope string_scope.

(** ** Python values *)

(** What a decoded gateway frame is made of: the JSON fragment of Python
    values (floats are left out; no field the handler inspects carries
    one).  A [str] is kept as the bytes of its UTF-8 form.  A [dict] with
    string keys is an association list whose first binding of a key is the
    live one. *)
Inductive pyval : Type :=
| PNone
| PBool (b : bool)
| PInt (z : Z)
| PStr (s : string)
| PList (l : list pyval)
| PDict (d : list (string * pyval)).

Fixpoint d_lookup (k : string) (d : list (string * pyval)) : option pyval :=
  match d with
  | [] => None
  | (k', v) :: d' => if String.eqb k k' then Some v else d_lookup k d'
  end.

(** [a == b].  [bool] is a subclass of [int]; lists compare elementwise and
    dicts bindingwise, whatever the order of the bindings. *)
Fixpoint py_eqb (a b : pyval) : bool :=
  match a, b with
  | PNone, PNone => true
  | PBool x, PBool y => Bool.eqb x y
  | PBool x, PInt y => Z.eqb (Z.b2z x) y
  | PInt x, PBool y => Z.eqb x (Z.b2z y)
  | PInt x, PInt y => Z.eqb x y
  | PStr x, PStr y => String.eqb x y
  | PList xs, PList ys =>
      (fix all2 (xs ys : list pyval) : bool :=
         match xs, ys with
         | [], [] => true
         | x :: xs', y :: ys' => py_eqb x y && all2 xs' ys'
         | _, _ => false
         end) xs ys
  | PDict dx, PDict dy =>
      Nat.eqb (length dx) (length dy) &&
      (fix sub (dx : list (string * pyval)) : bool :=
         match dx with
         | [] => true
         | (k, v) :: dx' =>
             match d_lookup k dy with
             | Some w => py_eqb v w && sub dx'
             | None => false
             end
         end) dx
  | _, _ => false
  end.

(** [x in l] for a list [l]. *)
Definition py_in (x : pyval) (l : list pyval) : bool :=
  existsb (py_eqb x) l.

(** Truthiness, as in [if not data]. *)
Definition py_truthy (v : pyval) : bool :=
  match v with
  | PNone => false
  | PBool b => b
  | PInt z => negb (Z.eqb z 0)
  | PStr s => negb (String.eqb s "")
  | PList l => negb (Nat.eqb (length l) 0)
  | PDict d => negb (Nat.eqb (length d) 0)
  end.

(** ** Exceptions ([acord/errors.py] and the builtins the code meets) *)

(** The built-in classes a class of the interpreter or of a library can
    derive from, as far as the [except] clauses of the code tell them
    apart. *)
Inductive builtin_base : Type :=
| UnderBaseException
| UnderException
| UnderLookupError
| UnderKeyError
| UnderValueError
| UnderTypeError
| UnderAttributeError
| UnderArithmeticError
| UnderZeroDivisionError
| UnderOSError
| UnderEOFError
| UnderStopAsyncIteration.

#[global] Instance builtin_base_eq_dec : EqDecision builtin_base.
Proof. solve_decision. Defined.

Inductive exc_class : Type :=
| PyBaseException
| PyException
| LookupError
| KeyError
| ValueError
| TypeError
| AttributeError
| ArithmeticError
| ZeroDivisionError
| OSError
| EOFError
| StopAsyncIteration
| BaseExc
| GatewayError
| GatewayConnectionRefused
| GatewayConnectionClosed
| HTTPException
| SlashError
| SlashOptionError
| SlashCommandError
| ApplicationCommandError
| APIObjectDepreciated
| BadRequest
| Forbidden
| DiscordError
| NotFound
| VoiceError
| DecodeError
| ForeignError (name : string) (parent : builtin_base).

Definition builtin_class (b : builtin_base) : exc_class :=
  match b with
  | UnderBaseException => PyBaseException
  | UnderException => PyException
  | UnderLookupError => LookupError
  | UnderKeyError => KeyError
  | UnderValueError => ValueError
  | UnderTypeError => TypeError
  | UnderAttributeError => AttributeError
  | UnderArithmeticError => ArithmeticError
  | UnderZeroDivisionError => ZeroDivisionError
  | UnderOSError => OSError
  | UnderEOFError => EOFError
  | UnderStopAsyncIteration => StopAsyncIteration
  end.

(** The class statement of each exception: its direct base.
    Modelled from the spec: [DecodeError], the error kind the spec gives to a
    frame decoder (the decoders' module is not among the sources and
    [errors.py] declares no such class); it is placed directly under
    [Exception].  [ForeignError name parent] stands for any other class of
    the interpreter or of a library; its base is the nearest built-in class
    above it: [UnicodeDecodeError] and the [ValidationError] of pydantic
    are [ForeignError] classes under [ValueError], [ConnectionResetError] is
    one under [OSError], [RuntimeError] one under [Exception]. *)
Definition base (c : exc_class) : option exc_class :=
  match c with
  | PyBaseException => None
  | PyException => Some PyBaseException
  | LookupError | ValueError | TypeError | AttributeError
  | ArithmeticError | OSError | EOFError | StopAsyncIteration => Some PyException
  | KeyError => Some LookupError
  | ZeroDivisionError => Some ArithmeticError
  | BaseExc => Some PyException
  | GatewayError => Some BaseExc
  | GatewayConnectionRefused => Some GatewayError
  | GatewayConnectionClosed => Some GatewayError
  | HTTPException => Some BaseExc
  | SlashError => Some BaseExc
  | SlashOptionError => Some SlashError
  | SlashCommandError => Some SlashError
  | ApplicationCommandError | APIObjectDepreciated | BadRequest
  | Forbidden | DiscordError | NotFound | VoiceError => Some BaseExc
  | DecodeError => Some PyException
  | ForeignError _ parent => Some (builtin_class parent)
  end.

Definition exc_class_eqb (c d : exc_class) : bool :=
  match c, d with
  | PyBaseException, PyBaseException | PyException, PyException
  | LookupError, LookupError | KeyError, KeyError | ValueError, ValueError
  | TypeError, TypeError | AttributeError, AttributeError
  | ArithmeticError, ArithmeticError | ZeroDivisionError, ZeroDivisionError
  | OSError, OSError | EOFError, EOFError
  | StopAsyncIteration, StopAsyncIteration | BaseExc, BaseExc
  | GatewayError, GatewayError
  | GatewayConnectionRefused, GatewayConnectionRefused
  | GatewayConnectionClosed, GatewayConnectionClosed
  | HTTPException, HTTPException | SlashError, SlashError
  | SlashOptionError, SlashOptionError | SlashCommandError, SlashCommandError
  | ApplicationCommandError, ApplicationCommandError
  | APIObjectDepreciated, APIObjectDepreciated | BadRequest, BadRequest
  | Forbidden, Forbidden | DiscordError, DiscordError | NotFound, NotFound
  | VoiceError, VoiceError | DecodeError, DecodeError => true
  | ForeignError a p, ForeignError b q => String.eqb a b && bool_decide (p = q)
  | _, _ => false
  end.

(** [issubclass(c, d)]: walk up the bases of [c]; no chain above is longer
    than five links. *)
Fixpoint issubclass_upto (fuel : nat) (c d : exc_class) : bool :=
  exc_class_eqb c d ||
  match fuel with
  | O => false
  | S fuel' =>
      match base c with
      | Some c' => issubclass_upto fuel' c' d
      | None => false
      end
  end.

Definition issubclass : exc_class -> exc_class -> bool := issubclass_upto 6.

(** An exception instance: [BaseExc.__init__(message, **attrs)]. *)
Record exn : Type := mk_exn {
  exc_type : exc_class;
  exc_message : string;
  exc_attrs : list (string * pyval)
}.

Definition raise_of (c : exc_class) (msg : string) : exn := mk_exn c msg [].

(** [isinstance(e, c)], which is what an [except c:] clause tests. *)
Definition isinstance (e : exn) (c : exc_class) : bool :=
  issubclass (exc_type e) c.
Arguments isinstance : simpl never.

(** [getattr(err, name, default)] for the keyword attributes of a [BaseExc]
    ([BaseExc.__getattribute__] looks into [_attrs] first). *)
Definition exc_getattr (e : exn) (name : string) (default : pyval) : pyval :=
  match d_lookup name (exc_attrs e) with
  | Some v => v
  | None => default
  end.

(** ** Results and the state-and-error monad *)

(** A pure step that may raise. *)
Inductive result (A : Type) : Type :=
| Ok (a : A)
| Err (e : exn).
Arguments Ok {A} a.
Arguments Err {A} e.

(** A step over a state [S]: it returns a value, or aborts with [e : E];
    either way the state reached so far is kept, as attribute writes made
    before a [raise] are. *)
Inductive outcome (E S A : Type) : Type :=
| Return (a : A) (s : S)
| Abort (e : E) (s : S).
Arguments Return {E S A} a s.
Arguments Abort {E S A} e s.

Definition M (E S A : Type) : Type := S -> outcome E S A.

Definition ret {E S A} (a : A) : M E S A := fun s => Return a s.

Definition bind {E S A B} (m : M E S A) (f : A -> M E S B) : M E S B :=
  fun s => match m s with
           | Return a s' => f a s'
           | Abort e s' => Abort e s'
           end.

Definition abort {E S A} (e : E) : M E S A := fun s => Abort e s.

Definition get {E S} : M E S S := fun s => Return s s.

Definition modify {E S} (f : S -> S) : M E S unit := fun s => Return tt (f s).

Definition when {E S} (b : bool) (m : M E S unit) : M E S unit :=
  if b then m else ret tt.

(** The state an outcome leaves behind, returned or raised. *)
Definition final {E S A} (o : outcome E S A) : S :=
  match o with
  | Return _ s => s
  | Abort _ s => s
  end.

(** The value an outcome returns, if it returns. *)
Definition returned {E S A} (o : outcome E S A) : option A :=
  match o with
  | Return a _ => Some a
  | Abort _ _ => None
  end.

(** [m] moves every state to one related to it by [R], whether it returns
    or raises. *)
Definition respects {E S A} (R : S -> S -> Prop) (m : M E S A) : Prop :=
  forall s, R s (final (m s)).

Notation "'let*' x := m 'in' k" := (bind m (fun x => k))
  (at level 10, x pattern, m at level 100, k at level 200, only parsing).

(** ** Integer operators *)

(** [a >> n] on Python's unbounded integers, for a shift count [n >= 0]:
    the floor of [a / 2^n], for negative [a] as well. *)
Definition py_rshift (a n : Z) : Z := Z.shiftr a n.

(** [a % b]: the remainder takes the sign of the divisor; a zero divisor
    raises. *)
Definition py_mod (a b : Z) : result Z :=
  if Z.eqb b 0 then Err (raise_of ZeroDivisionError "integer modulo by zero")
  else Ok (a mod b).

(** ** [acord/client/shard.py]: sharding *)

Module Sharding.

(** [Shard.contains_guild(self, guild_id)], on the two attributes it reads. *)
Definition contains_guild (shard_id num_shards guild_id : Z) : result bool :=
  match py_mod (py_rshift guild_id 22) num_shards with
  | Ok r => Ok (Z.eqb r shard_id)
  | Err e => Err e
  end.

End Sharding.

(** ** Dictionary keys, subscripts and conversions *)

(** The hashable values that occur as keys of the caches.  [True] and [1]
    are the same key, as are [False] and [0]. *)
Inductive pykey : Type :=
| KNone
| KInt (z : Z)
| KStr (s : string).

#[global] Instance pykey_eq_dec : EqDecision pykey.
Proof. solve_decision. Defined.

#[global] Instance pykey_countable : Countable pykey.
Proof.
  refine (inj_countable'
            (fun k => match k with
                      | KNone => inl tt
                      | KInt z => inr (inl z)
                      | KStr s => inr (inr s)
                      end)
            (fun x => match x with
                      | inl _ => KNone
                      | inr (inl z) => KInt z
                      | inr (inr s) => KStr s
                      end) _).
  intros k. destruct k; reflexivity.
Defined.

(** Using a value as a dictionary key: lists and dicts are unhashable. *)
Definition py_hashkey (v : pyval) : result pykey :=
  match v with
  | PNone => Ok KNone
  | PBool b => Ok (KInt (Z.b2z b))
  | PInt z => Ok (KInt z)
  | PStr s => Ok (KStr s)
  | PList _ => Err (raise_of TypeError "unhashable type: 'list'")
  | PDict _ => Err (raise_of TypeError "unhashable type: 'dict'")
  end.

(** [v[k]] for a string subscript [k]. *)
Definition py_getitem (v : pyval) (k : string) : result pyval :=
  match v with
  | PDict d =>
      match d_lookup k d with
      | Some x => Ok x
      | None => Err (raise_of KeyError k)
      end
  | PList _ => Err (raise_of TypeError "list indices must be integers or slices, not str")
  | PStr _ => Err (raise_of TypeError "string indices must be integers")
  | _ => Err (raise_of TypeError "object is not subscriptable")
  end.

(** [v.get(k, None)]: only a dict has the method. *)
Definition py_get (v : pyval) (k : string) : result pyval :=
  match v with
  | PDict d =>
      match d_lookup k d with
      | Some x => Ok x
      | None => Ok PNone
      end
  | _ => Err (raise_of AttributeError "object has no attribute 'get'")
  end.

(** The mapping behind [**v] in a call that also passes [conn=...]. *)
Definition py_kwargs (v : pyval) : result (list (string * pyval)) :=
  match v with
  | PDict d =>
      match d_lookup "conn" d with
      | Some _ => Err (raise_of TypeError "got multiple values for keyword argument 'conn'")
      | None => Ok d
      end
  | _ => Err (raise_of TypeError "argument after ** must be a mapping")
  end.

(** The characters of a text: each byte that opens one, with the bytes that
    continue it (a [str] is kept as the bytes of its UTF-8 form). *)
Definition continues (g : string) : bool :=
  match g with
  | String c _ => N.leb 0x80 (N_of_ascii c) && N.ltb (N_of_ascii c) 0xC0
  | EmptyString => false
  end.

Fixpoint char_groups (s : string) : list string :=
  match s with
  | EmptyString => []
  | String c s' =>
      match char_groups s' with
      | g :: rest =>
          if continues g then String c g :: rest
          else String c EmptyString :: g :: rest
      | [] => [String c EmptyString]
      end
  end.

Definition chars_of (s : string) : list pyval := map PStr (char_groups s).

(** The items a [for] loop draws from a value. *)
Definition py_iter (v : pyval) : result (list pyval) :=
  match v with
  | PList l => Ok l
  | PDict d => Ok (map (fun kv => PStr (fst kv)) d)
  | PStr s => Ok (chars_of s)
  | _ => Err (raise_of TypeError "object is not iterable")
  end.

(** [l.remove(x)]: drops the first item equal to [x]; raises [ValueError]
    when there is none. *)
Fixpoint py_list_remove (x : pyval) (l : list pyval) : result (list pyval) :=
  match l with
  | [] => Err (raise_of ValueError "list.remove(x): x not in list")
  | y :: l' =>
      if py_eqb y x then Ok l'
      else match py_list_remove x l' with
           | Ok r => Ok (y :: r)
           | Err e => Err e
           end
  end.

(** The code points of a text; [None] when the bytes are no UTF-8 form of
    any text. *)
Definition continuation (c : ascii) : option N :=
  let b := N_of_ascii c in
  if N.leb 0x80 b && N.ltb b 0xC0 then Some (b - 0x80)%N else None.

Fixpoint code_points (s : string) : option (list N) :=
  match s with
  | EmptyString => Some []
  | String c0 s0 =>
      let b0 := N_of_ascii c0 in
      if N.ltb b0 0x80 then option_map (cons b0) (code_points s0)
      else if N.ltb b0 0xC0 then None
      else if N.ltb b0 0xE0 then
        match s0 with
        | String c1 s1 =>
            match continuation c1 with
            | Some x1 =>
                let cp := ((b0 - 0xC0) * 64 + x1)%N in
                if N.leb 0x80 cp then option_map (cons cp) (code_points s1) else None
            | None => None
            end
        | _ => None
        end
      else if N.ltb b0 0xF0 then
        match s0 with
        | String c1 (String c2 s2) =>
            match continuation c1, continuation c2 with
            | Some x1, Some x2 =>
                let cp := (((b0 - 0xE0) * 64 + x1) * 64 + x2)%N in
                if N.leb 0x800 cp then option_map (cons cp) (code_points s2) else None
            | _, _ => None
            end
        | _ => None
        end
      else if N.ltb b0 0xF8 then
        match s0 with
        | String c1 (String c2 (String c3 s3)) =>
            match continuation c1, continuation c2, continuation c3 with
            | Some x1, Some x2, Some x3 =>
                let cp := ((((b0 - 0xF0) * 64 + x1) * 64 + x2) * 64 + x3)%N in
                if N.leb 0x10000 cp && N.leb cp 0x10FFFF
                then option_map (cons cp) (code_points s3) else None
            | _, _, _ => None
            end
        | _ => None
        end
      else None
  end.

(** The characters [int] strips from both ends of a text: the blanks of
    ASCII (not the separators U+001C to U+001F) and the white space of
    Unicode above them. *)
Definition int_space (cp : N) : bool :=
  (N.leb 0x09 cp && N.leb cp 0x0D) || N.eqb cp 0x20
  || N.eqb cp 0x85 || N.eqb cp 0xA0 || N.eqb cp 0x1680
  || (N.leb 0x2000 cp && N.leb cp 0x200A)
  || N.eqb cp 0x2028 || N.eqb cp 0x2029 || N.eqb cp 0x202F
  || N.eqb cp 0x205F || N.eqb cp 0x3000.

(** The digit zero of every script with decimal digits (general category
    Nd, Unicode 14.0, the version of CPython 3.11); the nine code points that
    follow each are its digits one to nine. *)
Definition decimal_zeros : list N :=
  ([
    0x30; 0x660; 0x6f0; 0x7c0; 0x966; 0x9e6; 0xa66; 0xae6;
    0xb66; 0xbe6; 0xc66; 0xce6; 0xd66; 0xde6; 0xe50; 0xed0;
    0xf20; 0x1040; 0x1090; 0x17e0; 0x1810; 0x1946; 0x19d0; 0x1a80;
    0x1a90; 0x1b50; 0x1bb0; 0x1c40; 0x1c50; 0xa620; 0xa8d0; 0xa900;
    0xa9d0; 0xa9f0; 0xaa50; 0xabf0; 0xff10; 0x104a0; 0x10d30; 0x11066;
    0x110f0; 0x11136; 0x111d0; 0x112f0; 0x11450; 0x114d0; 0x11650; 0x116c0;
    0x11730; 0x118e0; 0x11950; 0x11c50; 0x11d50; 0x11da0; 0x16a60; 0x16ac0;
    0x16b50; 0x1d7ce; 0x1d7d8; 0x1d7e2; 0x1d7ec; 0x1d7f6; 0x1e140; 0x1e2f0;
    0x1e950; 0x1fbf0 ])%N.

Definition digit_of (cp : N) : option Z :=
  match find (fun z => N.leb z cp && N.ltb cp (z + 10)) decimal_zeros with
  | Some z => Some (Z.of_N (cp - z))
  | None => None
  end.

(** What a character of the text is to [int]. *)
Inductive int_char : Type :=
| IDigit (d : Z)
| ISpace
| IPlus
| IMinus
| IUnderscore
| IOther.

Definition int_char_of (cp : N) : int_char :=
  if N.eqb cp 0x2B then IPlus
  else if N.eqb cp 0x2D then IMinus
  else if N.eqb cp 0x5F then IUnderscore
  else if int_space cp then ISpace
  else match digit_of cp with
       | Some d => IDigit d
       | None => IOther
       end.

Fixpoint skip_spaces (l : list int_char) : list int_char :=
  match l with
  | ISpace :: l' => skip_spaces l'
  | _ => l
  end.

(** The digits at the head of [l], single underscores between them allowed:
    their value, how many they are, and what follows them. *)
Fixpoint digits_value (l : list int_char) (acc : Z) (count : nat)
    (after_underscore : bool) : option (Z * nat * list int_char) :=
  match l with
  | IDigit d :: l' => digits_value l' (10 * acc + d) (S count) false
  | IUnderscore :: l' =>
      if after_underscore then None else digits_value l' acc count true
  | _ => if after_underscore then None else Some (acc, count, l)
  end.

(** [sys.get_int_max_str_digits()], as the interpreter starts with. *)
Definition int_max_str_digits : nat := 4300.

(** [int(s)] for a text, in base ten: blanks, an optional sign, decimal
    digits of any script with single underscores between them, blanks.  A
    text with more digits than the interpreter converts is refused as
    well. *)
Definition int_of_str (s : string) : option Z :=
  match code_points s with
  | None => None
  | Some cps =>
      let l := skip_spaces (map int_char_of cps) in
      let signed :=
        match l with
        | IMinus :: l' => (true, l')
        | IPlus :: l' => (false, l')
        | _ => (false, l)
        end in
      match snd signed with
      | IUnderscore :: _ => None
      | body =>
          match digits_value body 0 0 false with
          | Some (v, count, rest) =>
              if Nat.eqb count 0 || Nat.ltb int_max_str_digits count then None
              else match skip_spaces rest with
                   | [] => Some (if fst signed then - v else v)
                   | _ :: _ => None
                   end
          | None => None
          end
      end
  end.

(** [int(v)]. *)
Definition py_int (v : pyval) : result Z :=
  match v with
  | PInt z => Ok z
  | PBool b => Ok (Z.b2z b)
  | PStr s =>
      match int_of_str s with
      | Some z => Ok z
      | None => Err (raise_of ValueError "invalid literal for int() with base 10")
      end
  | _ => Err (raise_of TypeError "int() argument must be a string, a bytes-like object or a real number")
  end.

(** [d.pop(k)] on a cache. *)
Definition py_pop {V} (k : pykey) (d : gmap pykey V) : result (V * gmap pykey V) :=
  match d !! k with
  | Some v => Ok (v, delete k d)
  | None => Err (raise_of KeyError "key not found")
  end.

(** ** Gateway constants *)

Module gateway.

(** Modelled from the spec: the op codes of [acord/core/signals.py], which is
    not among the sources: "0 Dispatch, 1 Heartbeat, 2 Identify, 6 Resume,
    7 Reconnect, 9 InvalidSession, 10 Hello, 11 HeartbeatAck". *)
Definition DISPATCH : Z := 0.
Definition HEARTBEAT : Z := 1.
Definition IDENTIFY : Z := 2.
Definition RESUME : Z := 6.
Definition RECONNECT : Z := 7.
Definition INVALIDSESSION : Z := 9.
Definition HELLO : Z := 10.
Definition HEARTBEATACK : Z := 11.

End gateway.

(** The [data] of a websocket message: [bytes] or [str]. *)
Inductive ws_data : Type :=
| DBytes (b : list Byte.byte)
| DText (s : string).

(** ** Collaborators of the dispatcher *)

(** [acord.core.decoders]: each decoder returns the decoded text or value,
    or raises. *)
Class Decoders : Type := {
  decompressResponse : list Byte.byte -> result string;
  ETF : string -> result pyval;
  JSON : string -> result pyval
}.

(** The entity classes of [acord.models]. *)
Class Entities : Type := {
  User : Type;
  Message : Type;
  Guild : Type;
  Channel : Type
}.

(** [self.INTERNAL_STORAGE]: one dict per entity kind. *)
Record Storage {Ent : Entities} : Type := mk_storage {
  users : gmap pykey User;
  messages : gmap pykey Message;
  guilds : gmap pykey Guild;
  channels : gmap pykey Channel
}.

(** The constructors and attributes of the entity classes that the handler
    uses.  [message_key m] is the text of the f-string
    [f"{message.channel_id}:{message.id}"]; [touch_channel m] is the body of
    the [try] block of [MESSAGE_CREATE], which reaches the channel object of
    the message through the model layer and sets its [last_message_id]. *)
Class Models {Ent : Entities} : Type := {
  User_new : list (string * pyval) -> result User;
  user_id : User -> pykey;
  Message_new : list (string * pyval) -> result Message;
  message_key : Message -> string;
  touch_channel : Message -> Storage -> result Storage;
  Guild_new : list (string * pyval) -> result Guild;
  d_to_channel : pyval -> result Channel;
  channel_id : Channel -> pykey
}.

(** ** [acord/client/handler.py] *)

Module Handler.

(** What the socket yields. *)
Record WSMessage : Type := mk_msg { msg_data : ws_data }.

Section Dispatcher.
Context {Dec : Decoders} {Ent : Entities} {Mod : Models}.

(** One call [self.dispatch(name, *args)]. *)
Inductive EventArg : Type :=
| ArgFrame (m : WSMessage)
| ArgMessage (m : Message)
| ArgGuild (g : Guild)
| ArgChannel (c : Channel).

Record Event : Type := mk_event {
  ev_name : string;
  ev_args : list EventArg
}.

(** The object the handler receives as [self], with the module attribute
    [gateway.SEQUENCE] and the calls made to [self.dispatch], oldest
    first. *)
Record Client : Type := mk_client {
  session_id : pyval;
  gateway_version : pyval;
  user : option User;
  INTERNAL_STORAGE : Storage;
  gateway_SEQUENCE : pyval;
  dispatched : list Event
}.

(** Why the body of the loop stops before its end: an exception, or the
    [continue] statement. *)
Inductive signal : Type :=
| Exc (e : exn)
| Continue.

Definition Body (A : Type) : Type := M signal Client A.

Definition lift {A} (r : result A) : Body A :=
  match r with
  | Ok a => ret a
  | Err e => abort (Exc e)
  end.

Definition raise {A} (e : exn) : Body A := abort (Exc e).

Definition continue {A} : Body A := abort Continue.

(** The client after one more call of [self.dispatch]. *)
Definition fired (name : string) (args : list EventArg) (c : Client) : Client :=
  mk_client (session_id c) (gateway_version c) (user c)
    (INTERNAL_STORAGE c) (gateway_SEQUENCE c)
    (dispatched c ++ [mk_event name args]).

Definition with_SEQUENCE (v : pyval) (c : Client) : Client :=
  mk_client (session_id c) (gateway_version c) (user c)
    (INTERNAL_STORAGE c) v (dispatched c).

Definition with_session_id (v : pyval) (c : Client) : Client :=
  mk_client v (gateway_version c) (user c)
    (INTERNAL_STORAGE c) (gateway_SEQUENCE c) (dispatched c).

Definition with_gateway_version (v : pyval) (c : Client) : Client :=
  mk_client (session_id c) v (user c)
    (INTERNAL_STORAGE c) (gateway_SEQUENCE c) (dispatched c).

Definition with_user (u : User) (c : Client) : Client :=
  mk_client (session_id c) (gateway_version c) (Some u)
    (INTERNAL_STORAGE c) (gateway_SEQUENCE c) (dispatched c).

Definition with_storage (st : Storage) (c : Client) : Client :=
  mk_client (session_id c) (gateway_version c) (user c)
    st (gateway_SEQUENCE c) (dispatched c).

Definition with_guilds (g : gmap pykey Guild) (st : Storage) : Storage :=
  mk_storage _ (users st) (messages st) g (channels st).

Definition dispatch (name : string) (args : list EventArg) : Body unit :=
  modify (fired name args).

Definition set_SEQUENCE (v : pyval) : Body unit := modify (with_SEQUENCE v).

Definition set_session_id (v : pyval) : Body unit := modify (with_session_id v).

Definition set_gateway_version (v : pyval) : Body unit :=
  modify (with_gateway_version v).

Definition set_user (u : User) : Body unit := modify (with_user u).

Definition set_storage (st : Storage) : Body unit := modify (with_storage st).

Definition get_storage : Body Storage :=
  fun c => Return (INTERNAL_STORAGE c) c.

Definition update_users (k : pykey) (u : User) : Body unit :=
  let* st := get_storage in
  set_storage (mk_storage _ (<[k := u]> (users st)) (messages st) (guilds st) (channels st)).

Definition update_messages (k : pykey) (m : Message) : Body unit :=
  let* st := get_storage in
  set_storage (mk_storage _ (users st) (<[k := m]> (messages st)) (guilds st) (channels st)).

Definition update_guilds (k : pykey) (g : Guild) : Body unit :=
  let* st := get_storage in
  set_storage (with_guilds (<[k := g]> (guilds st)) st).

Definition update_channels (k : pykey) (c : Channel) : Body unit :=
  let* st := get_storage in
  set_storage (mk_storage _ (users st) (messages st) (guilds st) (<[k := c]> (channels st))).

Definition pop_guild (k : pykey) : Body Guild :=
  let* st := get_storage in
  let* r := lift (py_pop k (guilds st)) in
  let* _ := set_storage (with_guilds (snd r) st) in
  ret (fst r).

Definition pop_channel (k : pykey) : Body Channel :=
  let* st := get_storage in
  let* r := lift (py_pop k (channels st)) in
  let* _ := set_storage (mk_storage _ (users st) (messages st) (guilds st) (snd r)) in
  ret (fst r).

Definition newline : string := String "010"%char EmptyString.

Definition invalid_session_message : string :=
  "Invalid session data, currently not handled in this version"
  ++ newline ++ "Common causes can include:"
  ++ newline ++ "* Invalid intents".

(** [[i["id"] for i in v]]. *)
Fixpoint ids_of (l : list pyval) : result (list pyval) :=
  match l with
  | [] => Ok []
  | i :: l' =>
      match py_getitem i "id" with
      | Err e => Err e
      | Ok x =>
          match ids_of l' with
          | Ok r => Ok (x :: r)
          | Err e => Err e
          end
      end
  end.

(** The [try] block of [MESSAGE_CREATE]: a [ValueError] is passed over, any
    other exception leaves the handler. *)
Definition try_touch_channel (m : Message) : Body unit :=
  let* st := get_storage in
  match touch_channel m st with
  | Ok st' => set_storage st'
  | Err e => if isinstance e ValueError then ret tt else raise e
  end.

(** Lines 16-18: [message.data], decompressed when it is [bytes]. *)
Definition frame_text (message : WSMessage) : result string :=
  match msg_data message with
  | DBytes b => decompressResponse b
  | DText s => Ok s
  end.

(** Lines 23-26: the decoder is chosen by the first character. *)
Definition decode_text (data : string) : result pyval :=
  if negb (String.prefix "{" data) then ETF data else JSON data.

(** Lines 33-109: what the body does with the four fields of the decoded
    frame.  [UNAVAILABLE] is a local variable of the body, bound anew to an
    empty list for every frame. *)
Definition on_envelope (EVENT OPERATION DATA SEQUENCE : pyval) : Body unit :=
  let* _ := set_SEQUENCE SEQUENCE in
  let UNAVAILABLE : list pyval := [] in
  let* _ := when (py_eqb OPERATION (PInt gateway.INVALIDSESSION))
              (raise (raise_of GatewayConnectionRefused invalid_session_message)) in
  let* _ := when (py_eqb OPERATION (PInt gateway.HEARTBEATACK))
              (dispatch "heartbeat" []) in
  let* UNAVAILABLE :=
    if py_eqb EVENT (PStr "READY") then
      let* _ := dispatch "ready" [] in
      let* sid := lift (py_getitem DATA "session_id") in
      let* _ := set_session_id sid in
      let* v := lift (py_getitem DATA "v") in
      let* _ := set_gateway_version v in
      let* raw_user := lift (py_getitem DATA "user") in
      let* kw := lift (py_kwargs raw_user) in
      let* u := lift (User_new kw) in
      let* _ := set_user u in
      let* raw_guilds := lift (py_getitem DATA "guilds") in
      let* items := lift (py_iter raw_guilds) in
      let* UNAVAILABLE := lift (ids_of items) in
      let* _ := update_users (user_id u) u in
      continue
    else ret UNAVAILABLE in
  let* _ := when (py_eqb EVENT (PStr "MESSAGE_CREATE"))
      (let* kw := lift (py_kwargs DATA) in
       let* message := lift (Message_new kw) in
       let* _ := try_touch_channel message in
       let* _ := update_messages (KStr (message_key message)) message in
       dispatch "message" [ArgMessage message]) in
  let* UNAVAILABLE :=
    if py_eqb EVENT (PStr "GUILD_CREATE") then
      let* kw := lift (py_kwargs DATA) in
      let* guild := lift (Guild_new kw) in
      let* id := lift (py_getitem DATA "id") in
      let* UNAVAILABLE :=
        if py_in id UNAVAILABLE then
          let* id := lift (py_getitem DATA "id") in
          let* UNAVAILABLE := lift (py_list_remove id UNAVAILABLE) in
          let* _ := dispatch "guild_recv" [ArgGuild guild] in
          ret UNAVAILABLE
        else
          let* _ := dispatch "guild_create" [ArgGuild guild] in
          ret UNAVAILABLE in
      let* id := lift (py_getitem DATA "id") in
      let* key := lift (py_int id) in
      let* _ := update_guilds (KInt key) guild in
      ret UNAVAILABLE
    else ret UNAVAILABLE in
  let* UNAVAILABLE :=
    if py_eqb EVENT (PStr "GUILD_DELETE") then
      let* marker := lift (py_get DATA "unavailable") in
      if negb (py_eqb marker PNone) then
        let* kw := lift (py_kwargs DATA) in
        let* guild := lift (Guild_new kw) in
        let* id := lift (py_getitem DATA "id") in
        let* UNAVAILABLE := lift (py_list_remove id UNAVAILABLE) in
        let* _ := dispatch "guild_outage" [ArgGuild guild] in
        let* id := lift (py_getitem DATA "id") in
        let* key := lift (py_int id) in
        let* _ := update_guilds (KInt key) guild in
        ret UNAVAILABLE
      else
        let* id := lift (py_getitem DATA "id") in
        let* key := lift (py_hashkey id) in
        let* guild := pop_guild key in
        let* _ := dispatch "guild_remove" [ArgGuild guild] in
        ret UNAVAILABLE
    else ret UNAVAILABLE in
  let* _ := when (py_eqb EVENT (PStr "CHANNEL_CREATE"))
      (let* channel := lift (d_to_channel DATA) in
       let* _ := update_channels (channel_id channel) channel in
       dispatch "channel_create" [ArgChannel channel]) in
  let* _ := when (py_eqb EVENT (PStr "CHANNEL_UPDATE"))
      (let* channel := lift (d_to_channel DATA) in
       let* _ := update_channels (channel_id channel) channel in
       dispatch "channel_update" [ArgChannel channel]) in
  when (py_eqb EVENT (PStr "CHANNEL_DELETE"))
      (let* id := lift (py_getitem DATA "id") in
       let* key := lift (py_int id) in
       let* channel := pop_channel (KInt key) in
       dispatch "channel_delete" [ArgChannel channel]).

(** The body of [async for message in ws], for one [message]. *)
Definition handle_frame (message : WSMessage) : Body unit :=
  let* _ := dispatch "socket_recieve" [ArgFrame message] in
  let* data := lift (frame_text message) in
  let* _ := when (negb (py_truthy (PStr data))) continue in
  let* data := lift (decode_text data) in
  let* EVENT := lift (py_getitem data "t") in
  let* OPERATION := lift (py_getitem data "op") in
  let* DATA := lift (py_getitem data "d") in
  let* SEQUENCE := lift (py_getitem data "s") in
  on_envelope EVENT OPERATION DATA SEQUENCE.

(** [handle_websocket(self, ws)], over the messages [ws] yields before it
    closes, in arrival order.  An exception raised in the body is caught
    nowhere: it ends the loop and leaves the coroutine. *)
Fixpoint handle_websocket (ws : list WSMessage) : M exn Client unit :=
  match ws with
  | [] => ret tt
  | message :: ws' =>
      fun self =>
        match handle_frame message self with
        | Return _ self' => handle_websocket ws' self'
        | Abort Continue self' => handle_websocket ws' self'
        | Abort (Exc e) self' => Abort e self'
        end
  end.

(** [c'] has the events of [c] and after them only events that are not
    "guild_recv". *)
Definition no_new_guild_recv (c c' : Client) : Prop :=
  exists added,
    dispatched c' = (dispatched c ++ added)%list /\
    Forall (fun ev => ev_name ev <> "guild_recv") added.

(** The frame [message] carries a non-empty text that the decoder in charge
    turns into an object with the four fields of a gateway frame. *)
Definition decodes (message : WSMessage) (EVENT OPERATION DATA SEQUENCE : pyval) : Prop :=
  exists text env,
    frame_text message = Ok text /\ text <> "" /\
    decode_text text = Ok env /\
    py_getitem env "t" = Ok EVENT /\
    py_getitem env "op" = Ok OPERATION /\
    py_getitem env "d" = Ok DATA /\
    py_getitem env "s" = Ok SEQUENCE.

(** Decoding the frame [message] fails with the error [e]: in the
    decompression of its bytes, or in the decoder its text is given to. *)
Definition decoding_fails (message : WSMessage) (e : exn) : Prop :=
  frame_text message = Err e \/
  exists text, frame_text message = Ok text /\ text <> "" /\ decode_text text = Err e.

Definition with_users (u : gmap pykey User) (st : Storage) : Storage :=
  mk_storage _ u (messages st) (guilds st) (channels st).

Definition with_messages (m : gmap pykey Message) (st : Storage) : Storage :=
  mk_storage _ (users st) m (guilds st) (channels st).

Definition with_channels (ch : gmap pykey Channel) (st : Storage) : Storage :=
  mk_storage _ (users st) (messages st) (guilds st) ch.

(** The event names that [on_envelope] has a branch for. *)
Definition handled_events : list string :=
  [ "READY"; "MESSAGE_CREATE"; "GUILD_CREATE"; "GUILD_DELETE";
    "CHANNEL_CREATE"; "CHANNEL_UPDATE"; "CHANNEL_DELETE" ].

(** The first call of the body for a message: line 14. *)
Definition socket_recieve_of (message : WSMessage) : Event :=
  mk_event "socket_recieve" [ArgFrame message].

Definition is_socket_recieve (ev : Event) : bool :=
  String.eqb (ev_name ev) "socket_recieve".

(** [c'] has the events of [c] and after them only events not called
    [name]. *)
Definition adds_no (name : string) (c c' : Client) : Prop :=
  exists added,
    dispatched c' = (dispatched c ++ added)%list /\
    Forall (fun ev => ev_name ev <> name) added.

End Dispatcher.

End Handler.

(** ** Collaborators of the shard *)

(** [GatewayRatelimiter] of [acord/client/ratelimiter.py], through the three
    methods the shard calls on the lock: [exceeded(key)],
    [hold_until_reset(key)] and [increment(key, lock_if_exceed=...)]. *)
Class Ratelimiter : Type := {
  Limiter : Type;
  exceeded : Limiter -> Z -> bool;
  hold_until_reset : Limiter -> Z -> Limiter;
  increment : Limiter -> Z -> bool -> Limiter
}.

(** What else the shard takes from outside: [decodeResponse] of
    [acord.core.decoders], applied to [packet.data] ([None] when the socket
    has nothing to deliver), [sys.platform], and the [json()] method of
    [GenericWebsocketPayload]. *)
Class ShardEnv : Type := {
  decodeResponse : option ws_data -> result pyval;
  sys_platform : string;
  payload_json : pyval -> string
}.

(** ** [acord/client/shard.py] *)

Module ShardModel.

Definition kwds : Type := list (string * pyval).

(** What [listen] passes on to the handler: the client, a websocket of the
    shard (by its handle), or a plain value. *)
Inductive Object : Type :=
| ObjClient
| ObjSocket (h : nat)
| ObjValue (v : pyval).

Definition call_kwds : Type := list (string * Object).

(** A handler, as far as the shard uses it: called with keyword arguments
    it gives a coroutine, or the call raises.  (A handler that gives
    something else makes [create_task] raise, which is the same to
    [listen].) *)
Definition Callable : Type := call_kwds -> result unit.

Definition has_name (name : string) (k : call_kwds) : bool :=
  existsb (fun kv => String.eqb (fst kv) name) k.

(** An [async def] function with the parameters [params], none of them with
    a default, called with keyword arguments alone: a name that is no
    parameter is refused, and so is a call that leaves a parameter out. *)
Definition async_def (fname : string) (params : list string) : Callable :=
  fun k =>
    if negb (forallb (fun kv => existsb (String.eqb (fst kv)) params) k)
    then Err (raise_of TypeError (fname ++ "() got an unexpected keyword argument"))
    else if negb (forallb (fun name => has_name name k) params)
    then Err (raise_of TypeError (fname ++ "() missing required positional arguments"))
    else Ok tt.

(** The default handler: [async def handle_websocket(self, ws)] of
    [handler.py]. *)
Definition handle_websocket_call : Callable :=
  async_def "handle_websocket" ["self"; "ws"].

(** One [aiohttp] client websocket: where it was opened, what is still to be
    received, the close code once it is closed, and what was sent. *)
Record Socket : Type := mk_socket {
  sock_url : string;
  sock_kwds : kwds;
  sock_inbox : list ws_data;
  sock_close_code : option Z;
  sock_sent : list pyval
}.

Definition is_open (so : Socket) : bool :=
  match sock_close_code so with
  | None => true
  | Some _ => false
  end.

(** A socket after [close(code=c)]: the code of an earlier close stays. *)
Definition closed_with (c : Z) (so : Socket) : Socket :=
  mk_socket (sock_url so) (sock_kwds so) (sock_inbox so)
    (Some (match sock_close_code so with Some c0 => c0 | None => c end))
    (sock_sent so).

(** One [asyncio] task: the arguments its coroutine was created with, and
    the message of the cancellation requested, if any. *)
Record Task : Type := mk_task {
  task_kwds : call_kwds;
  task_cancel_msg : option string
}.

(** The [GatewayKeepAlive] object of a shard, through the constructor
    argument and the two attributes the shard writes.
    Modelled from the spec: [acord/core/heartbeat.py] is not among the
    sources; the monitor is "created after Hello, stopped on disconnect", so
    it starts with [_ended] unset and sends on the socket of its shard. *)
Record KeepAlive : Type := mk_keep_alive {
  ka_interval : pyval;
  ka_started : bool;
  _ended : bool;
  _ws : option nat
}.

(** The attributes of a [Shard].  [ws] is [None] until [connect]; the last
    three attributes do not exist ([None] here) until [connect],
    [receive_hello] and [listen] create them.  [token] is
    [self.client.token]; [handler] is the handler given to [__init__]. *)
Record Shard : Type := mk_shard {
  url : string;
  shard_id : Z;
  num_shards : Z;
  token : pyval;
  handler : Callable;
  ws : option nat;
  sequence : pyval;
  session_id : pyval;
  gateway_version : pyval;
  resuming : bool;
  _snd_kwds : option kwds;
  _keep_alive : option KeepAlive;
  task : option nat
}.

(** The calls a shard makes on its collaborators, in order. *)
Inductive Action : Type :=
| ActConnect (u : string) (k : kwds) (h : nat)
| ActReceive (h : nat)
| ActClose (h : nat) (code : Z) (was_open : bool)
| ActSendStr (h : nat) (text : string)
| ActSendJson (h : nat) (payload : pyval)
| ActLimiterEnter
| ActHoldUntilReset (key : Z)
| ActIncrement (key : Z) (lock_if_exceed : bool)
| ActLimiterExit
| ActKeepAliveStart
| ActCreateTask (t : nat)
| ActCancel (t : nat) (msg : string).

Section Session.
Context {RLim : Ratelimiter} {Env : ShardEnv}.

(** Everything a shard method reads or writes: the shard, the sockets and
    tasks that exist (a handle is an index), the shared rate limiter,
    whether [ws_connect] fails, and the calls made so far. *)
Record Sys : Type := mk_sys {
  self : Shard;
  sockets : list Socket;
  tasks : list Task;
  ratelimiter : Limiter;
  connect_error : option exn;
  calls : list Action
}.

Definition Op (A : Type) : Type := M exn Sys A.

Definition lift {A} (r : result A) : Op A :=
  match r with
  | Ok a => ret a
  | Err e => abort e
  end.

Definition get_self : Op Shard := fun s => Return (self s) s.

Definition set_self (sh : Shard) : Op unit :=
  modify (fun s => mk_sys sh (sockets s) (tasks s) (ratelimiter s)
                     (connect_error s) (calls s)).

Definition set_sockets (l : list Socket) : Op unit :=
  modify (fun s => mk_sys (self s) l (tasks s) (ratelimiter s)
                     (connect_error s) (calls s)).

Definition set_tasks (l : list Task) : Op unit :=
  modify (fun s => mk_sys (self s) (sockets s) l (ratelimiter s)
                     (connect_error s) (calls s)).

Definition set_ratelimiter (r : Limiter) : Op unit :=
  modify (fun s => mk_sys (self s) (sockets s) (tasks s) r
                     (connect_error s) (calls s)).

Definition call (a : Action) : Op unit :=
  modify (fun s => mk_sys (self s) (sockets s) (tasks s) (ratelimiter s)
                     (connect_error s) (calls s ++ [a])).

Definition set_ws (h : option nat) (sh : Shard) : Shard :=
  mk_shard (url sh) (shard_id sh) (num_shards sh) (token sh) (handler sh) h
    (sequence sh) (session_id sh) (gateway_version sh) (resuming sh)
    (_snd_kwds sh) (_keep_alive sh) (task sh).

Definition set_resuming (b : bool) (sh : Shard) : Shard :=
  mk_shard (url sh) (shard_id sh) (num_shards sh) (token sh) (handler sh) (ws sh)
    (sequence sh) (session_id sh) (gateway_version sh) b
    (_snd_kwds sh) (_keep_alive sh) (task sh).

Definition set_snd_kwds (k : kwds) (sh : Shard) : Shard :=
  mk_shard (url sh) (shard_id sh) (num_shards sh) (token sh) (handler sh) (ws sh)
    (sequence sh) (session_id sh) (gateway_version sh) (resuming sh)
    (Some k) (_keep_alive sh) (task sh).

Definition set_keep_alive (ka : KeepAlive) (sh : Shard) : Shard :=
  mk_shard (url sh) (shard_id sh) (num_shards sh) (token sh) (handler sh) (ws sh)
    (sequence sh) (session_id sh) (gateway_version sh) (resuming sh)
    (_snd_kwds sh) (Some ka) (task sh).

Definition set_task (t : nat) (sh : Shard) : Shard :=
  mk_shard (url sh) (shard_id sh) (num_shards sh) (token sh) (handler sh) (ws sh)
    (sequence sh) (session_id sh) (gateway_version sh) (resuming sh)
    (_snd_kwds sh) (_keep_alive sh) (Some t).

(** Reading an attribute that may not exist, or calling a method on the
    value of [self.ws] while it is [None]. *)
Definition attr {A} (name : string) (f : Shard -> option A) : Op A :=
  let* sh := get_self in
  match f sh with
  | Some a => ret a
  | None => abort (raise_of AttributeError name)
  end.

(** [Shard.__init__]; [handler] defaults to [handle_websocket]. *)
Definition init (url_ : string) (shard_id_ num_shards_ : Z) (token_ : pyval)
    (handler_ : Callable) : Shard :=
  mk_shard url_ shard_id_ num_shards_ token_ handler_ None PNone PNone PNone false
    None None None.

(** [Shard.ratelimit_key]. *)
Definition ratelimit_key : Op Z :=
  let* sh := get_self in
  lift (py_mod (shard_id sh) (num_shards sh)).

(** [await self.session.ws_connect(url, **kwds)]: a new open socket, or the
    error of the failed attempt. *)
Definition ws_connect (u : string) (k : kwds) : Op nat :=
  fun s =>
    match connect_error s with
    | Some e => Abort e s
    | None =>
        let h := length (sockets s) in
        Return h (mk_sys (self s) (sockets s ++ [mk_socket u k [] None []])
                    (tasks s) (ratelimiter s) (connect_error s)
                    (calls s ++ [ActConnect u k h]))
    end.

(** The socket behind a handle.  The handles a shard holds come from
    [ws_connect] and always name a socket; the other branch is there to make
    the function total. *)
Definition socket_at (h : nat) : Op Socket :=
  fun s =>
    match sockets s !! h with
    | Some so => Return so s
    | None => Abort (raise_of ValueError "no such socket") s
    end.

Definition put_socket (h : nat) (so : Socket) : Op unit :=
  fun s => set_sockets (<[h := so]> (sockets s)) s.

(** [await ws.close(code=c)]: closing a socket that is already closed does
    nothing and returns [False]. *)
Definition ws_close (h : nat) (c : Z) : Op bool :=
  let* so := socket_at h in
  match sock_close_code so with
  | Some _ =>
      let* _ := call (ActClose h c false) in
      ret false
  | None =>
      let* _ := put_socket h (mk_socket (sock_url so) (sock_kwds so)
                                (sock_inbox so) (Some c) (sock_sent so)) in
      let* _ := call (ActClose h c true) in
      ret true
  end.

(** Writing to a socket; a closed socket refuses with a
    [ConnectionResetError], an [OSError]. *)
Definition ws_send (h : nat) (payload : pyval) (a : Action) : Op unit :=
  let* so := socket_at h in
  match sock_close_code so with
  | Some _ => abort (raise_of OSError "Cannot write to closing transport")
  | None =>
      let* _ := put_socket h (mk_socket (sock_url so) (sock_kwds so)
                                (sock_inbox so) None (sock_sent so ++ [payload])) in
      call a
  end.

Definition ws_send_json (h : nat) (payload : pyval) : Op unit :=
  ws_send h payload (ActSendJson h payload).

Definition ws_send_str (h : nat) (payload : pyval) : Op unit :=
  ws_send h payload (ActSendStr h (payload_json payload)).

(** [await ws.receive()]: the data of the next message, [None] when there is
    none. *)
Definition ws_receive (h : nat) : Op (option ws_data) :=
  let* so := socket_at h in
  let* _ := call (ActReceive h) in
  match sock_inbox so with
  | [] => ret None
  | d :: rest =>
      let* _ := put_socket h (mk_socket (sock_url so) (sock_kwds so) rest
                                (sock_close_code so) (sock_sent so)) in
      ret (Some d)
  end.

(** [Shard.connect], called with the keyword arguments [kwds]. *)
Definition connect (k : kwds) : Op unit :=
  let* sh := get_self in
  let* h := ws_connect (url sh) k in
  let* sh := get_self in
  let* _ := set_self (set_ws (Some h) sh) in
  let* sh := get_self in
  set_self (set_snd_kwds k sh).

(** The block [async with self.ratelimiter as lock: ...], which
    [send_identity], [resume], [change_presence] and [update_voice_state]
    each open before they write to the socket.  An exception raised inside
    leaves through [__aexit__]. *)
Definition limiter_block : Op unit :=
  let* _ := call ActLimiterEnter in
  fun s =>
    match (let* key := ratelimit_key in
           let* _ :=
             (fun s' =>
                if exceeded (ratelimiter s') key then
                  (let* key := ratelimit_key in
                   let* _ := call (ActHoldUntilReset key) in
                   fun s'' => set_ratelimiter (hold_until_reset (ratelimiter s'') key) s'') s'
                else ret tt s') in
           let* key := ratelimit_key in
           let* _ := call (ActIncrement key true) in
           fun s' => set_ratelimiter (increment (ratelimiter s') key true) s') s
    with
    | Return _ s' => call ActLimiterExit s'
    | Abort e s' =>
        match call ActLimiterExit s' with
        | Return _ s'' => Abort e s''
        | Abort e' s'' => Abort e' s''
        end
    end.

(** The calls the block makes when it meets no error, and the limiter it
    leaves. *)
Definition limiter_calls (r : Limiter) (key : Z) : list Action :=
  ([ActLimiterEnter]
   ++ (if exceeded r key then [ActHoldUntilReset key] else [])
   ++ [ActIncrement key true; ActLimiterExit])%list.

Definition limiter_after (r : Limiter) (key : Z) : Limiter :=
  increment (if exceeded r key then hold_until_reset r key else r) key true.

(** [Shard.receive_hello]. *)
Definition receive_hello : Op unit :=
  let* h := attr "'NoneType' object has no attribute 'receive'" ws in
  let* packet := ws_receive h in
  let* data := lift (decodeResponse packet) in
  let* op :=
    match data with
    | PDict d => ret (match d_lookup "op" d with Some v => v | None => PInt 0 end)
    | _ => abort (raise_of AttributeError "object has no attribute 'get'")
    end in
  let* _ := when (negb (py_eqb op (PInt gateway.HELLO)))
              (abort (raise_of GatewayError "Invalid op code recieved")) in
  let* d := lift (py_getitem data "d") in
  let* interval := lift (py_getitem d "heartbeat_interval") in
  let* sh := get_self in
  let* _ := set_self (set_keep_alive (mk_keep_alive interval false false (ws sh)) sh) in
  let* ka := attr "_keep_alive" _keep_alive in
  let* sh := get_self in
  let* _ := set_self (set_keep_alive
                        (mk_keep_alive (ka_interval ka) true (_ended ka) (_ws ka)) sh) in
  call ActKeepAliveStart.

(** [IDENTITY_PCK]. *)
Definition IDENTITY_PCK : list (string * pyval) :=
  [ ("properties",
      PDict [ ("$os", PStr sys_platform);
              ("$browser", PStr "acord");
              ("$device", PStr "acord");
              ("$referrer", PNone);
              ("$referring_domain", PNone) ]);
    ("compress", PBool true);
    ("large_threshold", PInt 250) ].

(** [Shard.send_identity(token, intents, presence)]. *)
Definition send_identity (token_ intents presence : pyval) : Op unit :=
  let* sh := get_self in
  let idn := (IDENTITY_PCK ++
              [ ("token", token_);
                ("intents", intents);
                ("presence", presence);
                ("shard", PList [PInt (shard_id sh); PInt (num_shards sh)]) ])%list in
  let payload := PDict [("op", PInt gateway.IDENTIFY); ("d", PDict idn)] in
  let* _ := limiter_block in
  let* h := attr "'NoneType' object has no attribute 'send_str'" ws in
  ws_send_str h payload.

(** [self.loop.create_task(coro)], for the coroutine the handler gave when
    it was called with [k]. *)
Definition create_task (k : call_kwds) : Op nat :=
  fun s =>
    let t := length (tasks s) in
    Return t (mk_sys (self s) (sockets s) (tasks s ++ [mk_task k None])
                (ratelimiter s) (connect_error s) (calls s ++ [ActCreateTask t])).

(** [Shard.listen], called with the keyword arguments [kwds] on a shard.
    The name [self] is taken by the shard: a keyword argument of that name
    is refused before the body runs.  In the body the handler is called
    first, and a call it refuses leaves [listen] before any task is
    created. *)
Definition listen (k : call_kwds) : Op nat :=
  let* _ := when (has_name "self" k)
              (abort (raise_of TypeError
                        "listen() got multiple values for argument 'self'")) in
  let* sh := get_self in
  let* _ := lift (handler sh k) in
  let* t := create_task k in
  let* sh := get_self in
  let* _ := set_self (set_task t sh) in
  ret t.

(** [task.cancel(msg=...)]: the request is recorded on the task; asking
    again is allowed. *)
Definition task_cancel (t : nat) (msg : string) : Op unit :=
  fun s =>
    match tasks s !! t with
    | Some tk =>
        (let* _ := set_tasks (<[t := mk_task (task_kwds tk) (Some msg)]> (tasks s)) in
         call (ActCancel t msg)) s
    | None => Abort (raise_of ValueError "no such task") s
    end.

(** [Shard.disconnect]. *)
Definition disconnect : Op unit :=
  let* ka := attr "'Shard' object has no attribute '_keep_alive'" _keep_alive in
  let* sh := get_self in
  let* _ := set_self (set_keep_alive
                        (mk_keep_alive (ka_interval ka) (ka_started ka) true (_ws ka)) sh) in
  let* h := attr "'NoneType' object has no attribute 'close'" ws in
  let* _ := ws_close h 4000 in
  let* sh := get_self in
  match task sh with
  | Some t => task_cancel t "Disconnect called"
  | None => ret tt
  end.

(** The object [resume] sends: lines 280-287. *)
Definition resume_payload (sh : Shard) : pyval :=
  PDict [ ("op", PInt gateway.RESUME);
          ("d", PDict [ ("token", token sh);
                        ("session_id", session_id sh);
                        ("seq", sequence sh) ]) ].

(** [Shard.resume(restart=...)]; it returns [self.ws]. *)
Definition resume (restart : bool) : Op (option nat) :=
  let* _ := when restart
      (let* h := attr "'NoneType' object has no attribute 'close'" ws in
       let* _ := ws_close h 4000 in
       let* k := attr "'Shard' object has no attribute '_snd_kwds'" _snd_kwds in
       let* _ := connect k in
       let* ka := attr "'Shard' object has no attribute '_keep_alive'" _keep_alive in
       let* sh := get_self in
       set_self (set_keep_alive
                   (mk_keep_alive (ka_interval ka) (ka_started ka) (_ended ka) (ws sh)) sh)) in
  let* _ := limiter_block in
  let* sh := get_self in
  let* _ := set_self (set_resuming true sh) in
  let* h := attr "'NoneType' object has no attribute 'send_json'" ws in
  let* sh := get_self in
  let* _ := ws_send_json h (resume_payload sh) in
  let* sh := get_self in
  ret (ws sh).

End Session.

End ShardModel.

(** ** Collaborators of the voice player *)

(** The voice socket ([acord.voice.core.VoiceWebsocket]) and the opus encoder
    ([acord.voice.opus.Encoder]) a player is built on: the calls the player
    makes on [self.conn], [self.encoder.encode], and the two constants of
    [self.encoder.config]. *)
Class Voice : Type := {
  Conn : Type;
  wait_until_ready : Conn -> result Conn;
  stop_speaking : Conn -> result Conn;
  send_audio_packet :
    Conn -> list Byte.byte -> forall (flags sock_flags : Z) (continued : bool), result Conn;
  sock_limit : Conn -> pyval;
  encode : list Byte.byte -> result (list Byte.byte);
  FRAME_SIZE : Z;
  SAMPLING_RATE : Z
}.

(** ** [acord/voice/transports/writer.py] *)

Module Writer.

(** A binary file object open for reading: its bytes, the read position and
    whether it has been closed. *)
Record FileObj : Type := mk_file {
  content : list Byte.byte;
  cursor : nat;
  fclosed : bool
}.

Definition closed_file_error : exn :=
  raise_of ValueError "I/O operation on closed file".

(** [fp.read(n)]: up to [n] bytes from the read position, all that is left
    for a negative [n]; the empty string at the end of the file. *)
Definition f_read (n : Z) (f : FileObj) : result (list Byte.byte * FileObj) :=
  if fclosed f then Err closed_file_error
  else
    let rest := drop (cursor f) (content f) in
    let got := if Z.ltb n 0 then rest else take (Z.to_nat n) rest in
    Ok (got, mk_file (content f) (cursor f + length got)%nat false).

Definition f_tell (f : FileObj) : result nat :=
  if fclosed f then Err closed_file_error else Ok (cursor f).

Definition f_seek (off : nat) (f : FileObj) : result FileObj :=
  if fclosed f then Err closed_file_error
  else Ok (mk_file (content f) off false).

(** [fp.close()]; closing twice is allowed. *)
Definition f_close (f : FileObj) : FileObj :=
  mk_file (content f) (cursor f) true.

(** [getFrameDur(x, y)] without its last step: the integer
    [(x * 10) // (y // 1000)], which the source then divides by 1000 into a
    float number of seconds. *)
Definition getFrameDur_ms (x y : Z) : result Z :=
  if Z.eqb (y / 1000) 0
  then Err (raise_of ZeroDivisionError "integer division or modulo by zero")
  else Ok ((x * 10) / (y / 1000)).

Section Player.
Context {V : Voice}.

(** The attributes of a [BasePlayer]. *)
Record BasePlayer : Type := mk_player {
  conn : Conn;
  fp : FileObj;
  pos : nat;
  index : Z;
  closed : bool;
  _last_pack_err : option exn;
  _last_send_err : option exn
}.

Definition P (A : Type) : Type := M exn BasePlayer A.

Definition lift {A} (r : result A) : P A :=
  match r with
  | Ok a => ret a
  | Err e => abort e
  end.

Definition set_conn (c : Conn) : P unit :=
  modify (fun p => mk_player c (fp p) (pos p) (index p) (closed p)
                     (_last_pack_err p) (_last_send_err p)).

Definition set_fp (f : FileObj) : P unit :=
  modify (fun p => mk_player (conn p) f (pos p) (index p) (closed p)
                     (_last_pack_err p) (_last_send_err p)).

Definition set_pos (n : nat) : P unit :=
  modify (fun p => mk_player (conn p) (fp p) n (index p) (closed p)
                     (_last_pack_err p) (_last_send_err p)).

Definition set_index (i : Z) : P unit :=
  modify (fun p => mk_player (conn p) (fp p) (pos p) i (closed p)
                     (_last_pack_err p) (_last_send_err p)).

Definition set_closed (b : bool) : P unit :=
  modify (fun p => mk_player (conn p) (fp p) (pos p) (index p) b
                     (_last_pack_err p) (_last_send_err p)).

Definition set_last_pack_err (e : option exn) : P unit :=
  modify (fun p => mk_player (conn p) (fp p) (pos p) (index p) (closed p)
                     e (_last_send_err p)).

Definition set_last_send_err (e : option exn) : P unit :=
  modify (fun p => mk_player (conn p) (fp p) (pos p) (index p) (closed p)
                     (_last_pack_err p) e).

(** What [BasePlayer.__init__] is given as [data]: a path, opened for
    reading here ([contents] is what the file holds), or a file object. *)
Inductive source : Type :=
| FromPath (contents : list Byte.byte)
| FromBuffer (f : FileObj).

(** [BasePlayer.__init__(conn, data, encoder)]. *)
Definition init (c : Conn) (data : source) : result BasePlayer :=
  match data with
  | FromPath contents =>
      Ok (mk_player c (mk_file contents 0 false) 0 0 false None None)
  | FromBuffer f =>
      match f_tell f with
      | Ok n => Ok (mk_player c f n 0 false None None)
      | Err e => Err e
      end
  end.

(** [BasePlayer.packet_limit]. *)
Definition packet_limit : P pyval :=
  fun p => Return (sock_limit (conn p)) p.

(** [BasePlayer.close]. *)
Definition close : P unit :=
  let* p := get in
  let* _ := when (closed p) (abort (raise_of VoiceError "Transport already closed")) in
  let* _ := set_fp (f_close (fp p)) in
  set_closed true.

(** [BasePlayer.__aiter__]; it returns [self]. *)
Definition aiter : P unit :=
  let* p := get in
  when (closed p)
    (abort (raise_of VoiceError
              "Cannot iterate through transport contents as transport is closed")).

(** [BasePlayer.get_next_packet]. *)
Definition get_next_packet : P (list Byte.byte) :=
  let* p := get in
  let* _ := set_index (index p + 1) in
  let* r := lift (f_read FRAME_SIZE (fp p)) in
  let* _ := set_fp (snd r) in
  let data := fst r in
  let* _ := when (Nat.eqb (length data) 0)
              (let* _ := close in
               abort (raise_of EOFError "Reached end of file")) in
  let* p := get in
  let* n := lift (f_tell (fp p)) in
  let* _ := set_pos n in
  ret data.

(** [BasePlayer.__anext__]: an [EOFError] of [get_next_packet] becomes
    [StopAsyncIteration]. *)
Definition anext : P (list Byte.byte) :=
  fun p =>
    match get_next_packet p with
    | Return data p' => Return data p'
    | Abort e p' =>
        if isinstance e EOFError
        then Abort (raise_of StopAsyncIteration "") p'
        else Abort e p'
    end.

(** [BasePlayer.cleanup]. *)
Definition cleanup : P unit :=
  let* p := get in
  let* f := lift (f_seek 0 (fp p)) in
  let* _ := set_fp f in
  let* _ := set_last_pack_err None in
  let* _ := set_last_send_err None in
  set_index 0.

(** [BasePlayer.send(data, flags=..., c_flags=..., continued=...)]. *)
Definition send (data : list Byte.byte) (flags c_flags : Z) (continued : bool) : P unit :=
  let* p := get in
  let* _ := when (closed p)
              (abort (raise_of VoiceError
                        "Cannot send bytes through transport as transport is closed")) in
  let* encoded_bytes := lift (encode data) in
  let* p := get in
  match send_audio_packet (conn p) encoded_bytes c_flags flags continued with
  | Ok c => set_conn c
  | Err exc =>
      if isinstance exc OSError then
        let* _ := close in
        let* _ := set_last_send_err (Some exc) in
        abort (mk_exn VoiceError "Cannot send bytes through transport"
                 [("closed", PBool true)])
      else abort exc
  end.

(** How one turn of the loop of [play] ends. *)
Inductive step_end : Type :=
| Next
| Stop.

(** The body of the loop of [play] for one [packet]; the pause between two
    packets changes nothing of the player. *)
Definition play_body (packet : list Byte.byte) (flags c_flags : Z) (continued : bool)
  : P step_end :=
  fun p =>
    match (let* _ := send packet flags c_flags continued in
           let* _ := lift (getFrameDur_ms (Z.of_nat (length packet)) SAMPLING_RATE) in
           ret Next) p with
    | Return r p' => Return r p'
    | Abort err p' =>
        if isinstance err VoiceError then
          if py_truthy (exc_getattr err "closed" (PBool false))
          then Return Stop p'
          else Abort err p'
        else Abort err p'
    end.

(** The loop [async for packet in self] of [play], after [__aiter__]; it
    returns [true] when the iteration ran to its end and [false] when the
    body returned from [play].  Every turn but the last reads at least one
    byte, so [fuel] above the number of unread bytes is never used up. *)
Fixpoint play_loop (fuel : nat) (flags c_flags : Z) (continued : bool) : P bool :=
  match fuel with
  | O => abort (raise_of (ForeignError "RecursionError" UnderException) "out of fuel")
  | S fuel' =>
      fun p =>
        match anext p with
        | Abort e p' =>
            if isinstance e StopAsyncIteration then Return true p' else Abort e p'
        | Return packet p' =>
            match play_body packet flags c_flags continued p' with
            | Return Next p'' => play_loop fuel' flags c_flags true p''
            | Return Stop p'' => Return false p''
            | Abort e p'' => Abort e p''
            end
        end
  end.

(** [BasePlayer.play(c_flags, flags=...)]. *)
Definition play (c_flags flags : Z) : P unit :=
  let* p := get in
  let* c := lift (wait_until_ready (conn p)) in
  let* _ := set_conn c in
  let* _ := aiter in
  let* p := get in
  let* finished := play_loop (S (length (content (fp p)))) flags c_flags false in
  if finished then
    let* p := get in
    let* c := lift (stop_speaking (conn p)) in
    set_conn c
  else ret tt.

(** [BasePlayer.__aenter__]. *)
Definition aenter : P unit := ret tt.

(** [BasePlayer.__aexit__]. *)
Definition aexit : P unit :=
  fun p =>
    match close p with
    | Return _ p' => Return tt p'
    | Abort e p' => if isinstance e VoiceError then Return tt p' else Abort e p'
    end.

(** The number of bytes a player can still read. *)
Definition unread (p : BasePlayer) : nat :=
  if fclosed (fp p) then 0%nat
  else length (drop (cursor (fp p)) (content (fp p))).

(** The flag and the file agree: a player that is marked closed has closed
    its file.  ([closed] is set by [close] alone, right after [fp.close()].) *)
Definition consistent (p : BasePlayer) : Prop :=
  closed p = true -> fclosed (fp p) = true.

(** A call of one of the methods of a player. *)
Inductive method : Type :=
| CallPacketLimit
| CallAiter
| CallAnext
| CallGetNextPacket
| CallClose
| CallCleanup
| CallSend (data : list Byte.byte) (flags c_flags : Z) (continued : bool)
| CallPlay (c_flags flags : Z)
| CallAenter
| CallAexit.

(** The exception a call raised, if it raised one. *)
Definition raised {A} (o : outcome exn BasePlayer A) : option exn :=
  match o with
  | Return _ _ => None
  | Abort e _ => Some e
  end.

Definition forget {A} (o : outcome exn BasePlayer A) : outcome exn BasePlayer unit :=
  match o with
  | Return _ p => Return tt p
  | Abort e p => Abort e p
  end.

Definition invoke (m : method) (p : BasePlayer) : outcome exn BasePlayer unit :=
  match m with
  | CallPacketLimit => forget (packet_limit p)
  | CallAiter => aiter p
  | CallAnext => forget (anext p)
  | CallGetNextPacket => forget (get_next_packet p)
  | CallClose => close p
  | CallCleanup => cleanup p
  | CallSend data flags c_flags continued => send data flags c_flags continued p
  | CallPlay c_flags flags => play c_flags flags p
  | CallAenter => aenter p
  | CallAexit => aexit p
  end.

(** The player after a series of calls, whatever each of them returned or
    raised. *)
Fixpoint after (ms : list method) (p : BasePlayer) : BasePlayer :=
  match ms with
  | [] => p
  | m :: ms' => after ms' (final (invoke m p))
  end.

(** The packets an [async for packet in self] loop receives, as the loop
    of [play] does (lines 115-124), with a body that only keeps the packet;
    [StopAsyncIteration] ends the loop, any other exception leaves it. *)
Fixpoint drain (fuel : nat) : P (list (list Byte.byte)) :=
  match fuel with
  | O => abort (raise_of (ForeignError "RecursionError" UnderException) "out of fuel")
  | S fuel' =>
      fun p =>
        match anext p with
        | Abort e p' =>
            if isinstance e StopAsyncIteration then Return [] p' else Abort e p'
        | Return packet p' =>
            match drain fuel' p' with
            | Return packets p'' => Return (packet :: packets) p''
            | Abort e p'' => Abort e p''
            end
        end
  end.

(** The bytes the next read of a player returns: up to [FRAME_SIZE] of the
    unread ones. *)
Definition next_chunk (p : BasePlayer) : list Byte.byte :=
  let rest := drop (cursor (fp p)) (content (fp p)) in
  if Z.ltb FRAME_SIZE 0 then rest else take (Z.to_nat FRAME_SIZE) rest.

End Player.

End Writer.

(** ** [docs/extensions/jinja.py] *)

(** The built-in [dir]: the names an object answers to. *)
Class Introspection : Type := {
  PyObject : Type;
  dir : PyObject -> list string
}.

Module Jinja.

Definition SHARED_PROPERTIES : list string :=
  [ "Config"; "construct"; "copy"; "dict"; "from_orm";
    "json"; "parse_file"; "parse_obj"; "parse_raw"; "schema";
    "schema_json"; "update_forward_refs"; "validate" ].

(** [element.startswith("_") or element in SHARED_PROPERTIES]. *)
Definition skipped (element : string) : bool :=
  String.prefix "_" element || existsb (String.eqb element) SHARED_PROPERTIES.

(** The loop of [filter_properties] over [elements], with [filtered] as it
    stands. *)
Fixpoint filter_loop (elements filtered : list string) : list string :=
  match elements with
  | [] => filtered
  | element :: elements' =>
      if skipped element then filter_loop elements' filtered
      else filter_loop elements' (filtered ++ [element])
  end.

(** [filter_properties(cls)]. *)
Definition filter_properties {I : Introspection} (cls : PyObject) : list string :=
  let elements := dir cls in
  filter_loop elements [].

End Jinja.

(** ** A concrete session, for running the code *)

Module Scenario.

Definition dq : string := String "034"%char EmptyString.

(** The text [json.dumps] gives for a value (no escapes are needed by the
    strings used below). *)
Fixpoint json_dumps (v : pyval) : string :=
  match v with
  | PNone => "null"
  | PBool true => "true"
  | PBool false => "false"
  | PInt z => pretty z
  | PStr s => dq ++ s ++ dq
  | PList l =>
      "[" ++ (fix items (l : list pyval) : string :=
                match l with
                | [] => ""
                | x :: l' =>
                    match l' with
                    | [] => json_dumps x
                    | _ :: _ => json_dumps x ++ ", " ++ items l'
                    end
                end) l ++ "]"
  | PDict d =>
      "{" ++ (fix items (d : list (string * pyval)) : string :=
                match d with
                | [] => ""
                | (k, x) :: d' =>
                    match d' with
                    | [] => dq ++ k ++ dq ++ ": " ++ json_dumps x
                    | _ :: _ => dq ++ k ++ dq ++ ": " ++ json_dumps x ++ ", " ++ items d'
                    end
                end) d ++ "}"
  end.

Definition envelope (t : pyval) (op : Z) (s : pyval) (d : pyval) : pyval :=
  PDict [("t", t); ("s", s); ("op", PInt op); ("d", d)].

(** READY, listing guild 123 as not yet available. *)
Definition ready_env : pyval :=
  envelope (PStr "READY") 0 (PInt 1)
    (PDict [ ("v", PInt 9);
             ("user", PDict [("id", PStr "42"); ("username", PStr "acord")]);
             ("session_id", PStr "abc");
             ("guilds", PList [PDict [("id", PStr "123"); ("unavailable", PBool true)]]) ]).

Definition guild_create_env : pyval :=
  envelope (PStr "GUILD_CREATE") 0 (PInt 2)
    (PDict [("id", PStr "123"); ("name", PStr "acord")]).

(** GUILD_DELETE with the "unavailable" marker. *)
Definition guild_outage_env : pyval :=
  envelope (PStr "GUILD_DELETE") 0 (PInt 3)
    (PDict [("unavailable", PBool true); ("id", PStr "123")]).

(** GUILD_DELETE without the marker, the id as JSON sends it and as ETF
    sends it. *)
Definition guild_delete_env : pyval :=
  envelope (PStr "GUILD_DELETE") 0 (PInt 3) (PDict [("id", PStr "123")]).

Definition guild_delete_int_env : pyval :=
  envelope (PStr "GUILD_DELETE") 0 (PInt 3) (PDict [("id", PInt 123)]).

Definition invalid_session_env : pyval :=
  envelope PNone gateway.INVALIDSESSION PNone (PBool false).

Definition hello_env : pyval :=
  envelope PNone gateway.HELLO PNone (PDict [("heartbeat_interval", PInt 41250)]).

Definition known_frames : list pyval :=
  [ ready_env; guild_create_env; guild_outage_env; guild_delete_env;
    guild_delete_int_env; invalid_session_env; hello_env ].

(** A decoder that knows the frames above by their text and rejects every
    other text as malformed. *)
Definition decode_known (text : string) : result pyval :=
  match find (fun v => String.eqb (json_dumps v) text) known_frames with
  | Some v => Ok v
  | None => Err (raise_of DecodeError "malformed frame")
  end.

#[export] Instance decoders : Decoders := {|
  decompressResponse := fun b => Ok (string_of_list_byte b);
  ETF := fun _ => Err (raise_of DecodeError "malformed frame");
  JSON := decode_known
|}.

(** Entities that are nothing but the fields they were built from. *)
#[export] Instance entities : Entities := {|
  User := list (string * pyval);
  Message := list (string * pyval);
  Guild := list (string * pyval);
  Channel := list (string * pyval)
|}.

Definition id_key (fields : list (string * pyval)) : pykey :=
  match d_lookup "id" fields with
  | Some v => match py_int v with Ok z => KInt z | Err _ => KNone end
  | None => KNone
  end.

(** A message needs an "id" and a "channel_id" that are texts or numbers;
    [ValidationError] is the error of the model layer, a [ValueError]. *)
Definition is_id (v : option pyval) : bool :=
  match v with
  | Some (PStr _) | Some (PInt _) => true
  | _ => false
  end.

Definition new_message (kw : list (string * pyval)) : result (list (string * pyval)) :=
  if is_id (d_lookup "id" kw) && is_id (d_lookup "channel_id" kw) then Ok kw
  else Err (raise_of (ForeignError "ValidationError" UnderValueError) "field required").

(** An id as an f-string renders it: a text as it is, a number in decimal. *)
Definition text_field (k : string) (fields : list (string * pyval)) : string :=
  match d_lookup k fields with
  | Some (PStr s) => s
  | Some (PInt z) => pretty z
  | _ => "None"
  end.

#[export] Instance models : Models := {|
  User_new := fun kw => Ok kw;
  user_id := id_key;
  Message_new := new_message;
  message_key := fun m => text_field "channel_id" m ++ ":" ++ text_field "id" m;
  touch_channel := fun _ st => Ok st;
  Guild_new := fun kw => Ok kw;
  d_to_channel := fun v =>
    match v with
    | PDict d => Ok d
    | _ => Err (raise_of TypeError "channel data must be a mapping")
    end;
  channel_id := id_key
|}.

Definition text_frame (v : pyval) : Handler.WSMessage :=
  Handler.mk_msg (DText (json_dumps v)).

Definition malformed_frame : Handler.WSMessage :=
  Handler.mk_msg (DText "{not json").

(** A client that has received nothing yet. *)
Definition client0 : Handler.Client :=
  Handler.mk_client PNone PNone None (mk_storage _ ∅ ∅ ∅ ∅) PNone [].

Definition names (c : Handler.Client) : list string :=
  map Handler.ev_name (Handler.dispatched c).

(** A limiter that lets two calls through per window. *)
#[export] Instance ratelimiter : Ratelimiter := {|
  Limiter := nat;
  exceeded := fun n _ => Nat.leb 2 n;
  hold_until_reset := fun _ _ => 0%nat;
  increment := fun n _ _ => S n
|}.

#[export] Instance shard_env : ShardEnv := {|
  decodeResponse := fun d =>
    match d with
    | Some (DText text) => decode_known text
    | Some (DBytes b) => decode_known (string_of_list_byte b)
    | None => Err (raise_of TypeError "no data")
    end;
  sys_platform := "linux";
  payload_json := json_dumps
|}.

(** A handler of the user's own, [async def on_socket(client, ws)]. *)
Definition user_handler : ShardModel.Callable :=
  ShardModel.async_def "on_socket" ["client"; "ws"].

(** A shard that was only constructed with that handler, and the world
    around it: the handshake of the gateway is the one frame its socket will
    deliver. *)
Definition shard0 : ShardModel.Shard :=
  ShardModel.init "wss://gateway.discord.gg" 0 1 (PStr "token") user_handler.

Definition sys0 : ShardModel.Sys :=
  ShardModel.mk_sys shard0 [] [] 0%nat None [].

(** The same shard with a session to resume. *)
Definition with_session (sid : pyval) (seq : pyval) (s : ShardModel.Sys) : ShardModel.Sys :=
  let sh := ShardModel.self s in
  ShardModel.mk_sys
    (ShardModel.mk_shard (ShardModel.url sh) (ShardModel.shard_id sh)
       (ShardModel.num_shards sh) (ShardModel.token sh) (ShardModel.handler sh)
       (ShardModel.ws sh)
       seq sid (ShardModel.gateway_version sh) (ShardModel.resuming sh)
       (ShardModel._snd_kwds sh) (ShardModel._keep_alive sh) (ShardModel.task sh))
    (ShardModel.sockets s) (ShardModel.tasks s) (ShardModel.ratelimiter s)
    (ShardModel.connect_error s) (ShardModel.calls s).

(** The gateway puts its hello on the socket [h]. *)
Definition deliver (h : nat) (d : ws_data) (s : ShardModel.Sys) : ShardModel.Sys :=
  match ShardModel.sockets s !! h with
  | Some so =>
      ShardModel.mk_sys (ShardModel.self s)
        (<[h := ShardModel.mk_socket (ShardModel.sock_url so) (ShardModel.sock_kwds so)
                  (ShardModel.sock_inbox so ++ [d]) (ShardModel.sock_close_code so)
                  (ShardModel.sock_sent so)]> (ShardModel.sockets s))
        (ShardModel.tasks s) (ShardModel.ratelimiter s)
        (ShardModel.connect_error s) (ShardModel.calls s)
  | None => s
  end.

(** What the handler is to be called with: the client and the socket of the
    shard. *)
Definition listen_kwds : ShardModel.call_kwds :=
  [("client", ShardModel.ObjClient); ("ws", ShardModel.ObjSocket 0)].

(** [connect], the hello of the gateway, [receive_hello], [listen]. *)
Definition sys_listening : ShardModel.Sys :=
  let s1 := final (ShardModel.connect [] sys0) in
  let s2 := deliver 0 (DText (json_dumps hello_env)) s1 in
  let s3 := final (ShardModel.receive_hello s2) in
  with_session (PStr "abc") (PInt 42) (final (ShardModel.listen listen_kwds s3)).

(** The socket and the keep-alive object of [sys_listening]. *)
Definition socket0 : ShardModel.Socket :=
  ShardModel.mk_socket "wss://gateway.discord.gg" [] [] None [].

Definition keep_alive0 : ShardModel.KeepAlive :=
  ShardModel.mk_keep_alive (PInt 41250) true false (Some 0%nat).

(** A voice socket that records the packets written to it, and an encoder
    that passes the bytes through, two per frame. *)
#[export] Instance voice : Voice := {|
  Conn := list (list Byte.byte);
  wait_until_ready := fun c => Ok c;
  stop_speaking := fun c => Ok c;
  send_audio_packet := fun c b _ _ _ => Ok (c ++ [b])%list;
  sock_limit := fun _ => PInt 4096;
  encode := fun b => Ok b;
  FRAME_SIZE := 2;
  SAMPLING_RATE := 48000
|}.

Definition three_bytes : list Byte.byte := [Byte.x01; Byte.x02; Byte.x03].

Definition player0 : Writer.BasePlayer :=
  Writer.mk_player [] (Writer.mk_file three_bytes 0 false) 0 0 false None None.

(** The same player once its three bytes have been read. *)
Definition player_at_end : Writer.BasePlayer :=
  Writer.mk_player [] (Writer.mk_file three_bytes 3 false) 3 2 false None None.

(** [player0] after [close]. *)
Definition player_closed : Writer.BasePlayer :=
  Writer.mk_player [] (Writer.mk_file three_bytes 0 true) 0 0 true None None.

(** Calls made on a player after it was closed. *)
Definition later_calls : list Writer.method :=
  [ Writer.CallCleanup;
    Writer.CallSend [Byte.x01] 0 5 false;
    Writer.CallAnext;
    Writer.CallPlay 5 0;
    Writer.CallAexit ].

End Scenario.

(** ** More frames, and collaborators that fail *)

Module MoreFrames.
Import Scenario.

Definition heartbeat_ack_env : pyval :=
  envelope PNone gateway.HEARTBEATACK PNone PNone.

Definition typing_start_env : pyval :=
  envelope (PStr "TYPING_START") 0 (PInt 4)
    (PDict [("channel_id", PStr "99"); ("user_id", PStr "42")]).

Definition channel_create_env : pyval :=
  envelope (PStr "CHANNEL_CREATE") 0 (PInt 5)
    (PDict [("id", PStr "99"); ("name", PStr "general")]).

Definition channel_update_env : pyval :=
  envelope (PStr "CHANNEL_UPDATE") 0 (PInt 6)
    (PDict [("id", PStr "99"); ("name", PStr "lobby")]).

Definition channel_delete_env : pyval :=
  envelope (PStr "CHANNEL_DELETE") 0 (PInt 7) (PDict [("id", PStr "99")]).

(** The same id written the other ways [int] reads as 99: with blanks
    around it, and with an underscore between the digits. *)
Definition channel_delete_padded_env : pyval :=
  envelope (PStr "CHANNEL_DELETE") 0 (PInt 7) (PDict [("id", PStr " 99 ")]).

Definition channel_delete_underscore_env : pyval :=
  envelope (PStr "CHANNEL_DELETE") 0 (PInt 7) (PDict [("id", PStr "9_9")]).

(** An id that is no number. *)
Definition channel_delete_named_env : pyval :=
  envelope (PStr "CHANNEL_DELETE") 0 (PInt 7) (PDict [("id", PStr "general")]).

Definition message_create_env : pyval :=
  envelope (PStr "MESSAGE_CREATE") 0 (PInt 8)
    (PDict [("id", PStr "7"); ("channel_id", PStr "99"); ("content", PStr "hi")]).

(** READY whose one guild entry has no id. *)
Definition ready_without_guild_id_env : pyval :=
  envelope (PStr "READY") 0 (PInt 1)
    (PDict [ ("v", PInt 9);
             ("user", PDict [("id", PStr "42"); ("username", PStr "acord")]);
             ("session_id", PStr "abc");
             ("guilds", PList [PDict [("unavailable", PBool true)]]) ]).

Definition more_frames : list pyval :=
  (known_frames ++
   [ heartbeat_ack_env; typing_start_env; channel_create_env; channel_update_env;
     channel_delete_env; message_create_env; ready_without_guild_id_env;
     channel_delete_padded_env; channel_delete_underscore_env;
     channel_delete_named_env ])%list.

Definition decode_more (text : string) : result pyval :=
  match find (fun v => String.eqb (json_dumps v) text) more_frames with
  | Some v => Ok v
  | None => Err (raise_of DecodeError "malformed frame")
  end.

Definition decoders_more : Decoders := {|
  decompressResponse := fun b => Ok (string_of_list_byte b);
  ETF := fun _ => Err (raise_of DecodeError "malformed frame");
  JSON := decode_more
|}.

(** Models whose messages find no channel object: the [try] block of
    MESSAGE_CREATE raises [ValueError]. *)
Definition models_detached : Models := {|
  User_new := fun kw => Ok kw;
  user_id := id_key;
  Message_new := new_message;
  message_key := fun m => text_field "channel_id" m ++ ":" ++ text_field "id" m;
  touch_channel := fun _ _ => Err (raise_of ValueError "channel not found");
  Guild_new := fun kw => Ok kw;
  d_to_channel := fun v =>
    match v with
    | PDict d => Ok d
    | _ => Err (raise_of TypeError "channel data must be a mapping")
    end;
  channel_id := id_key
|}.

(** Models whose channel step raises a subclass of [ValueError], and models
    whose channel step raises [TypeError]. *)
Definition models_failing (e : exn) : Models := {|
  User_new := fun kw => Ok kw;
  user_id := id_key;
  Message_new := new_message;
  message_key := fun m => text_field "channel_id" m ++ ":" ++ text_field "id" m;
  touch_channel := fun _ _ => Err e;
  Guild_new := fun kw => Ok kw;
  d_to_channel := fun v =>
    match v with
    | PDict d => Ok d
    | _ => Err (raise_of TypeError "channel data must be a mapping")
    end;
  channel_id := id_key
|}.

Definition unicode_error : exn :=
  raise_of (ForeignError "UnicodeDecodeError" UnderValueError) "invalid start byte".

Definition type_error : exn :=
  raise_of TypeError "'NoneType' object is not callable".

Definition more_frame (v : pyval) : Handler.WSMessage :=
  Handler.mk_msg (DText (json_dumps v)).

(** The loop with these decoders, and with models that find no channel. *)
Definition run : list Handler.WSMessage -> M exn Handler.Client unit :=
  Handler.handle_websocket (Dec := decoders_more).

Definition run_detached : list Handler.WSMessage -> M exn Handler.Client unit :=
  Handler.handle_websocket (Dec := decoders_more) (Mod := models_detached).

Definition decodes_more : Handler.WSMessage -> pyval -> pyval -> pyval -> pyval -> Prop :=
  Handler.decodes (Dec := decoders_more).

End MoreFrames.

(** ** More voice sockets *)

Module MorePlayers.
Import Scenario.

(** A voice socket whose transport is gone: every write raises
    [ConnectionResetError], an [OSError]. *)
Definition voice_broken : Voice := {|
  Conn := list (list Byte.byte);
  wait_until_ready := fun c => Ok c;
  stop_speaking := fun c => Ok (c ++ [[]])%list;
  send_audio_packet := fun _ _ _ _ _ => Err (raise_of OSError "Connection reset by peer");
  sock_limit := fun _ => PInt 4096;
  encode := fun b => Ok b;
  FRAME_SIZE := 2;
  SAMPLING_RATE := 48000
|}.

(** An encoder configured with a sampling rate of 800 Hz. *)
Definition voice_slow : Voice := {|
  Conn := list (list Byte.byte);
  wait_until_ready := fun c => Ok c;
  stop_speaking := fun c => Ok c;
  send_audio_packet := fun c b _ _ _ => Ok (c ++ [b])%list;
  sock_limit := fun _ => PInt 4096;
  encode := fun b => Ok b;
  FRAME_SIZE := 2;
  SAMPLING_RATE := 800
|}.

Definition file0 : Writer.FileObj := Writer.mk_file three_bytes 0 false.

Definition player_broken : Writer.BasePlayer (V := voice_broken) :=
  Writer.mk_player (V := voice_broken) [] file0 0 0 false None None.

Definition player_slow : Writer.BasePlayer (V := voice_slow) :=
  Writer.mk_player (V := voice_slow) [] file0 0 0 false None None.

(** A buffer handed to a player after its first byte was read. *)
Definition file_at_1 : Writer.FileObj := Writer.mk_file three_bytes 1 false.

End MorePlayers.

(** ** More states of a shard *)

Module MoreSessions.
Import Scenario.

(** After [connect], before any frame. *)
Definition sys_connected : ShardModel.Sys :=
  final (ShardModel.connect [] sys0).

(** The gateway has sent its hello; the gateway has sent something else. *)
Definition sys_hello_pending : ShardModel.Sys :=
  deliver 0 (DText (json_dumps hello_env)) sys_connected.

Definition sys_other_pending : ShardModel.Sys :=
  deliver 0 (DText (json_dumps guild_create_env)) sys_connected.

(** After [connect] and [receive_hello], before [listen]. *)
Definition sys_after_hello : ShardModel.Sys :=
  final (ShardModel.receive_hello sys_hello_pending).

(** [sys_listening] once the gateway cannot be reached any more. *)
Definition sys_offline : ShardModel.Sys :=
  ShardModel.mk_sys (ShardModel.self sys_listening) (ShardModel.sockets sys_listening)
    (ShardModel.tasks sys_listening) (ShardModel.ratelimiter sys_listening)
    (Some (raise_of OSError "Cannot connect to host"))
    (ShardModel.calls sys_listening).

(** A shard constructed with a shard count of zero, and with the default
    handler. *)
Definition sys_no_shards : ShardModel.Sys :=
  ShardModel.mk_sys
    (ShardModel.init "wss://gateway.discord.gg" 0 0 (PStr "token")
       ShardModel.handle_websocket_call)
    [] [] 0%nat None [].

End MoreSessions.

(** * Properties *)

Lemma Ok_inj {A} (a b : A) : Ok a = Ok b -> a = b.
Proof.
  intros Heq.
  exact (f_equal (fun r => match r with Ok x => x | Err _ => a end) Heq).
Qed.

Lemma Return_state {E S A} (a b : A) (s s' : S) :
  Return (E:=E) a s = Return b s' -> s = s'.
Proof. intros Heq. exact (f_equal final Heq). Qed.

Section Respects.
Context {E S : Type} (R : S -> S -> Prop).
Hypothesis R_refl : forall s, R s s.
Hypothesis R_trans : forall s1 s2 s3, R s1 s2 -> R s2 s3 -> R s1 s3.

Lemma respects_ret {A} (a : A) : respects R (ret (E:=E) a).
Proof. intros s. apply R_refl. Qed.

Lemma respects_abort {A} (e : E) : respects R (abort (A:=A) e).
Proof. intros s. apply R_refl. Qed.

Lemma respects_modify (f : S -> S) :
  (forall s, R s (f s)) -> respects R (modify (E:=E) f).
Proof. intros Hf s. apply Hf. Qed.

Lemma respects_bind {A B} (m : M E S A) (f : A -> M E S B) :
  respects R m -> (forall a, respects R (f a)) -> respects R (bind m f).
Proof.
  intros Hm Hf s. unfold bind. specialize (Hm s).
  destruct (m s) as [a s'|e s']; cbn in Hm.
  - apply (R_trans _ _ _ Hm). apply Hf.
  - exact Hm.
Qed.

Lemma respects_when (b : bool) (m : M E S unit) :
  respects R m -> respects R (when b m).
Proof. intros Hm. destruct b; [exact Hm|apply respects_ret]. Qed.

(** The continuation may rely on what [m] is known to return. *)
Lemma respects_bind_returned {A B} (Q : A -> Prop) (m : M E S A) (f : A -> M E S B) :
  respects R m ->
  (forall s a, returned (m s) = Some a -> Q a) ->
  (forall a, Q a -> respects R (f a)) ->
  respects R (bind m f).
Proof.
  intros Hm HQ Hf s. unfold bind. specialize (Hm s). specialize (HQ s).
  destruct (m s) as [a s'|e s']; cbn in Hm, HQ.
  - apply (R_trans _ _ _ Hm). apply Hf. apply HQ. reflexivity.
  - exact Hm.
Qed.

End Respects.

(** A computation that ends in an [abort] on every path returns nothing. *)
Lemma bind_returns_nothing {E S A B} (m : M E S A) (f : A -> M E S B) :
  (forall a s, returned (f a s) = None) -> forall s, returned (bind m f s) = None.
Proof.
  intros Hf s. unfold bind. destruct (m s) as [a s'|e s']; [apply Hf|reflexivity].
Qed.

(** ** Sharding *)

(** C1 (shard ownership is bit-exact and a partition): for every guild id and
    every positive shard count, [contains_guild] returns, without raising,
    the truth value of [((guild_id >> 22) % num_shards) == shard_id] for
    every shard id, and exactly one shard id in [0, num_shards) owns the
    guild. *)
Theorem contains_guild_partition (num_shards guild_id : Z) :
  0 < num_shards ->
  (forall shard_id,
      Sharding.contains_guild shard_id num_shards guild_id
      = Ok (Z.eqb (Z.shiftr guild_id 22 mod num_shards) shard_id)) /\
  (exists k, (0 <= k < num_shards /\
              Sharding.contains_guild k num_shards guild_id = Ok true) /\
             forall k', 0 <= k' < num_shards ->
                        Sharding.contains_guild k' num_shards guild_id = Ok true ->
                        k' = k).
Proof.
  intros Hpos.
  assert (Hgen : forall shard_id,
             Sharding.contains_guild shard_id num_shards guild_id
             = Ok (Z.eqb (Z.shiftr guild_id 22 mod num_shards) shard_id)).
  { intros shard_id. unfold Sharding.contains_guild, py_mod, py_rshift.
    destruct (Z.eqb_spec num_shards 0) as [->|Hne]; [lia | reflexivity]. }
  split; [exact Hgen|].
  exists (Z.shiftr guild_id 22 mod num_shards). split.
  - split.
    + apply Z.mod_pos_bound. exact Hpos.
    + rewrite Hgen. f_equal. apply Z.eqb_refl.
  - intros k' _ Hown. rewrite Hgen in Hown.
    symmetry. apply Z.eqb_eq. congruence.
Qed.

Lemma contains_guild_partition_witness :
  0 < 4 /\
  (forall shard_id,
      Sharding.contains_guild shard_id 4 175928847299117063
      = Ok (Z.eqb (Z.shiftr 175928847299117063 22 mod 4) shard_id)) /\
  (exists k, (0 <= k < 4 /\
              Sharding.contains_guild k 4 175928847299117063 = Ok true) /\
             forall k', 0 <= k' < 4 ->
                        Sharding.contains_guild k' 4 175928847299117063 = Ok true ->
                        k' = k).
Proof.
  split; [lia|]. apply (contains_guild_partition 4 175928847299117063). lia.
Defined.

(** ** The dispatcher *)

Section DispatcherProperties.
Context {Dec : Decoders} {Ent : Entities} {Mod : Models}.
Import Handler.

Lemma py_eqb_PStr (v : pyval) (s : string) :
  py_eqb v (PStr s) = true -> v = PStr s.
Proof.
  destruct v; simpl; try discriminate.
  intros Heq. apply String.eqb_eq in Heq. congruence.
Qed.

Lemma nonempty_truthy (text : string) :
  text <> "" -> negb (py_truthy (PStr text)) = false.
Proof.
  intros Hne. destruct text as [|a text]; [contradiction|reflexivity].
Qed.

(** A frame that decodes reaches [on_envelope] with its four fields, after
    the "socket_recieve" event. *)
Lemma handle_frame_decoded (m : WSMessage) (EVENT OPERATION DATA SEQUENCE : pyval)
    (c : Client) :
  decodes m EVENT OPERATION DATA SEQUENCE ->
  handle_frame m c
  = on_envelope EVENT OPERATION DATA SEQUENCE (fired "socket_recieve" [ArgFrame m] c).
Proof.
  intros (text & env & Htext & Hne & Hdec & Ht & Hop & Hd & Hs).
  unfold handle_frame, bind, dispatch, modify.
  rewrite Htext. cbn [lift ret].
  rewrite (nonempty_truthy text Hne). cbn [when ret].
  rewrite Hdec. cbn [lift ret].
  rewrite Ht, Hop, Hd, Hs. reflexivity.
Qed.

(** A frame that fails to decode leaves the body with the decoder's error,
    after the "socket_recieve" event and nothing else. *)
Lemma handle_frame_undecodable (m : WSMessage) (e : exn) (c : Client) :
  decoding_fails m e ->
  handle_frame m c = Abort (Exc e) (fired "socket_recieve" [ArgFrame m] c).
Proof.
  intros [Htext | (text & Htext & Hne & Hdec)];
    unfold handle_frame, bind, dispatch, modify; rewrite Htext; cbn [lift ret abort].
  - reflexivity.
  - rewrite (nonempty_truthy text Hne). cbn [when ret].
    rewrite Hdec. reflexivity.
Qed.

(** A frame without data is skipped by the [continue] of line 21. *)
Lemma handle_frame_empty (m : WSMessage) (c : Client) :
  frame_text m = Ok "" ->
  handle_frame m c = Abort Continue (fired "socket_recieve" [ArgFrame m] c).
Proof.
  intros Htext. unfold handle_frame, bind, dispatch, modify.
  rewrite Htext. reflexivity.
Qed.

Lemma handle_websocket_raise (m : WSMessage) (rest : list WSMessage) (e : exn)
    (c c' : Client) :
  handle_frame m c = Abort (Exc e) c' ->
  handle_websocket (m :: rest) c = Abort e c'.
Proof. intros Hf. cbn [handle_websocket]. rewrite Hf. reflexivity. Qed.

Lemma handle_websocket_next (m : WSMessage) (rest : list WSMessage) (c c' : Client) :
  handle_frame m c = Return tt c' \/ handle_frame m c = Abort Continue c' ->
  handle_websocket (m :: rest) c = handle_websocket rest c'.
Proof. intros [Hf|Hf]; cbn [handle_websocket]; rewrite Hf; reflexivity. Qed.

(** The only subclass of [GatewayConnectionRefused] is the class itself. *)
Lemma refused_has_no_subclass (cls : exc_class) :
  issubclass cls GatewayConnectionRefused = true -> cls = GatewayConnectionRefused.
Proof.
  destruct cls as [| | | | | | | | | | | | | | | | | | | | | | | | | | | |name parent];
    try (vm_compute; congruence).
  destruct parent; vm_compute; congruence.
Qed.

(** The classes an instance of [GatewayConnectionRefused] belongs to. *)
Lemma refused_superclasses (cls : exc_class) :
  issubclass GatewayConnectionRefused cls = true ->
  In cls [GatewayConnectionRefused; GatewayError; BaseExc; PyException; PyBaseException].
Proof. destruct cls; vm_compute; intros Hs; try discriminate; tauto. Qed.

(** A class of a library is caught by the clause of the built-in class it
    derives from, and by the clauses of the bases of that class only. *)
Lemma foreign_class_caught_by_its_base (name msg : string) (parent : builtin_base)
    (cls : exc_class) :
  isinstance (raise_of (ForeignError name parent) msg) cls
  = exc_class_eqb (ForeignError name parent) cls || issubclass (builtin_class parent) cls.
Proof.
  unfold isinstance, issubclass. cbn [exc_type raise_of].
  destruct parent, cls; try reflexivity;
    cbn; rewrite ?orb_false_r, ?andb_false_r; reflexivity.
Qed.

Lemma no_new_guild_recv_refl (c : Client) : no_new_guild_recv c c.
Proof. exists []. split; [rewrite app_nil_r; reflexivity|constructor]. Qed.

Lemma no_new_guild_recv_trans (c1 c2 c3 : Client) :
  no_new_guild_recv c1 c2 -> no_new_guild_recv c2 c3 -> no_new_guild_recv c1 c3.
Proof.
  intros (a1 & H1 & F1) (a2 & H2 & F2). exists (a1 ++ a2)%list. split.
  - rewrite H2, H1, app_assoc. reflexivity.
  - apply Forall_app. split; assumption.
Qed.

Lemma dispatch_no_guild_recv (name : string) (args : list EventArg) :
  name <> "guild_recv" -> respects no_new_guild_recv (dispatch name args).
Proof.
  intros Hname c. exists [mk_event name args]. split; [reflexivity|].
  constructor; [exact Hname|constructor].
Qed.

Lemma lift_no_guild_recv {A} (r : result A) : respects no_new_guild_recv (lift r).
Proof. intros c. destruct r; apply no_new_guild_recv_refl. Qed.

Lemma same_events (c c' : Client) :
  dispatched c' = dispatched c -> no_new_guild_recv c c'.
Proof.
  intros Heq. exists []. split; [rewrite app_nil_r; exact Heq|constructor].
Qed.

Lemma set_storage_no_guild_recv (st : Storage) :
  respects no_new_guild_recv (set_storage st).
Proof. intros c. apply same_events. reflexivity. Qed.

(** The block of READY hands on the empty list of line 34 when it is passed
    over, and nothing at all when it is entered: it ends in [continue]. *)
Ltac ready_block :=
  match goal with
  | |- respects _ (bind (if ?b then _ else ret ?v) _) =>
      apply (respects_bind_returned _ no_new_guild_recv_trans (fun a => a = v));
      [ | intros ? ?; destruct b;
          [ intros Hret;
            match type of Hret with
            | returned ?o = _ =>
                assert (Hnone : returned o = None)
                  by (repeat (apply bind_returns_nothing; intros ? ?); reflexivity)
            end;
            congruence
          | cbn; intros Hret; congruence ]
        | intros ? -> ]
  end.

Ltac quiet_step :=
  first
    [ ready_block
    | apply (respects_bind _ no_new_guild_recv_trans); [|intros ?]
    | apply (respects_ret _ no_new_guild_recv_refl)
    | apply (respects_abort _ no_new_guild_recv_refl)
    | apply (respects_when _ no_new_guild_recv_refl)
    | apply lift_no_guild_recv
    | apply set_storage_no_guild_recv
    | apply dispatch_no_guild_recv; discriminate
    | apply (respects_modify no_new_guild_recv); intros ?; apply same_events; reflexivity
    | match goal with
      | |- respects _ (if ?b then _ else _) => destruct b
      | |- respects _ (match ?x with _ => _ end) => destruct x
      end ].

Ltac quiet :=
  repeat (cbn beta zeta delta [py_in existsb] iota; quiet_step).

(** Whatever the frame and whatever the decoders and models, the body of
    the loop dispatches no "guild_recv": the test of line 76 is made on the
    empty list of line 34. *)
Lemma handle_frame_no_guild_recv (m : WSMessage) :
  respects no_new_guild_recv (handle_frame m).
Proof.
  unfold handle_frame, on_envelope, raise, continue, set_SEQUENCE, set_session_id,
    set_gateway_version, set_user, update_users, update_messages, update_guilds,
    update_channels, pop_guild, pop_channel, try_touch_channel, get_storage.
  quiet.
  all: try (intros c; apply same_events; reflexivity).
Qed.

Lemma handle_websocket_no_guild_recv (ws : list WSMessage) (c : Client) :
  no_new_guild_recv c (final (handle_websocket ws c)).
Proof.
  revert c. induction ws as [|m ws IH]; intros c.
  - apply no_new_guild_recv_refl.
  - cbn [handle_websocket]. pose proof (handle_frame_no_guild_recv m c) as Hm.
    destruct (handle_frame m c) as [[] c'|[e|] c']; cbn in Hm.
    + apply (no_new_guild_recv_trans _ _ _ Hm). apply IH.
    + exact Hm.
    + apply (no_new_guild_recv_trans _ _ _ Hm). apply IH.
Qed.

(** "guild_recv" is never dispatched: an event of that name found after
    [handle_websocket] ran was there before. *)
Lemma guild_recv_never_dispatched (ws : list WSMessage) (c : Client) (ev : Event) :
  In ev (dispatched (final (handle_websocket ws c))) ->
  ev_name ev = "guild_recv" ->
  In ev (dispatched c).
Proof.
  intros Hin Hname.
  destruct (handle_websocket_no_guild_recv ws c) as (added & Heq & Hall).
  rewrite Heq in Hin. apply in_app_or in Hin. destruct Hin as [Hin|Hin].
  - exact Hin.
  - rewrite Forall_forall in Hall. exfalso.
    apply (Hall ev); [apply list_elem_of_In; exact Hin|exact Hname].
Qed.

Lemma marker_not_none (marker : pyval) :
  marker <> PNone -> negb (py_eqb marker PNone) = true.
Proof. destruct marker; try reflexivity. intros Hne. contradiction. Qed.

(** C6 (an invalid session is fatal and recognisable): a frame whose op code
    is InvalidSession makes [handle_websocket] raise
    [GatewayConnectionRefused] to its caller, whatever frames would follow;
    the error is no instance of [GatewayConnectionClosed] nor of a decode
    error class, no instance of another class is caught as
    [GatewayConnectionRefused], and the only classes that catch it are its
    own bases. *)
Theorem invalid_session_raises_refused
    (m : WSMessage) (rest : list WSMessage)
    (EVENT OPERATION DATA SEQUENCE : pyval) (c : Client) :
  decodes m EVENT OPERATION DATA SEQUENCE ->
  py_eqb OPERATION (PInt gateway.INVALIDSESSION) = true ->
  let e := raise_of GatewayConnectionRefused invalid_session_message in
  handle_websocket (m :: rest) c
  = Abort e (with_SEQUENCE SEQUENCE (fired "socket_recieve" [ArgFrame m] c)) /\
  exc_type e = GatewayConnectionRefused /\
  isinstance e GatewayConnectionClosed = false /\
  isinstance e DecodeError = false /\
  (forall e' : exn, isinstance e' GatewayConnectionRefused = true ->
                    exc_type e' = GatewayConnectionRefused) /\
  (forall cls, isinstance e cls = true ->
               In cls [GatewayConnectionRefused; GatewayError; BaseExc;
                       PyException; PyBaseException]).
Proof.
  intros Hdec Hop e. split; [|split; [|split; [|split; [|split]]]].
  - apply handle_websocket_raise.
    rewrite (handle_frame_decoded _ _ _ _ _ _ Hdec).
    unfold on_envelope, bind, set_SEQUENCE, modify. rewrite Hop. reflexivity.
  - reflexivity.
  - reflexivity.
  - reflexivity.
  - intros e' He'. apply refused_has_no_subclass. exact He'.
  - intros cls Hcls. apply refused_superclasses. exact Hcls.
Qed.

(** C5, as the code has it (an undecodable frame ends the loop): when
    decoding a frame fails, the error of the decoder leaves
    [handle_websocket] right after the "socket_recieve" event of that frame;
    none of the frames that follow is processed. *)
Theorem undecodable_frame_ends_loop
    (m : WSMessage) (rest : list WSMessage) (e : exn) (c : Client) :
  decoding_fails m e ->
  handle_websocket (m :: rest) c
  = Abort e (fired "socket_recieve" [ArgFrame m] c).
Proof.
  intros Hfail. apply handle_websocket_raise.
  apply handle_frame_undecodable. exact Hfail.
Qed.

(** The one kind of frame the loop does discard: a frame without data. *)
Lemma empty_frame_skipped (m : WSMessage) (rest : list WSMessage) (c : Client) :
  frame_text m = Ok "" ->
  handle_websocket (m :: rest) c
  = handle_websocket rest (fired "socket_recieve" [ArgFrame m] c).
Proof.
  intros Htext. apply handle_websocket_next. right.
  apply handle_frame_empty. exact Htext.
Qed.

(** C3, on the code (a guild outage stops the loop): for a GUILD_DELETE
    frame that carries the "unavailable" marker, [UNAVAILABLE.remove] is
    called on the empty list of the frame and raises [ValueError]; the error
    leaves [handle_websocket] before "guild_outage" is dispatched and before
    the guild is stored, and the frames that follow are not processed. *)
Theorem guild_outage_raises
    (m : WSMessage) (rest : list WSMessage) (DATA SEQUENCE marker id : pyval)
    (kw : list (string * pyval)) (g : Guild) (c : Client) :
  decodes m (PStr "GUILD_DELETE") (PInt gateway.DISPATCH) DATA SEQUENCE ->
  py_get DATA "unavailable" = Ok marker ->
  marker <> PNone ->
  py_kwargs DATA = Ok kw ->
  Guild_new kw = Ok g ->
  py_getitem DATA "id" = Ok id ->
  handle_websocket (m :: rest) c
  = Abort (raise_of ValueError "list.remove(x): x not in list")
      (with_SEQUENCE SEQUENCE (fired "socket_recieve" [ArgFrame m] c)).
Proof.
  intros Hdec Hmarker Hne Hkw Hg Hid. apply handle_websocket_raise.
  rewrite (handle_frame_decoded _ _ _ _ _ _ Hdec).
  unfold on_envelope, bind, set_SEQUENCE, modify. cbn.
  rewrite Hmarker. cbn. rewrite (marker_not_none marker Hne).
  rewrite Hkw. cbn. rewrite Hg. cbn. rewrite Hid. reflexivity.
Qed.

(** C4, as the code has it (removal of a guild by an integer id): for a
    GUILD_DELETE frame without the "unavailable" marker whose id is an
    integer, a guild cached under that id is taken out of the cache and
    "guild_remove" is dispatched with it, and the loop goes on; when no guild
    is cached under it, the [KeyError] of [pop] leaves [handle_websocket],
    the cache is as it was and the frames that follow are not processed. *)
Theorem guild_delete_by_integer_id
    (m : WSMessage) (rest : list WSMessage) (DATA SEQUENCE : pyval) (n : Z)
    (c : Client) :
  decodes m (PStr "GUILD_DELETE") (PInt gateway.DISPATCH) DATA SEQUENCE ->
  py_get DATA "unavailable" = Ok PNone ->
  py_getitem DATA "id" = Ok (PInt n) ->
  let c1 := with_SEQUENCE SEQUENCE (fired "socket_recieve" [ArgFrame m] c) in
  match guilds (INTERNAL_STORAGE c) !! KInt n with
  | Some g =>
      handle_websocket (m :: rest) c
      = handle_websocket rest
          (fired "guild_remove" [ArgGuild g]
             (with_storage
                (with_guilds (delete (KInt n) (guilds (INTERNAL_STORAGE c)))
                   (INTERNAL_STORAGE c)) c1))
  | None =>
      handle_websocket (m :: rest) c
      = Abort (raise_of KeyError "key not found") c1
  end.
Proof.
  intros Hdec Hmarker Hid c1.
  destruct (guilds (INTERNAL_STORAGE c) !! KInt n) as [g|] eqn:Hlook.
  - apply handle_websocket_next. left.
    rewrite (handle_frame_decoded _ _ _ _ _ _ Hdec).
    unfold on_envelope, bind, set_SEQUENCE, modify. cbn.
    rewrite Hmarker. cbn. rewrite Hid. cbn.
    unfold pop_guild, bind, get_storage, py_pop. cbn.
    rewrite Hlook. reflexivity.
  - apply handle_websocket_raise.
    rewrite (handle_frame_decoded _ _ _ _ _ _ Hdec).
    unfold on_envelope, bind, set_SEQUENCE, modify. cbn.
    rewrite Hmarker. cbn. rewrite Hid. cbn.
    unfold pop_guild, bind, get_storage, py_pop. cbn.
    rewrite Hlook. reflexivity.
Qed.

End DispatcherProperties.

(** ** The dispatcher, run on the frames of the scenario *)

Section DispatcherRuns.
Import Handler Scenario.

(** A frame of the scenario decodes to the fields of its envelope. *)
Lemma known_frame_decodes (t s d : pyval) (op : Z) :
  decode_known (json_dumps (envelope t op s d)) = Ok (envelope t op s d) ->
  decodes (text_frame (envelope t op s d)) t (PInt op) d s.
Proof.
  intros Hknown. exists (json_dumps (envelope t op s d)), (envelope t op s d).
  split; [reflexivity|]. split.
  - unfold envelope. cbn. discriminate.
  - split; [|repeat split; reflexivity].
    unfold decode_text. cbn. exact Hknown.
Qed.

Lemma invalid_session_raises_refused_witness :
  decodes (text_frame invalid_session_env) PNone (PInt 9) (PBool false) PNone /\
  py_eqb (PInt 9) (PInt gateway.INVALIDSESSION) = true /\
  handle_websocket [text_frame invalid_session_env; text_frame guild_create_env] client0
  = Abort (raise_of GatewayConnectionRefused invalid_session_message)
      (with_SEQUENCE PNone
         (fired "socket_recieve" [ArgFrame (text_frame invalid_session_env)] client0)).
Proof.
  assert (Hdec : decodes (text_frame invalid_session_env) PNone (PInt 9) (PBool false) PNone).
  { apply (known_frame_decodes PNone PNone (PBool false) 9). vm_compute. reflexivity. }
  split; [exact Hdec|]. split; [reflexivity|].
  exact (proj1 (invalid_session_raises_refused
                  (text_frame invalid_session_env) [text_frame guild_create_env]
                  PNone (PInt 9) (PBool false) PNone client0 Hdec eq_refl)).
Defined.

(** C5 fails as stated: the text of [malformed_frame] is rejected by the
    decoder, and the loop does not go on to the frame behind it from any
    state: it raises, where the frame behind alone would be processed. *)
Lemma malformed_frame_not_skipped :
  decoding_fails malformed_frame (raise_of DecodeError "malformed frame") /\
  ~ exists c',
      handle_websocket [malformed_frame; text_frame guild_create_env] client0
      = handle_websocket [text_frame guild_create_env] c'.
Proof.
  split.
  - right. exists "{not json". split; [reflexivity|]. split; [discriminate|].
    vm_compute. reflexivity.
  - intros [c' Heq].
    apply (f_equal (fun o => match o with Return _ _ => true | Abort _ _ => false end)) in Heq.
    vm_compute in Heq. discriminate Heq.
Qed.

Lemma undecodable_frame_ends_loop_witness :
  decoding_fails malformed_frame (raise_of DecodeError "malformed frame") /\
  handle_websocket [malformed_frame; text_frame guild_create_env] client0
  = Abort (raise_of DecodeError "malformed frame")
      (fired "socket_recieve" [ArgFrame malformed_frame] client0).
Proof.
  assert (Hfail : decoding_fails malformed_frame (raise_of DecodeError "malformed frame")).
  { right. exists "{not json". split; [reflexivity|]. split; [discriminate|].
    vm_compute. reflexivity. }
  split; [exact Hfail|].
  exact (undecodable_frame_ends_loop malformed_frame [text_frame guild_create_env]
           (raise_of DecodeError "malformed frame") client0 Hfail).
Defined.

(** C2, on the code: READY lists guild 123 as unavailable, and the
    GUILD_CREATE of guild 123 that follows is still dispatched as
    "guild_create", not as "guild_recv"; the guild is stored under 123. *)
Theorem ready_then_guild_create_fires_guild_create :
  py_getitem ready_env "d"
  = Ok (PDict [ ("v", PInt 9);
                ("user", PDict [("id", PStr "42"); ("username", PStr "acord")]);
                ("session_id", PStr "abc");
                ("guilds", PList [PDict [("id", PStr "123"); ("unavailable", PBool true)]]) ]) /\
  exists c,
    handle_websocket [text_frame ready_env; text_frame guild_create_env] client0
    = Return tt c /\
    names c = ["socket_recieve"; "ready"; "socket_recieve"; "guild_create"] /\
    guilds (INTERNAL_STORAGE c) !! KInt 123
    = Some [("id", PStr "123"); ("name", PStr "acord")].
Proof.
  split; [reflexivity|].
  eexists. split; [vm_compute; reflexivity|]. split; vm_compute; reflexivity.
Qed.

Lemma guild_outage_raises_witness :
  decodes (text_frame guild_outage_env) (PStr "GUILD_DELETE") (PInt gateway.DISPATCH)
    (PDict [("unavailable", PBool true); ("id", PStr "123")]) (PInt 3) /\
  handle_websocket [text_frame guild_outage_env; text_frame guild_create_env] client0
  = Abort (raise_of ValueError "list.remove(x): x not in list")
      (with_SEQUENCE (PInt 3)
         (fired "socket_recieve" [ArgFrame (text_frame guild_outage_env)] client0)).
Proof.
  assert (Hdec : decodes (text_frame guild_outage_env) (PStr "GUILD_DELETE")
                   (PInt gateway.DISPATCH)
                   (PDict [("unavailable", PBool true); ("id", PStr "123")]) (PInt 3)).
  { apply (known_frame_decodes (PStr "GUILD_DELETE") (PInt 3)
             (PDict [("unavailable", PBool true); ("id", PStr "123")]) 0).
    vm_compute. reflexivity. }
  split; [exact Hdec|].
  refine (guild_outage_raises (text_frame guild_outage_env) [text_frame guild_create_env]
            (PDict [("unavailable", PBool true); ("id", PStr "123")]) (PInt 3)
            (PBool true) (PStr "123")
            [("unavailable", PBool true); ("id", PStr "123")]
            [("unavailable", PBool true); ("id", PStr "123")]
            client0 Hdec _ _ _ _ _).
  - reflexivity.
  - discriminate.
  - reflexivity.
  - reflexivity.
  - reflexivity.
Defined.

(** C4 fails as stated: guild 123 was never cached, and the GUILD_DELETE
    for it is not skipped: the loop does not go on to the frame behind it
    from any state. *)
Lemma uncached_guild_delete_not_skipped :
  guilds (INTERNAL_STORAGE client0) !! KInt 123 = None /\
  py_get (PDict [("id", PInt 123)]) "unavailable" = Ok PNone /\
  ~ exists c',
      handle_websocket [text_frame guild_delete_int_env; text_frame guild_create_env] client0
      = handle_websocket [text_frame guild_create_env] c'.
Proof.
  split; [reflexivity|]. split; [reflexivity|].
  intros [c' Heq].
  apply (f_equal (fun o => match o with Return _ _ => true | Abort _ _ => false end)) in Heq.
  vm_compute in Heq. discriminate Heq.
Qed.

Lemma guild_delete_by_integer_id_witness :
  decodes (text_frame guild_delete_int_env) (PStr "GUILD_DELETE") (PInt gateway.DISPATCH)
    (PDict [("id", PInt 123)]) (PInt 3) /\
  handle_websocket [text_frame guild_delete_int_env; text_frame guild_create_env] client0
  = Abort (raise_of KeyError "key not found")
      (with_SEQUENCE (PInt 3)
         (fired "socket_recieve" [ArgFrame (text_frame guild_delete_int_env)] client0)).
Proof.
  assert (Hdec : decodes (text_frame guild_delete_int_env) (PStr "GUILD_DELETE")
                   (PInt gateway.DISPATCH) (PDict [("id", PInt 123)]) (PInt 3)).
  { apply (known_frame_decodes (PStr "GUILD_DELETE") (PInt 3) (PDict [("id", PInt 123)]) 0).
    vm_compute. reflexivity. }
  split; [exact Hdec|].
  exact (guild_delete_by_integer_id (text_frame guild_delete_int_env)
           [text_frame guild_create_env] (PDict [("id", PInt 123)]) (PInt 3) 123
           client0 Hdec eq_refl eq_refl).
Defined.

(** The id as JSON sends it: the guild stored by GUILD_CREATE under the
    integer 123 is not found by the GUILD_DELETE that names it "123". *)
Lemma guild_delete_string_id_misses :
  exists c,
    handle_websocket [text_frame guild_create_env; text_frame guild_delete_env] client0
    = Abort (raise_of KeyError "key not found") c /\
    guilds (INTERNAL_STORAGE c) !! KInt 123
    = Some [("id", PStr "123"); ("name", PStr "acord")] /\
    names c = ["socket_recieve"; "guild_create"; "socket_recieve"].
Proof.
  eexists. split; [vm_compute; reflexivity|]. split; vm_compute; reflexivity.
Qed.

End DispatcherRuns.

(** ** The shard *)

Section ShardProperties.
Context {RLim : Ratelimiter} {Env : ShardEnv}.
Import ShardModel.

Lemma closed_with_closed (c : Z) (so : Socket) :
  is_open so = false -> closed_with c so = so.
Proof.
  destruct so as [u k i [c0|] snt]; cbn; [reflexivity | discriminate].
Qed.

Lemma ws_close_spec (s : Sys) (h : nat) (c : Z) (so : Socket) :
  sockets s !! h = Some so ->
  ws_close h c s
  = Return (is_open so)
      (mk_sys (self s) (<[h := closed_with c so]> (sockets s)) (tasks s)
         (ratelimiter s) (connect_error s)
         (calls s ++ [ActClose h c (is_open so)])).
Proof.
  intros Hso. unfold ws_close, bind, socket_at. rewrite Hso.
  destruct so as [u k i [c0|] snt].
  - rewrite closed_with_closed by reflexivity.
    rewrite (list_insert_id _ _ _ Hso). reflexivity.
  - reflexivity.
Qed.

Lemma limiter_block_spec (s : Sys) :
  num_shards (self s) <> 0 ->
  let key := shard_id (self s) mod num_shards (self s) in
  limiter_block s
  = Return tt
      (mk_sys (self s) (sockets s) (tasks s)
         (limiter_after (ratelimiter s) key) (connect_error s)
         (calls s ++ limiter_calls (ratelimiter s) key)).
Proof.
  intros Hn key. destruct s as [sh socks tks r ce cl]. cbn in *.
  assert (Hz : Z.eqb (num_shards sh) 0 = false) by (apply Z.eqb_neq; exact Hn).
  unfold limiter_block, limiter_calls, limiter_after, bind, call, modify,
    ratelimit_key, get_self, py_mod, set_ratelimiter. cbn.
  rewrite Hz. cbn. fold key.
  destruct (exceeded r key); cbn; rewrite ?Hz; cbn; rewrite ?Hz; cbn;
    rewrite <- ?app_assoc; reflexivity.
Qed.


Lemma ws_send_json_spec (s : Sys) (h : nat) (payload : pyval) (so : Socket) :
  sockets s !! h = Some so ->
  is_open so = true ->
  ws_send_json h payload s
  = Return tt
      (mk_sys (self s)
         (<[h := mk_socket (sock_url so) (sock_kwds so) (sock_inbox so) None
                   (sock_sent so ++ [payload])]> (sockets s))
         (tasks s) (ratelimiter s) (connect_error s)
         (calls s ++ [ActSendJson h payload])).
Proof.
  intros Hso Hopen. unfold ws_send_json, ws_send, bind, socket_at. rewrite Hso.
  destruct so as [u k i [c0|] snt]; [discriminate|]. reflexivity.
Qed.


Lemma task_cancel_spec (s : Sys) (t : nat) (msg : string) (tk : Task) :
  tasks s !! t = Some tk ->
  task_cancel t msg s
  = Return tt
      (mk_sys (self s) (sockets s)
         (<[t := mk_task (task_kwds tk) (Some msg)]> (tasks s))
         (ratelimiter s) (connect_error s) (calls s ++ [ActCancel t msg])).
Proof.
  intros Htk. unfold task_cancel. rewrite Htk. reflexivity.
Qed.

Lemma closed_with_twice (c : Z) (so : Socket) :
  closed_with c (closed_with c so) = closed_with c so.
Proof. destruct so as [u k i [c0|] snt]; reflexivity. Qed.

(** What [disconnect] does on a shard that has a keep-alive object and a
    socket. *)
Lemma disconnect_spec (s : Sys) (ka : KeepAlive) (h : nat) (so : Socket) :
  _keep_alive (self s) = Some ka ->
  ws (self s) = Some h ->
  sockets s !! h = Some so ->
  (forall t, task (self s) = Some t -> is_Some (tasks s !! t)) ->
  disconnect s
  = Return tt
      (mk_sys
         (set_keep_alive (mk_keep_alive (ka_interval ka) (ka_started ka) true (_ws ka))
            (self s))
         (<[h := closed_with 4000 so]> (sockets s))
         (match task (self s) with
          | Some t =>
              match tasks s !! t with
              | Some tk => <[t := mk_task (task_kwds tk) (Some "Disconnect called")]> (tasks s)
              | None => tasks s
              end
          | None => tasks s
          end)
         (ratelimiter s) (connect_error s)
         (calls s ++ [ActClose h 4000 (is_open so)]
          ++ match task (self s) with
             | Some t => [ActCancel t "Disconnect called"]
             | None => []
             end)%list).
Proof.
  intros Hka Hws Hso Htask.
  destruct s as [sh socks tks r ce cl]. cbn in *.
  destruct sh as [u i n tok hd w sq sid gv rs sk kal tk]. cbn in *. subst w kal.
  unfold disconnect, bind, attr, get_self. cbn -[ws_close task_cancel].
  rewrite (ws_close_spec _ h 4000 so) by exact Hso.
  cbn -[ws_close task_cancel].
  destruct tk as [t|].
  - destruct (Htask t eq_refl) as [tk0 Htk0]. rewrite Htk0.
    rewrite (task_cancel_spec _ t "Disconnect called" tk0) by exact Htk0.
    cbn. rewrite <- app_assoc. reflexivity.
  - cbn. reflexivity.
Qed.

(** C8, as the code has it (disconnect after the handshake): on a shard that
    has connected and received hello, [disconnect] marks the keep-alive as
    ended, closes the socket with code 4000 and, when [listen] created a
    task, cancels it; a second call returns as well and leaves the shard,
    the sockets, the tasks and the limiter as the first call left them. *)
Theorem disconnect_after_hello
    (s : Sys) (ka : KeepAlive) (h : nat) (so : Socket) :
  _keep_alive (self s) = Some ka ->
  ws (self s) = Some h ->
  sockets s !! h = Some so ->
  (forall t, task (self s) = Some t -> is_Some (tasks s !! t)) ->
  exists s1,
    disconnect s = Return tt s1 /\
    (exists ka1, _keep_alive (self s1) = Some ka1 /\ _ended ka1 = true) /\
    sockets s1 !! h = Some (closed_with 4000 so) /\
    (forall t, task (self s) = Some t ->
               exists tk, tasks s1 !! t = Some tk /\
                          task_cancel_msg tk = Some "Disconnect called") /\
    calls s1
    = (calls s ++ [ActClose h 4000 (is_open so)]
       ++ match task (self s) with
          | Some t => [ActCancel t "Disconnect called"]
          | None => []
          end)%list /\
    exists s2,
      disconnect s1 = Return tt s2 /\
      self s2 = self s1 /\
      sockets s2 = sockets s1 /\
      tasks s2 = tasks s1 /\
      ratelimiter s2 = ratelimiter s1.
Proof.
  intros Hka Hws Hso Htask.
  assert (Hlt : (h < length (sockets s))%nat) by (eapply lookup_lt_Some; exact Hso).
  eexists. split; [apply (disconnect_spec s ka h so Hka Hws Hso Htask)|].
  destruct s as [sh socks tks r ce cl]. cbn -[disconnect] in *.
  destruct sh as [u i n tok hd w sq sid gv rs sk kal tk]. cbn -[disconnect] in *.
  subst w kal.
  split; [eexists; split; reflexivity|].
  split; [apply list_lookup_insert_eq; exact Hlt|].
  split.
  { intros t Ht. subst tk. destruct (Htask t eq_refl) as [tk0 Htk0]. rewrite Htk0.
    eexists. split.
    - apply list_lookup_insert_eq. eapply lookup_lt_Some. exact Htk0.
    - reflexivity. }
  split; [reflexivity|].
  eexists. split.
  - eapply (disconnect_spec _ _ h (closed_with 4000 so)).
    + reflexivity.
    + reflexivity.
    + cbn. apply list_lookup_insert_eq. exact Hlt.
    + cbn. intros t Ht. subst tk. destruct (Htask t eq_refl) as [tk0 Htk0].
      rewrite Htk0. eexists. apply list_lookup_insert_eq.
      eapply lookup_lt_Some. exact Htk0.
  - cbn. split; [reflexivity|]. split.
    + rewrite closed_with_twice. apply list_insert_insert_eq.
    + split; [|reflexivity].
      destruct tk as [t|]; [|reflexivity].
      destruct (Htask t eq_refl) as [tk0 Htk0]. rewrite Htk0.
      rewrite list_lookup_insert_eq by (eapply lookup_lt_Some; exact Htk0).
      cbn. apply list_insert_insert_eq.
Qed.

End ShardProperties.

(** ** The shard, run on the scenario *)

Section ShardRuns.
Import ShardModel Scenario.



(** C8 fails as stated: [disconnect] on a shard that was only constructed
    raises [AttributeError], and so does [disconnect] after [connect] when
    no hello was received. *)
Lemma disconnect_before_hello_raises :
  disconnect sys0
  = Abort (raise_of AttributeError "'Shard' object has no attribute '_keep_alive'") sys0 /\
  exists s1,
    connect [] sys0 = Return tt s1 /\
    disconnect s1
    = Abort (raise_of AttributeError "'Shard' object has no attribute '_keep_alive'") s1.
Proof.
  split; [reflexivity|]. eexists. split; reflexivity.
Qed.

Lemma disconnect_after_hello_witness :
  _keep_alive (self sys_listening) = Some keep_alive0 /\
  ws (self sys_listening) = Some 0%nat /\
  sockets sys_listening !! 0%nat = Some socket0 /\
  exists s1,
    disconnect sys_listening = Return tt s1 /\
    sockets s1 !! 0%nat = Some (closed_with 4000 socket0) /\
    exists s2,
      disconnect s1 = Return tt s2 /\
      self s2 = self s1 /\ sockets s2 = sockets s1 /\ tasks s2 = tasks s1.
Proof.
  split; [reflexivity|]. split; [reflexivity|]. split; [reflexivity|].
  assert (Htask : forall t, task (self sys_listening) = Some t ->
                            is_Some (tasks sys_listening !! t)).
  { intros t Ht. vm_compute in Ht.
    assert (Heq : t = 0%nat) by congruence. subst t.
    exists (mk_task listen_kwds None). reflexivity. }
  destruct (disconnect_after_hello sys_listening keep_alive0 0%nat socket0
              eq_refl eq_refl eq_refl Htask)
    as (s1 & Hrun & _ & Hsock & _ & _ & s2 & Hrun2 & Hself & Hsocks & Htasks & _).
  exists s1. split; [exact Hrun|]. split; [exact Hsock|].
  exists s2. split; [exact Hrun2|]. split; [exact Hself|]. split; [exact Hsocks|exact Htasks].
Defined.

End ShardRuns.

(** ** The voice player *)

Section PlayerProperties.
Context {V : Voice}.
Import Writer.

Ltac run_player :=
  unfold invoke, forget, packet_limit, aiter, anext, get_next_packet, close,
    cleanup, send, aenter, aexit, bind, get, modify, when, lift, ret, abort,
    set_conn, set_fp, set_pos, set_index, set_closed, set_last_pack_err,
    set_last_send_err, f_read, f_tell, f_seek, f_close in *.

Ltac split_cases :=
  repeat first
    [ progress cbn in *
    | match goal with
      | |- context [match ?x with _ => _ end] =>
          lazymatch x with
          | context [match _ with _ => _ end] => fail
          | _ => destruct x eqn:?
          end
      end ];
  try congruence.

Lemma close_sets_closed (p p' : BasePlayer) :
  close p = Return tt p' -> closed p' = true /\ fclosed (fp p') = true.
Proof.
  run_player. destruct (closed p) eqn:Hc; cbn.
  - discriminate.
  - intros Heq. apply Return_state in Heq. subst p'. split; reflexivity.
Qed.

(** On a closed player, [send], [__aiter__] and [close] raise [VoiceError]
    and change nothing. *)
Lemma closed_refuses (p : BasePlayer) :
  closed p = true ->
  (forall data flags c_flags continued,
      exists e, send data flags c_flags continued p = Abort e p /\
                exc_type e = VoiceError) /\
  (exists e, aiter p = Abort e p /\ exc_type e = VoiceError) /\
  (exists e, close p = Abort e p /\ exc_type e = VoiceError).
Proof.
  intros Hc. split; [intros data flags c_flags continued|split];
    run_player; rewrite Hc; cbn; eexists; split; reflexivity.
Qed.

Lemma play_closed (c_flags flags : Z) (p : BasePlayer) :
  closed p = true -> closed (final (play c_flags flags p)) = true.
Proof.
  intros Hc. unfold play. run_player.
  destruct (wait_until_ready (conn p)); cbn; rewrite ?Hc; cbn;
    first [exact Hc | reflexivity].
Qed.

(** No method resets the flag. *)
Lemma closed_stays (m : method) (p : BasePlayer) :
  closed p = true -> closed (final (invoke m p)) = true.
Proof.
  intros Hc. destruct m; try (apply play_closed; exact Hc);
    destruct p as [c f ps ix cl pe se]; cbn in Hc; subst cl;
    run_player; split_cases.
Qed.

Lemma closed_after (ms : list method) (p : BasePlayer) :
  closed p = true -> closed (after ms p) = true.
Proof.
  revert p. induction ms as [|m ms IH]; intros p Hc; cbn.
  - exact Hc.
  - apply IH. apply closed_stays. exact Hc.
Qed.

(** C9 (a closed player stays closed): once [close] has returned, the
    flag [closed] is true after every further series of method calls
    ([cleanup] among them), and [send], [__aiter__] and [close] each raise
    [VoiceError] and leave the player, its voice socket included, exactly as
    it was: nothing is encoded or written. *)
Theorem closed_player_stays_closed (p0 p : BasePlayer) (ms : list method) :
  close p0 = Return tt p ->
  let q := after ms p in
  closed q = true /\
  closed (final (cleanup q)) = true /\
  (forall data flags c_flags continued,
      exists e, send data flags c_flags continued q = Abort e q /\
                exc_type e = VoiceError) /\
  (exists e, aiter q = Abort e q /\ exc_type e = VoiceError) /\
  (exists e, close q = Abort e q /\ exc_type e = VoiceError).
Proof.
  intros Hclose q.
  assert (Hq : closed q = true).
  { apply closed_after. apply (close_sets_closed p0 p Hclose). }
  split; [exact Hq|]. split.
  - apply (closed_stays CallCleanup q Hq).
  - apply closed_refuses. exact Hq.
Qed.

Lemma read_means_open (n : Z) (f f' : FileObj) (data : list Byte.byte) :
  f_read n f = Ok (data, f') -> fclosed f = false /\ fclosed f' = false.
Proof.
  unfold f_read. destruct (fclosed f); [discriminate|].
  intros Heq. split; [reflexivity|].
  apply Ok_inj in Heq. apply (f_equal snd) in Heq. cbn in Heq.
  subst f'. reflexivity.
Qed.

(** C10 (the end of the input ends the iteration): when the read of
    [get_next_packet] returns the empty string, [get_next_packet] closes the
    player and raises [EOFError]; [__anext__] raises [StopAsyncIteration]
    in its place, from the same state; and the [async for] loop of [play]
    that meets it ends as a finished iteration, not with an error. *)
Theorem end_of_input_stops_iteration (p : BasePlayer) (f' : FileObj) :
  consistent p ->
  f_read FRAME_SIZE (fp p) = Ok ([], f') ->
  exists p',
    get_next_packet p = Abort (raise_of EOFError "Reached end of file") p' /\
    closed p' = true /\
    fclosed (fp p') = true /\
    conn p' = conn p /\
    anext p = Abort (raise_of StopAsyncIteration "") p' /\
    forall fuel flags c_flags continued,
      play_loop (S fuel) flags c_flags continued p = Return true p'.
Proof.
  intros Hcons Hread.
  destruct (read_means_open _ _ _ _ Hread) as [Hopen _].
  assert (Hnc : closed p = false).
  { destruct (closed p) eqn:Hc; [|reflexivity].
    rewrite (Hcons Hc) in Hopen. discriminate. }
  assert (Hget : get_next_packet p
                 = Abort (raise_of EOFError "Reached end of file")
                     (mk_player (conn p) (f_close f') (pos p) (index p + 1) true
                        (_last_pack_err p) (_last_send_err p))).
  { unfold get_next_packet, bind, get, set_index, modify, lift.
    rewrite Hread. cbn. unfold close, bind, get, when. cbn. rewrite Hnc. reflexivity. }
  eexists. split; [exact Hget|].
  split; [reflexivity|]. split; [reflexivity|]. split; [reflexivity|].
  assert (Hnext : anext p
                  = Abort (raise_of StopAsyncIteration "")
                      (mk_player (conn p) (f_close f') (pos p) (index p + 1) true
                         (_last_pack_err p) (_last_send_err p))).
  { unfold anext. rewrite Hget. reflexivity. }
  split; [exact Hnext|].
  intros fuel flags c_flags continued. cbn [play_loop]. rewrite Hnext. reflexivity.
Qed.

(** Every method keeps the flag and the file in agreement, so the
    hypothesis of the theorem above holds of every player in use. *)
Lemma consistent_init (c : Conn) (data : source) (p : BasePlayer) :
  init c data = Ok p -> consistent p.
Proof.
  intros Hinit.
  assert (Hc : closed p = false).
  { unfold init in Hinit. destruct data as [contents|f].
    - apply Ok_inj in Hinit. subst p. reflexivity.
    - destruct (f_tell f); [|discriminate].
      apply Ok_inj in Hinit. subst p. reflexivity. }
  unfold consistent. rewrite Hc. discriminate.
Qed.

Ltac finish_consistent :=
  unfold consistent in *; cbn in *; intros; try discriminate; try reflexivity; auto.

Lemma close_consistent (p : BasePlayer) :
  consistent p -> consistent (final (close p)).
Proof.
  intros Hc. destruct p as [c f ps ix cl pe se].
  run_player. destruct cl; finish_consistent.
Qed.

Lemma get_next_packet_consistent (p : BasePlayer) :
  consistent p -> consistent (final (get_next_packet p)).
Proof.
  intros Hc. destruct p as [c f ps ix cl pe se]. unfold consistent in Hc. cbn in Hc.
  run_player. cbn. destruct (fclosed f) eqn:Hf; cbn.
  - unfold consistent. cbn. intros _. exact Hf.
  - destruct cl; [specialize (Hc eq_refl); discriminate|].
    split_cases; finish_consistent.
Qed.

Lemma anext_consistent (p : BasePlayer) :
  consistent p -> consistent (final (anext p)).
Proof.
  intros Hc. pose proof (get_next_packet_consistent p Hc) as Hg.
  unfold anext. destruct (get_next_packet p) as [data p'|e p']; cbn in *.
  - exact Hg.
  - destruct (isinstance e EOFError); exact Hg.
Qed.

Lemma send_consistent (data : list Byte.byte) (flags c_flags : Z) (continued : bool)
    (p : BasePlayer) :
  consistent p -> consistent (final (send data flags c_flags continued p)).
Proof.
  intros Hc. destruct p as [c f ps ix cl pe se]. unfold consistent in Hc. cbn in Hc.
  run_player. cbn. destruct cl; cbn; [exact Hc|].
  split_cases; finish_consistent.
Qed.

Lemma play_body_consistent (packet : list Byte.byte) (flags c_flags : Z)
    (continued : bool) (p : BasePlayer) :
  consistent p -> consistent (final (play_body packet flags c_flags continued p)).
Proof.
  intros Hc. pose proof (send_consistent packet flags c_flags continued p Hc) as Hs.
  unfold play_body, bind.
  destruct (send packet flags c_flags continued p) as [[] p'|e p']; cbn in *.
  - unfold lift. destruct (getFrameDur_ms _ _); cbn; [exact Hs|].
    destruct (isinstance _ _); [|exact Hs].
    destruct (py_truthy _); exact Hs.
  - destruct (isinstance _ _); [|exact Hs].
    destruct (py_truthy _); exact Hs.
Qed.

Lemma play_loop_consistent (fuel : nat) (flags c_flags : Z) (continued : bool)
    (p : BasePlayer) :
  consistent p -> consistent (final (play_loop fuel flags c_flags continued p)).
Proof.
  revert continued p. induction fuel as [|fuel IH]; intros continued p Hc.
  - exact Hc.
  - cbn [play_loop]. pose proof (anext_consistent p Hc) as Hn.
    destruct (anext p) as [packet p'|e p']; cbn in Hn.
    + pose proof (play_body_consistent packet flags c_flags continued p' Hn) as Hb.
      destruct (play_body packet flags c_flags continued p') as [[|] p''|e p''];
        cbn in Hb.
      * apply IH. exact Hb.
      * exact Hb.
      * exact Hb.
    + destruct (isinstance e StopAsyncIteration); exact Hn.
Qed.

Lemma play_consistent (c_flags flags : Z) (p : BasePlayer) :
  consistent p -> consistent (final (play c_flags flags p)).
Proof.
  intros Hc. destruct p as [c0 f ps ix cl pe se].
  unfold play, bind, get, lift. cbn -[play_loop].
  destruct (wait_until_ready c0) as [c|e]; cbn -[play_loop]; [|exact Hc].
  unfold aiter, bind, get, when. cbn -[play_loop].
  destruct cl; cbn -[play_loop]; [exact Hc|].
  match goal with
  | |- context [play_loop ?n ?a ?b ?d ?q] =>
      pose proof (play_loop_consistent n a b d q Hc) as Hl;
      destruct (play_loop n a b d q) as [[|] p'|e p']
  end; cbn in *.
  - destruct (stop_speaking (conn p')); cbn; exact Hl.
  - exact Hl.
  - exact Hl.
Qed.

Lemma consistent_stays (m : method) (p : BasePlayer) :
  consistent p -> consistent (final (invoke m p)).
Proof.
  intros Hc. destruct m; cbn [invoke].
  - exact Hc.
  - unfold aiter, bind, get, when. destruct (closed p); exact Hc.
  - pose proof (anext_consistent p Hc) as Hn.
    destruct (anext p); exact Hn.
  - pose proof (get_next_packet_consistent p Hc) as Hn.
    destruct (get_next_packet p); exact Hn.
  - apply close_consistent. exact Hc.
  - destruct p as [c f ps ix cl pe se]. unfold consistent in Hc. cbn in Hc.
    run_player. cbn. destruct (fclosed f) eqn:Hf; cbn.
    + unfold consistent. cbn. intros _. exact Hf.
    + destruct cl; [specialize (Hc eq_refl); discriminate|finish_consistent].
  - apply send_consistent. exact Hc.
  - apply play_consistent. exact Hc.
  - exact Hc.
  - pose proof (close_consistent p Hc) as Hn. unfold aexit.
    destruct (close p) as [[] p'|e p']; cbn in *; [exact Hn|].
    destruct (isinstance e VoiceError); exact Hn.
Qed.

Lemma consistent_after (ms : list method) (p : BasePlayer) :
  consistent p -> consistent (after ms p).
Proof.
  revert p. induction ms as [|m ms IH]; intros p Hc; cbn.
  - exact Hc.
  - apply IH. apply consistent_stays. exact Hc.
Qed.

(** A packet handed out by [__anext__] is not empty and has been taken off
    the unread bytes. *)
Lemma anext_consumes (p p' : BasePlayer) (packet : list Byte.byte) :
  anext p = Return packet p' -> (unread p' < unread p)%nat.
Proof.
  destruct p as [c f ps ix cl pe se]. destruct f as [bytes cur fc].
  unfold anext, get_next_packet, bind, get, set_index, modify, lift, f_read,
    set_fp, when, f_tell, set_pos, ret, abort, close, set_closed, f_close, unread.
  cbn. destruct fc; cbn.
  - split_cases.
  - set (got := if Z.ltb FRAME_SIZE 0 then drop cur bytes
                else take (Z.to_nat FRAME_SIZE) (drop cur bytes)).
    assert (Hgot : (length got <= length bytes - cur)%nat).
    { subst got. destruct (Z.ltb FRAME_SIZE 0).
      - rewrite length_drop. lia.
      - rewrite length_take, length_drop. lia. }
    destruct (Nat.eqb_spec (length got) 0) as [Hz|Hnz]; cbn.
    + destruct cl; split_cases.
    + intros Heq. apply Return_state in Heq. subst p'. cbn.
      rewrite !length_drop. lia.
Qed.

(** A turn of the loop that goes on to the next has left the file alone. *)
Lemma play_body_next_keeps_file (packet : list Byte.byte) (flags c_flags : Z)
    (continued : bool) (p p' : BasePlayer) :
  play_body packet flags c_flags continued p = Return Next p' -> fp p' = fp p.
Proof.
  destruct p as [c f ps ix cl pe se].
  unfold play_body, send, bind, get, when, lift, set_conn, modify, ret, abort. cbn.
  destruct cl; cbn.
  - split_cases.
  - destruct (encode packet) as [enc|e]; cbn.
    + destruct (send_audio_packet c enc c_flags flags continued) as [c'|e]; cbn.
      * destruct (getFrameDur_ms _ _); cbn.
        -- intros Heq. apply Return_state in Heq. subst p'. reflexivity.
        -- split_cases.
      * destruct (isinstance e OSError); cbn.
        -- unfold close, bind, get, when, set_fp, set_closed, set_last_send_err,
             modify, abort, ret. cbn.
           split_cases.
        -- split_cases.
    + split_cases.
Qed.

(** The loop of [play] ends before its fuel does: with more fuel than there
    are unread bytes, still more fuel changes nothing. *)
Lemma play_loop_fuel (fuel fuel' : nat) (flags c_flags : Z) (continued : bool)
    (p : BasePlayer) :
  (unread p < fuel)%nat -> (fuel <= fuel')%nat ->
  play_loop fuel' flags c_flags continued p
  = play_loop fuel flags c_flags continued p.
Proof.
  revert fuel' continued p. induction fuel as [|fuel IH]; intros fuel' continued p Hlt Hle.
  - lia.
  - destruct fuel' as [|fuel']; [lia|]. cbn [play_loop].
    destruct (anext p) as [packet p1|e p1] eqn:Hnext; [|reflexivity].
    apply anext_consumes in Hnext.
    destruct (play_body packet flags c_flags continued p1) as [[|] p2|e p2] eqn:Hbody;
      try reflexivity.
    apply play_body_next_keeps_file in Hbody.
    apply IH; [|lia].
    unfold unread in *. rewrite Hbody. lia.
Qed.

(** [play] gives its loop more fuel than there are unread bytes. *)
Lemma play_has_fuel (p : BasePlayer) :
  (unread p < S (length (content (fp p))))%nat.
Proof.
  unfold unread. destruct (fclosed (fp p)); [lia|].
  rewrite length_drop. lia.
Qed.

(** On a closed player no method reaches [send_audio_packet]: the voice
    socket is left as it was, but for the wait of [play] before it fails. *)
Lemma closed_writes_nothing (m : method) (p : BasePlayer) :
  closed p = true ->
  conn (final (invoke m p)) = conn p \/
  exists c_flags flags c,
    m = CallPlay c_flags flags /\
    wait_until_ready (conn p) = Ok c /\
    conn (final (invoke m p)) = c.
Proof.
  intros Hc. destruct p as [c f ps ix cl pe se]. cbn in Hc. subst cl.
  destruct m.
  9: { left. reflexivity. }
  8: { cbn [invoke]. unfold play, bind, get, lift. cbn -[play_loop].
       destruct (wait_until_ready c) as [c'|e] eqn:Hw; cbn -[play_loop].
       - right. exists c_flags, flags, c'. split; [reflexivity|]. split; reflexivity.
       - left. reflexivity. }
  all: left; run_player; split_cases.
Qed.

End PlayerProperties.

(** ** The voice player, run on the scenario *)

Section PlayerRuns.
Import Writer Scenario.

Lemma closed_player_stays_closed_witness :
  close player0 = Return tt player_closed /\
  closed (after later_calls player_closed) = true /\
  exists e,
    send [Byte.x01] 0 5 false (after later_calls player_closed)
    = Abort e (after later_calls player_closed) /\
    exc_type e = VoiceError.
Proof.
  split; [reflexivity|].
  destruct (closed_player_stays_closed player0 player_closed later_calls eq_refl)
    as (Hclosed & _ & Hsend & _ & _).
  split; [exact Hclosed|]. exact (Hsend [Byte.x01] 0 5 false).
Defined.

Lemma end_of_input_stops_iteration_witness :
  consistent player_at_end /\
  f_read FRAME_SIZE (fp player_at_end) = Ok ([], mk_file three_bytes 3 false) /\
  exists p',
    get_next_packet player_at_end
    = Abort (raise_of EOFError "Reached end of file") p' /\
    closed p' = true /\
    anext player_at_end = Abort (raise_of StopAsyncIteration "") p'.
Proof.
  assert (Hcons : consistent player_at_end).
  { unfold consistent. cbn. discriminate. }
  split; [exact Hcons|]. split; [reflexivity|].
  destruct (end_of_input_stops_iteration player_at_end (mk_file three_bytes 3 false)
              Hcons eq_refl)
    as (p' & Hget & Hclosed & _ & _ & Hnext & _).
  exists p'. split; [exact Hget|]. split; [exact Hclosed|exact Hnext].
Defined.

(** [play] on the three bytes of [player0]: two packets are written, the
    iteration ends at the end of the file, and the player is left closed. *)
Lemma play_runs_to_the_end :
  exists p',
    play 5 0 player0 = Return tt p' /\
    conn p' = [[Byte.x01; Byte.x02]; [Byte.x03]] /\
    closed p' = true /\
    index p' = 3.
Proof.
  eexists. split; [vm_compute; reflexivity|]. repeat split; reflexivity.
Qed.

End PlayerRuns.

(** * Further properties *)

(** ** The dispatcher, event by event *)

Section EventProperties.
Context {Dec : Decoders} {Ent : Entities} {Mod : Models}.
Import Handler.

(** A frame whose op code is not InvalidSession and whose event name has
    no branch in the handler is passed over: the loop goes on to the next
    frame with [gateway.SEQUENCE] set from the frame and the caches, the
    session id and the user as they were; the only event besides
    "socket_recieve" is "heartbeat", dispatched when the op code is
    HeartbeatAck. *)
Theorem unhandled_event_passed_over
    (m : WSMessage) (rest : list WSMessage)
    (EVENT OPERATION DATA SEQUENCE : pyval) (c : Client) :
  decodes m EVENT OPERATION DATA SEQUENCE ->
  py_eqb OPERATION (PInt gateway.INVALIDSESSION) = false ->
  (forall name, In name handled_events -> py_eqb EVENT (PStr name) = false) ->
  let c1 := with_SEQUENCE SEQUENCE (fired "socket_recieve" [ArgFrame m] c) in
  handle_websocket (m :: rest) c
  = handle_websocket rest
      (if py_eqb OPERATION (PInt gateway.HEARTBEATACK)
       then fired "heartbeat" [] c1 else c1).
Proof.
  intros Hdec Hop Hev c1. apply handle_websocket_next. left.
  rewrite (handle_frame_decoded _ _ _ _ _ _ Hdec).
  unfold on_envelope, bind, set_SEQUENCE, modify. cbn.
  rewrite Hop. cbn.
  rewrite !Hev by (unfold handled_events; cbn; tauto).
  destruct (py_eqb OPERATION (PInt gateway.HEARTBEATACK)); reflexivity.
Qed.

(** CHANNEL_CREATE and CHANNEL_UPDATE store the channel built from the
    payload under its own id, replacing what was cached under that id, then
    dispatch "channel_create" or "channel_update" with it; the other caches
    are untouched and the loop goes on. *)
Theorem channel_upsert
    (update : bool) (m : WSMessage) (rest : list WSMessage)
    (DATA SEQUENCE : pyval) (ch : Channel) (c : Client) :
  decodes m (PStr (if update then "CHANNEL_UPDATE" else "CHANNEL_CREATE"))
    (PInt gateway.DISPATCH) DATA SEQUENCE ->
  d_to_channel DATA = Ok ch ->
  let c1 := with_SEQUENCE SEQUENCE (fired "socket_recieve" [ArgFrame m] c) in
  handle_websocket (m :: rest) c
  = handle_websocket rest
      (fired (if update then "channel_update" else "channel_create") [ArgChannel ch]
         (with_storage
            (with_channels (<[channel_id ch := ch]> (channels (INTERNAL_STORAGE c)))
               (INTERNAL_STORAGE c)) c1)).
Proof.
  intros Hdec Hch c1. apply handle_websocket_next. left.
  rewrite (handle_frame_decoded _ _ _ _ _ _ Hdec).
  destruct update; unfold on_envelope, bind, set_SEQUENCE, modify; cbn;
    rewrite Hch; reflexivity.
Qed.

(** CHANNEL_DELETE looks the channel up under [int(DATA["id"])], so an id
    sent as a string finds the channel stored under the integer: the channel
    is taken out of the cache and "channel_delete" is dispatched with it.
    When nothing is cached under the id, [KeyError] leaves the loop; when the
    id is not a number, the error of [int] does. *)
Theorem channel_delete_by_id
    (m : WSMessage) (rest : list WSMessage) (DATA SEQUENCE id : pyval) (c : Client) :
  decodes m (PStr "CHANNEL_DELETE") (PInt gateway.DISPATCH) DATA SEQUENCE ->
  py_getitem DATA "id" = Ok id ->
  let c1 := with_SEQUENCE SEQUENCE (fired "socket_recieve" [ArgFrame m] c) in
  handle_websocket (m :: rest) c
  = match py_int id with
    | Err e => Abort e c1
    | Ok n =>
        match channels (INTERNAL_STORAGE c) !! KInt n with
        | None => Abort (raise_of KeyError "key not found") c1
        | Some ch =>
            handle_websocket rest
              (fired "channel_delete" [ArgChannel ch]
                 (with_storage
                    (with_channels (delete (KInt n) (channels (INTERNAL_STORAGE c)))
                       (INTERNAL_STORAGE c)) c1))
        end
    end.
Proof.
  intros Hdec Hid c1.
  destruct (py_int id) as [n|e] eqn:Hint.
  - destruct (channels (INTERNAL_STORAGE c) !! KInt n) as [ch|] eqn:Hlook.
    + apply handle_websocket_next. left.
      rewrite (handle_frame_decoded _ _ _ _ _ _ Hdec).
      unfold on_envelope, bind, set_SEQUENCE, modify. cbn.
      rewrite Hid. cbn. rewrite Hint. cbn.
      unfold pop_channel, bind, get_storage, py_pop. cbn.
      rewrite Hlook. reflexivity.
    + apply handle_websocket_raise.
      rewrite (handle_frame_decoded _ _ _ _ _ _ Hdec).
      unfold on_envelope, bind, set_SEQUENCE, modify. cbn.
      rewrite Hid. cbn. rewrite Hint. cbn.
      unfold pop_channel, bind, get_storage, py_pop. cbn.
      rewrite Hlook. reflexivity.
  - apply handle_websocket_raise.
    rewrite (handle_frame_decoded _ _ _ _ _ _ Hdec).
    unfold on_envelope, bind, set_SEQUENCE, modify. cbn.
    rewrite Hid. cbn. rewrite Hint. reflexivity.
Qed.

(** MESSAGE_CREATE: a [ValueError] raised while the channel of the message
    is touched is passed over, and the message is still cached under
    "channel_id:id" and dispatched as "message"; any other error of that step
    leaves the loop with the message neither cached nor dispatched. *)
Theorem message_create_cached
    (m : WSMessage) (rest : list WSMessage) (DATA SEQUENCE : pyval)
    (kw : list (string * pyval)) (msg : Message) (c : Client) :
  decodes m (PStr "MESSAGE_CREATE") (PInt gateway.DISPATCH) DATA SEQUENCE ->
  py_kwargs DATA = Ok kw ->
  Message_new kw = Ok msg ->
  let c1 := with_SEQUENCE SEQUENCE (fired "socket_recieve" [ArgFrame m] c) in
  let cached st :=
    handle_websocket rest
      (fired "message" [ArgMessage msg]
         (with_storage
            (with_messages (<[KStr (message_key msg) := msg]> (messages st)) st) c1)) in
  handle_websocket (m :: rest) c
  = match touch_channel msg (INTERNAL_STORAGE c) with
    | Ok st' => cached st'
    | Err e => if isinstance e ValueError then cached (INTERNAL_STORAGE c)
               else Abort e c1
    end.
Proof.
  intros Hdec Hkw Hmsg c1 cached.
  destruct (touch_channel msg (INTERNAL_STORAGE c)) as [st'|e] eqn:Htouch.
  - apply handle_websocket_next. left.
    rewrite (handle_frame_decoded _ _ _ _ _ _ Hdec).
    unfold on_envelope, bind, set_SEQUENCE, modify. cbn.
    rewrite Hkw. cbn. rewrite Hmsg. cbn.
    unfold try_touch_channel, bind, get_storage. cbn. rewrite Htouch. reflexivity.
  - destruct (isinstance e ValueError) eqn:Hval.
    + apply handle_websocket_next. left.
      rewrite (handle_frame_decoded _ _ _ _ _ _ Hdec).
      unfold on_envelope, bind, set_SEQUENCE, modify. cbn.
      rewrite Hkw. cbn. rewrite Hmsg. cbn.
      unfold try_touch_channel, bind, get_storage. cbn. rewrite Htouch, Hval.
      destruct c as [sid gv us st sq dl]. reflexivity.
    + apply handle_websocket_raise.
      rewrite (handle_frame_decoded _ _ _ _ _ _ Hdec).
      unfold on_envelope, bind, set_SEQUENCE, modify. cbn.
      rewrite Hkw. cbn. rewrite Hmsg. cbn.
      unfold try_touch_channel, bind, get_storage. cbn. rewrite Htouch, Hval.
      reflexivity.
Qed.

(** READY dispatches "ready" first, then stores the session id, the gateway
    version and the user built from the payload, caches the user under its
    id and goes on to the next frame; the ids of the guilds listed in the
    payload are read and leave no trace in the state. *)
Theorem ready_stores_session
    (m : WSMessage) (rest : list WSMessage)
    (DATA SEQUENCE sid v raw_user raw_guilds : pyval)
    (kw : list (string * pyval)) (u : User) (items ids : list pyval) (c : Client) :
  decodes m (PStr "READY") (PInt gateway.DISPATCH) DATA SEQUENCE ->
  py_getitem DATA "session_id" = Ok sid ->
  py_getitem DATA "v" = Ok v ->
  py_getitem DATA "user" = Ok raw_user ->
  py_kwargs raw_user = Ok kw ->
  User_new kw = Ok u ->
  py_getitem DATA "guilds" = Ok raw_guilds ->
  py_iter raw_guilds = Ok items ->
  ids_of items = Ok ids ->
  let c1 := with_SEQUENCE SEQUENCE (fired "socket_recieve" [ArgFrame m] c) in
  handle_websocket (m :: rest) c
  = handle_websocket rest
      (with_storage
         (with_users (<[user_id u := u]> (users (INTERNAL_STORAGE c)))
            (INTERNAL_STORAGE c))
         (with_user u
            (with_gateway_version v
               (with_session_id sid (fired "ready" [] c1))))).
Proof.
  intros Hdec Hsid Hv Hu Hkw Hnew Hg Hit Hids c1.
  apply handle_websocket_next. right.
  rewrite (handle_frame_decoded _ _ _ _ _ _ Hdec).
  unfold on_envelope, bind, set_SEQUENCE, modify. cbn.
  rewrite Hsid. cbn. rewrite Hv. cbn. rewrite Hu. cbn. rewrite Hkw. cbn.
  rewrite Hnew. cbn. rewrite Hg. cbn. rewrite Hit. cbn. rewrite Hids. reflexivity.
Qed.

(** READY is not all or nothing: when an entry of its guild list has no
    "id", the [KeyError] leaves the loop after "ready" was dispatched and the
    session id, the gateway version and the user were stored, and before the
    user is cached. *)
Theorem ready_fails_half_way
    (m : WSMessage) (rest : list WSMessage)
    (DATA SEQUENCE sid v raw_user raw_guilds : pyval)
    (kw : list (string * pyval)) (u : User) (items : list pyval) (e : exn)
    (c : Client) :
  decodes m (PStr "READY") (PInt gateway.DISPATCH) DATA SEQUENCE ->
  py_getitem DATA "session_id" = Ok sid ->
  py_getitem DATA "v" = Ok v ->
  py_getitem DATA "user" = Ok raw_user ->
  py_kwargs raw_user = Ok kw ->
  User_new kw = Ok u ->
  py_getitem DATA "guilds" = Ok raw_guilds ->
  py_iter raw_guilds = Ok items ->
  ids_of items = Err e ->
  let c1 := with_SEQUENCE SEQUENCE (fired "socket_recieve" [ArgFrame m] c) in
  handle_websocket (m :: rest) c
  = Abort e
      (with_user u
         (with_gateway_version v (with_session_id sid (fired "ready" [] c1)))).
Proof.
  intros Hdec Hsid Hv Hu Hkw Hnew Hg Hit Hids c1.
  apply handle_websocket_raise.
  rewrite (handle_frame_decoded _ _ _ _ _ _ Hdec).
  unfold on_envelope, bind, set_SEQUENCE, modify. cbn.
  rewrite Hsid. cbn. rewrite Hv. cbn. rewrite Hu. cbn. rewrite Hkw. cbn.
  rewrite Hnew. cbn. rewrite Hg. cbn. rewrite Hit. cbn. rewrite Hids. reflexivity.
Qed.

(** What GUILD_CREATE does to a client, for a guild [g] and the key [n]. *)
Lemma guild_create_step
    (m : WSMessage) (DATA SEQUENCE id : pyval)
    (kw : list (string * pyval)) (g : Guild) (n : Z) (c : Client) :
  decodes m (PStr "GUILD_CREATE") (PInt gateway.DISPATCH) DATA SEQUENCE ->
  py_kwargs DATA = Ok kw ->
  Guild_new kw = Ok g ->
  py_getitem DATA "id" = Ok id ->
  py_int id = Ok n ->
  handle_frame m c
  = Return tt
      (with_storage
         (with_guilds (<[KInt n := g]> (guilds (INTERNAL_STORAGE c)))
            (INTERNAL_STORAGE c))
         (fired "guild_create" [ArgGuild g]
            (with_SEQUENCE SEQUENCE (fired "socket_recieve" [ArgFrame m] c)))).
Proof.
  intros Hdec Hkw Hg Hid Hint.
  rewrite (handle_frame_decoded _ _ _ _ _ _ Hdec).
  unfold on_envelope, bind, set_SEQUENCE, modify. cbn.
  rewrite Hkw. cbn. rewrite Hg. cbn. rewrite Hid. cbn. rewrite Hint. reflexivity.
Qed.

(** GUILD_CREATE, whatever READY listed before: "guild_create" is dispatched
    with the guild built from the payload, which is then stored under
    [int(DATA["id"])], replacing what was cached under that number; the loop
    goes on. *)
Theorem guild_create_upserts
    (m : WSMessage) (rest : list WSMessage) (DATA SEQUENCE id : pyval)
    (kw : list (string * pyval)) (g : Guild) (n : Z) (c : Client) :
  decodes m (PStr "GUILD_CREATE") (PInt gateway.DISPATCH) DATA SEQUENCE ->
  py_kwargs DATA = Ok kw ->
  Guild_new kw = Ok g ->
  py_getitem DATA "id" = Ok id ->
  py_int id = Ok n ->
  handle_websocket (m :: rest) c
  = handle_websocket rest
      (with_storage
         (with_guilds (<[KInt n := g]> (guilds (INTERNAL_STORAGE c)))
            (INTERNAL_STORAGE c))
         (fired "guild_create" [ArgGuild g]
            (with_SEQUENCE SEQUENCE (fired "socket_recieve" [ArgFrame m] c)))).
Proof.
  intros Hdec Hkw Hg Hid Hint. apply handle_websocket_next. left.
  apply (guild_create_step m DATA SEQUENCE id kw g n c Hdec Hkw Hg Hid Hint).
Qed.

(** A guild that joined with a string id cannot be removed by it:
    GUILD_CREATE stores the guild under the number, the GUILD_DELETE that
    follows looks it up under the string, and unless something is cached
    under the string itself, [KeyError] leaves the loop with the guild still
    cached and no "guild_remove" dispatched. *)
Theorem guild_create_then_delete_by_string
    (m1 m2 : WSMessage) (rest : list WSMessage)
    (DATA1 SEQUENCE1 DATA2 SEQUENCE2 : pyval) (s : string)
    (kw : list (string * pyval)) (g : Guild) (n : Z) (c : Client) :
  decodes m1 (PStr "GUILD_CREATE") (PInt gateway.DISPATCH) DATA1 SEQUENCE1 ->
  py_kwargs DATA1 = Ok kw ->
  Guild_new kw = Ok g ->
  py_getitem DATA1 "id" = Ok (PStr s) ->
  py_int (PStr s) = Ok n ->
  decodes m2 (PStr "GUILD_DELETE") (PInt gateway.DISPATCH) DATA2 SEQUENCE2 ->
  py_get DATA2 "unavailable" = Ok PNone ->
  py_getitem DATA2 "id" = Ok (PStr s) ->
  guilds (INTERNAL_STORAGE c) !! KStr s = None ->
  exists c',
    handle_websocket (m1 :: m2 :: rest) c = Abort (raise_of KeyError "key not found") c' /\
    guilds (INTERNAL_STORAGE c') !! KInt n = Some g /\
    map ev_name (dispatched c')
    = (map ev_name (dispatched c)
       ++ ["socket_recieve"; "guild_create"; "socket_recieve"])%list.
Proof.
  intros Hdec1 Hkw Hg Hid1 Hint Hdec2 Hmarker Hid2 Hnone.
  eexists. split; [|split].
  - cbn [handle_websocket].
    rewrite (guild_create_step m1 DATA1 SEQUENCE1 (PStr s) kw g n c Hdec1 Hkw Hg Hid1 Hint).
    rewrite (handle_frame_decoded _ _ _ _ _ _ Hdec2).
    unfold on_envelope, bind, set_SEQUENCE, modify. cbn.
    rewrite Hmarker. cbn. rewrite Hid2. cbn.
    unfold pop_guild, bind, get_storage, py_pop. cbn.
    rewrite lookup_insert_ne by discriminate. rewrite Hnone. reflexivity.
  - cbn. apply lookup_insert_eq.
  - cbn. rewrite !map_app. cbn. rewrite <- !app_assoc. reflexivity.
Qed.

Lemma adds_no_refl (name : string) (c : Client) : adds_no name c c.
Proof. exists []. split; [rewrite app_nil_r; reflexivity|constructor]. Qed.

Lemma adds_no_trans (name : string) (c1 c2 c3 : Client) :
  adds_no name c1 c2 -> adds_no name c2 c3 -> adds_no name c1 c3.
Proof.
  intros (a1 & H1 & F1) (a2 & H2 & F2). exists (a1 ++ a2)%list. split.
  - rewrite H2, H1, app_assoc. reflexivity.
  - apply Forall_app. split; assumption.
Qed.

Lemma adds_no_same (name : string) (c c' : Client) :
  dispatched c' = dispatched c -> adds_no name c c'.
Proof.
  intros Heq. exists []. split; [rewrite app_nil_r; exact Heq|constructor].
Qed.

Lemma dispatch_adds_no (name other : string) (args : list EventArg) :
  other <> name -> respects (adds_no name) (dispatch other args).
Proof.
  intros Hne c. exists [mk_event other args]. split; [reflexivity|].
  constructor; [exact Hne|constructor].
Qed.

Lemma lift_adds_no {A} (name : string) (r : result A) :
  respects (adds_no name) (lift r).
Proof. intros c. destruct r; apply adds_no_refl. Qed.

Ltac silent_step name :=
  first
    [ apply (respects_bind _ (adds_no_trans name)); [|intros ?]
    | apply (respects_ret _ (adds_no_refl name))
    | apply (respects_abort _ (adds_no_refl name))
    | apply (respects_when _ (adds_no_refl name))
    | apply lift_adds_no
    | apply dispatch_adds_no; discriminate
    | apply (respects_modify (adds_no name)); intros ?; apply adds_no_same; reflexivity
    | match goal with
      | |- respects _ (if ?b then _ else _) => destruct b
      | |- respects _ (match ?x with _ => _ end) => destruct x
      end ].

Ltac silent name := repeat (cbn beta zeta; silent_step name).

(** After its first line the body dispatches no "socket_recieve". *)
Lemma handle_frame_events (m : WSMessage) (c : Client) :
  exists added,
    dispatched (final (handle_frame m c))
    = (dispatched c ++ socket_recieve_of m :: added)%list /\
    Forall (fun ev => ev_name ev <> "socket_recieve") added.
Proof.
  assert (Hrest : forall c0,
             adds_no "socket_recieve" c0
               (final ((let* data := lift (frame_text m) in
                        let* _ := when (negb (py_truthy (PStr data))) continue in
                        let* data := lift (decode_text data) in
                        let* EVENT := lift (py_getitem data "t") in
                        let* OPERATION := lift (py_getitem data "op") in
                        let* DATA := lift (py_getitem data "d") in
                        let* SEQUENCE := lift (py_getitem data "s") in
                        on_envelope EVENT OPERATION DATA SEQUENCE) c0))).
  { change (respects (adds_no "socket_recieve")
              (let* data := lift (frame_text m) in
               let* _ := when (negb (py_truthy (PStr data))) continue in
               let* data := lift (decode_text data) in
               let* EVENT := lift (py_getitem data "t") in
               let* OPERATION := lift (py_getitem data "op") in
               let* DATA := lift (py_getitem data "d") in
               let* SEQUENCE := lift (py_getitem data "s") in
               on_envelope EVENT OPERATION DATA SEQUENCE)).
    unfold on_envelope, raise, continue, set_SEQUENCE, set_session_id,
      set_gateway_version, set_user, update_users, update_messages, update_guilds,
      update_channels, pop_guild, pop_channel, try_touch_channel, get_storage.
    silent "socket_recieve".
    all: try (intros c0; apply adds_no_same; reflexivity). }
  destruct (Hrest (fired "socket_recieve" [ArgFrame m] c)) as (added & Heq & Hall).
  exists added. split; [|exact Hall].
  etransitivity; [exact Heq|].
  cbn. rewrite <- app_assoc. reflexivity.
Qed.

Lemma filter_quiet (added : list Event) :
  Forall (fun ev => ev_name ev <> "socket_recieve") added ->
  List.filter is_socket_recieve added = [].
Proof.
  induction 1 as [|ev added Hev _ IH]; [reflexivity|].
  cbn. unfold is_socket_recieve at 1.
  destruct (String.eqb_spec (ev_name ev) "socket_recieve"); [contradiction|exact IH].
Qed.

Lemma handle_frame_announces (m : WSMessage) (c : Client) :
  List.filter is_socket_recieve (dispatched (final (handle_frame m c)))
  = (List.filter is_socket_recieve (dispatched c) ++ [socket_recieve_of m])%list.
Proof.
  destruct (handle_frame_events m c) as (added & Heq & Hall).
  rewrite Heq, List.filter_app. cbn. rewrite (filter_quiet added Hall). reflexivity.
Qed.

(** Every message the loop takes from the socket is announced by exactly
    one "socket_recieve" event carrying it, in arrival order, before anything
    else is done with it.  When the loop returns, the "socket_recieve" events
    it added are those of all the messages.  When it raises, the messages
    before the one that raised were worked off without an error, the body
    raised on that message, and the events added are those of the messages up
    to and including it; none of the messages behind it is announced. *)
Theorem every_frame_announced (ws : list WSMessage) (c : Client) :
  match handle_websocket ws c with
  | Return _ c' =>
      List.filter is_socket_recieve (dispatched c')
      = (List.filter is_socket_recieve (dispatched c)
         ++ map socket_recieve_of ws)%list
  | Abort e c' =>
      exists (before : list WSMessage) (m : WSMessage) (behind : list WSMessage)
             (c0 : Client),
        ws = (before ++ m :: behind)%list /\
        handle_websocket before c = Return tt c0 /\
        handle_frame m c0 = Abort (Exc e) c' /\
        List.filter is_socket_recieve (dispatched c')
        = (List.filter is_socket_recieve (dispatched c)
           ++ map socket_recieve_of (before ++ [m]))%list
  end.
Proof.
  revert c. induction ws as [|m ws IH]; intros c.
  - cbn. rewrite app_nil_r. reflexivity.
  - pose proof (handle_frame_announces m c) as Hm. cbn [handle_websocket].
    assert (Hnext : forall c1,
               handle_frame m c = Return tt c1 \/ handle_frame m c = Abort Continue c1 ->
               List.filter is_socket_recieve (dispatched c1)
               = (List.filter is_socket_recieve (dispatched c) ++ [socket_recieve_of m])%list ->
               match handle_websocket ws c1 with
               | Return _ c' =>
                   List.filter is_socket_recieve (dispatched c')
                   = (List.filter is_socket_recieve (dispatched c)
                      ++ map socket_recieve_of (m :: ws))%list
               | Abort e c' =>
                   exists before m0 behind c0,
                     (m :: ws) = (before ++ m0 :: behind)%list /\
                     handle_websocket before c = Return tt c0 /\
                     handle_frame m0 c0 = Abort (Exc e) c' /\
                     List.filter is_socket_recieve (dispatched c')
                     = (List.filter is_socket_recieve (dispatched c)
                        ++ map socket_recieve_of (before ++ [m0]))%list
               end).
    { intros c1 Hstep Hc1. specialize (IH c1).
      destruct (handle_websocket ws c1) as [[] c'|e c'].
      - rewrite IH, Hc1. cbn. rewrite <- app_assoc. reflexivity.
      - destruct IH as (before & m0 & behind & c0 & Hws & Hrun & Hraise & Hev).
        exists (m :: before), m0, behind, c0.
        split; [rewrite Hws; reflexivity|].
        split; [rewrite (handle_websocket_next m before c c1 Hstep); exact Hrun|].
        split; [exact Hraise|].
        rewrite Hev, Hc1. cbn. rewrite <- app_assoc. reflexivity. }
    destruct (handle_frame m c) as [[] c1|[e|] c1] eqn:Hframe; cbn [final] in Hm.
    + apply Hnext; [left; reflexivity|exact Hm].
    + exists [], m, ws, c. split; [reflexivity|]. split; [reflexivity|].
      split; [exact Hframe|]. rewrite Hm. reflexivity.
    + apply Hnext; [right; reflexivity|exact Hm].
Qed.

End EventProperties.

(** ** The dispatcher, event by event, run on more frames *)

Section EventRuns.
Import Handler Scenario MoreFrames.

Lemma more_frame_decodes (t s d : pyval) (op : Z) :
  decode_more (json_dumps (envelope t op s d)) = Ok (envelope t op s d) ->
  decodes_more (more_frame (envelope t op s d)) t (PInt op) d s.
Proof.
  intros Hknown. unfold decodes_more.
  exists (json_dumps (envelope t op s d)), (envelope t op s d).
  split; [reflexivity|]. split.
  - unfold envelope. cbn. discriminate.
  - split; [|repeat split; reflexivity].
    unfold decode_text. cbn. exact Hknown.
Qed.

Ltac decoded := apply more_frame_decodes; vm_compute; reflexivity.

Lemma unhandled_event_passed_over_witness :
  decodes_more (more_frame heartbeat_ack_env) PNone (PInt 11) PNone PNone /\
  run [more_frame heartbeat_ack_env; more_frame typing_start_env] client0
  = run [more_frame typing_start_env]
      (fired "heartbeat" []
         (with_SEQUENCE PNone
            (fired "socket_recieve" [ArgFrame (more_frame heartbeat_ack_env)] client0))).
Proof.
  assert (Hdec : decodes_more (more_frame heartbeat_ack_env) PNone (PInt 11) PNone PNone)
    by decoded.
  split; [exact Hdec|]. unfold run, run_detached, decodes_more in *.
  refine (unhandled_event_passed_over (Dec := decoders_more) (Mod := models)
            (more_frame heartbeat_ack_env) [more_frame typing_start_env]
            PNone (PInt 11) PNone PNone client0 Hdec eq_refl _).
  intros name Hname. reflexivity.
Defined.

Lemma channel_upsert_witness :
  decodes_more (more_frame channel_update_env) (PStr "CHANNEL_UPDATE") (PInt 0)
    (PDict [("id", PStr "99"); ("name", PStr "lobby")]) (PInt 6) /\
  exists c',
    run [more_frame channel_create_env; more_frame channel_update_env] client0
    = Return tt c' /\
    channels (INTERNAL_STORAGE c') !! KInt 99
    = Some [("id", PStr "99"); ("name", PStr "lobby")] /\
    names c' = ["socket_recieve"; "channel_create"; "socket_recieve"; "channel_update"].
Proof.
  assert (Hdec : decodes_more (more_frame channel_update_env) (PStr "CHANNEL_UPDATE")
                   (PInt 0) (PDict [("id", PStr "99"); ("name", PStr "lobby")]) (PInt 6))
    by decoded.
  split; [exact Hdec|]. unfold run, run_detached, decodes_more in *.
  assert (Hcreate : decodes (Dec := decoders_more) (more_frame channel_create_env)
                      (PStr "CHANNEL_CREATE") (PInt 0)
                      (PDict [("id", PStr "99"); ("name", PStr "general")]) (PInt 5))
    by decoded.
  rewrite (channel_upsert (Dec := decoders_more) (Mod := models) false (more_frame channel_create_env)
             [more_frame channel_update_env] _ _
             ([("id", PStr "99"); ("name", PStr "general")] : @Channel entities)
             client0 Hcreate eq_refl).
  rewrite (channel_upsert (Dec := decoders_more) (Mod := models) true (more_frame channel_update_env)
             [] _ _ ([("id", PStr "99"); ("name", PStr "lobby")] : @Channel entities)
             _ Hdec eq_refl).
  eexists. split; [reflexivity|]. split; vm_compute; reflexivity.
Defined.

Lemma channel_delete_by_id_witness :
  decodes_more (more_frame channel_delete_env) (PStr "CHANNEL_DELETE") (PInt 0)
    (PDict [("id", PStr "99")]) (PInt 7) /\
  exists c1 c',
    run [more_frame channel_create_env] client0 = Return tt c1 /\
    channels (INTERNAL_STORAGE c1) !! KInt 99
    = Some [("id", PStr "99"); ("name", PStr "general")] /\
    run [more_frame channel_delete_env] c1 = Return tt c' /\
    channels (INTERNAL_STORAGE c') !! KInt 99 = None /\
    last (dispatched c')
    = Some (mk_event "channel_delete"
              [ArgChannel [("id", PStr "99"); ("name", PStr "general")]]).
Proof.
  assert (Hdec : decodes_more (more_frame channel_delete_env) (PStr "CHANNEL_DELETE")
                   (PInt 0) (PDict [("id", PStr "99")]) (PInt 7)) by decoded.
  split; [exact Hdec|]. unfold run, run_detached, decodes_more in *.
  eexists. eexists. split; [vm_compute; reflexivity|].
  split; [vm_compute; reflexivity|].
  rewrite (channel_delete_by_id (Dec := decoders_more) (Mod := models) (more_frame channel_delete_env)
             [] _ _ (PStr "99") _ Hdec eq_refl).
  split; [vm_compute; reflexivity|]. split; vm_compute; reflexivity.
Defined.

(** The id of CHANNEL_DELETE is read as [int] reads it: " 99 " and "9_9"
    remove channel 99 as well, and an id that is no number ends the loop
    with [ValueError], the channel still cached. *)
Lemma channel_delete_by_other_spellings :
  (exists c',
      run [more_frame channel_create_env; more_frame channel_delete_padded_env] client0
      = Return tt c' /\
      channels (INTERNAL_STORAGE c') !! KInt 99 = None /\
      names c' = ["socket_recieve"; "channel_create"; "socket_recieve"; "channel_delete"]) /\
  (exists c',
      run [more_frame channel_create_env; more_frame channel_delete_underscore_env] client0
      = Return tt c' /\
      channels (INTERNAL_STORAGE c') !! KInt 99 = None) /\
  (exists c',
      run [more_frame channel_create_env; more_frame channel_delete_named_env] client0
      = Abort (raise_of ValueError "invalid literal for int() with base 10") c' /\
      channels (INTERNAL_STORAGE c') !! KInt 99
      = Some [("id", PStr "99"); ("name", PStr "general")]).
Proof.
  unfold run. split; [|split].
  - eexists. split; [vm_compute; reflexivity|]. split; vm_compute; reflexivity.
  - eexists. split; [vm_compute; reflexivity|]. vm_compute; reflexivity.
  - eexists. split; [vm_compute; reflexivity|]. vm_compute; reflexivity.
Qed.

Lemma message_create_cached_witness :
  decodes_more (more_frame message_create_env) (PStr "MESSAGE_CREATE") (PInt 0)
    (PDict [("id", PStr "7"); ("channel_id", PStr "99"); ("content", PStr "hi")])
    (PInt 8) /\
  exists c',
    run_detached [more_frame message_create_env] client0 = Return tt c' /\
    names c' = ["socket_recieve"; "message"] /\
    size (messages (INTERNAL_STORAGE c')) = 1%nat /\
    messages (INTERNAL_STORAGE c') !! KStr "99:7"
    = Some [("id", PStr "7"); ("channel_id", PStr "99"); ("content", PStr "hi")].
Proof.
  assert (Hdec : decodes_more (more_frame message_create_env) (PStr "MESSAGE_CREATE")
                   (PInt 0)
                   (PDict [("id", PStr "7"); ("channel_id", PStr "99");
                           ("content", PStr "hi")]) (PInt 8)) by decoded.
  split; [exact Hdec|]. unfold run, run_detached, decodes_more in *.
  rewrite (message_create_cached (Dec := decoders_more) (Mod := models_detached)
             (more_frame message_create_env) [] _ _
             [("id", PStr "7"); ("channel_id", PStr "99"); ("content", PStr "hi")]
             [("id", PStr "7"); ("channel_id", PStr "99"); ("content", PStr "hi")]
             client0 Hdec eq_refl eq_refl).
  eexists. split; [vm_compute; reflexivity|].
  split; [vm_compute; reflexivity|]. split; vm_compute; reflexivity.
Defined.

(** A subclass of [ValueError] raised by the channel step is passed over
    like [ValueError] itself; a [TypeError] leaves the loop before the message
    is cached or dispatched. *)
Lemma message_create_error_classes :
  (exists c',
      handle_websocket (Dec := decoders_more) (Mod := models_failing unicode_error)
        [more_frame message_create_env] client0 = Return tt c' /\
      names c' = ["socket_recieve"; "message"] /\
      size (messages (INTERNAL_STORAGE c')) = 1%nat) /\
  (exists c',
      handle_websocket (Dec := decoders_more) (Mod := models_failing type_error)
        [more_frame message_create_env] client0 = Abort type_error c' /\
      names c' = ["socket_recieve"] /\
      size (messages (INTERNAL_STORAGE c')) = 0%nat).
Proof.
  split.
  - eexists. split; [vm_compute; reflexivity|]. split; vm_compute; reflexivity.
  - eexists. split; [vm_compute; reflexivity|]. split; vm_compute; reflexivity.
Qed.

Lemma ready_stores_session_witness :
  decodes_more (more_frame ready_env) (PStr "READY") (PInt 0)
    (PDict [ ("v", PInt 9);
             ("user", PDict [("id", PStr "42"); ("username", PStr "acord")]);
             ("session_id", PStr "abc");
             ("guilds", PList [PDict [("id", PStr "123"); ("unavailable", PBool true)]]) ])
    (PInt 1) /\
  exists c',
    run [more_frame ready_env] client0 = Return tt c' /\
    session_id c' = PStr "abc" /\
    gateway_version c' = PInt 9 /\
    user c' = Some [("id", PStr "42"); ("username", PStr "acord")] /\
    users (INTERNAL_STORAGE c') !! KInt 42
    = Some [("id", PStr "42"); ("username", PStr "acord")] /\
    names c' = ["socket_recieve"; "ready"].
Proof.
  assert (Hdec : decodes_more (more_frame ready_env) (PStr "READY") (PInt 0)
                   (PDict [ ("v", PInt 9);
                            ("user", PDict [("id", PStr "42"); ("username", PStr "acord")]);
                            ("session_id", PStr "abc");
                            ("guilds", PList [PDict [("id", PStr "123");
                                                     ("unavailable", PBool true)]]) ])
                   (PInt 1)) by decoded.
  split; [exact Hdec|]. unfold run, run_detached, decodes_more in *.
  rewrite (ready_stores_session (Dec := decoders_more) (Mod := models) (more_frame ready_env) [] _ _
             (PStr "abc") (PInt 9)
             (PDict [("id", PStr "42"); ("username", PStr "acord")])
             (PList [PDict [("id", PStr "123"); ("unavailable", PBool true)]])
             [("id", PStr "42"); ("username", PStr "acord")]
             [("id", PStr "42"); ("username", PStr "acord")]
             [PDict [("id", PStr "123"); ("unavailable", PBool true)]]
             [PStr "123"] client0 Hdec eq_refl eq_refl eq_refl eq_refl eq_refl
             eq_refl eq_refl eq_refl).
  eexists. split; [reflexivity|]. repeat split; vm_compute; reflexivity.
Defined.

Lemma ready_fails_half_way_witness :
  decodes_more (more_frame ready_without_guild_id_env) (PStr "READY") (PInt 0)
    (PDict [ ("v", PInt 9);
             ("user", PDict [("id", PStr "42"); ("username", PStr "acord")]);
             ("session_id", PStr "abc");
             ("guilds", PList [PDict [("unavailable", PBool true)]]) ])
    (PInt 1) /\
  exists c',
    run [more_frame ready_without_guild_id_env; more_frame typing_start_env] client0
    = Abort (raise_of KeyError "id") c' /\
    session_id c' = PStr "abc" /\
    users (INTERNAL_STORAGE c') !! KInt 42 = None /\
    names c' = ["socket_recieve"; "ready"].
Proof.
  assert (Hdec : decodes_more (more_frame ready_without_guild_id_env) (PStr "READY")
                   (PInt 0)
                   (PDict [ ("v", PInt 9);
                            ("user", PDict [("id", PStr "42"); ("username", PStr "acord")]);
                            ("session_id", PStr "abc");
                            ("guilds", PList [PDict [("unavailable", PBool true)]]) ])
                   (PInt 1)) by decoded.
  split; [exact Hdec|]. unfold run, run_detached, decodes_more in *.
  rewrite (ready_fails_half_way (Dec := decoders_more) (Mod := models)
             (more_frame ready_without_guild_id_env) [more_frame typing_start_env] _ _
             (PStr "abc") (PInt 9)
             (PDict [("id", PStr "42"); ("username", PStr "acord")])
             (PList [PDict [("unavailable", PBool true)]])
             [("id", PStr "42"); ("username", PStr "acord")]
             [("id", PStr "42"); ("username", PStr "acord")]
             [PDict [("unavailable", PBool true)]]
             (raise_of KeyError "id") client0 Hdec eq_refl eq_refl eq_refl eq_refl
             eq_refl eq_refl eq_refl eq_refl).
  eexists. split; [reflexivity|]. repeat split; vm_compute; reflexivity.
Defined.

Lemma guild_create_upserts_witness :
  decodes_more (more_frame guild_create_env) (PStr "GUILD_CREATE") (PInt 0)
    (PDict [("id", PStr "123"); ("name", PStr "acord")]) (PInt 2) /\
  exists c',
    run [more_frame guild_create_env] client0 = Return tt c' /\
    guilds (INTERNAL_STORAGE c') !! KInt 123
    = Some [("id", PStr "123"); ("name", PStr "acord")] /\
    names c' = ["socket_recieve"; "guild_create"].
Proof.
  assert (Hdec : decodes_more (more_frame guild_create_env) (PStr "GUILD_CREATE") (PInt 0)
                   (PDict [("id", PStr "123"); ("name", PStr "acord")]) (PInt 2))
    by decoded.
  split; [exact Hdec|]. unfold run, run_detached, decodes_more in *.
  rewrite (guild_create_upserts (Dec := decoders_more) (Mod := models) (more_frame guild_create_env) []
             _ _ (PStr "123") [("id", PStr "123"); ("name", PStr "acord")]
             [("id", PStr "123"); ("name", PStr "acord")] 123 client0
             Hdec eq_refl eq_refl eq_refl eq_refl).
  eexists. split; [reflexivity|]. split; vm_compute; reflexivity.
Defined.

Lemma guild_create_then_delete_by_string_witness :
  guilds (INTERNAL_STORAGE client0) !! KStr "123" = None /\
  exists c',
    run [more_frame guild_create_env; more_frame guild_delete_env;
         more_frame typing_start_env] client0
    = Abort (raise_of KeyError "key not found") c' /\
    guilds (INTERNAL_STORAGE c') !! KInt 123
    = Some [("id", PStr "123"); ("name", PStr "acord")].
Proof.
  split; [reflexivity|]. unfold run.
  assert (Hdec1 : decodes_more (more_frame guild_create_env) (PStr "GUILD_CREATE") (PInt 0)
                    (PDict [("id", PStr "123"); ("name", PStr "acord")]) (PInt 2))
    by decoded.
  assert (Hdec2 : decodes_more (more_frame guild_delete_env) (PStr "GUILD_DELETE") (PInt 0)
                    (PDict [("id", PStr "123")]) (PInt 3)) by decoded.
  destruct (guild_create_then_delete_by_string (Dec := decoders_more) (Mod := models)
              (more_frame guild_create_env) (more_frame guild_delete_env)
              [more_frame typing_start_env] _ _ _ _ "123"
              [("id", PStr "123"); ("name", PStr "acord")]
              [("id", PStr "123"); ("name", PStr "acord")] 123 client0
              Hdec1 eq_refl eq_refl eq_refl eq_refl Hdec2 eq_refl eq_refl eq_refl)
    as (c' & Hrun & Hcached & _).
  exists c'. split; [exact Hrun|exact Hcached].
Defined.

End EventRuns.

(** ** The shard, method by method *)

Section ShardMethodProperties.
Context {RLim : Ratelimiter} {Env : ShardEnv}.
Import ShardModel.

Lemma ws_send_spec (s : Sys) (h : nat) (payload : pyval) (a : Action) (so : Socket) :
  sockets s !! h = Some so ->
  is_open so = true ->
  ws_send h payload a s
  = Return tt
      (mk_sys (self s)
         (<[h := mk_socket (sock_url so) (sock_kwds so) (sock_inbox so) None
                   (sock_sent so ++ [payload])]> (sockets s))
         (tasks s) (ratelimiter s) (connect_error s) (calls s ++ [a])).
Proof.
  intros Hso Hopen. unfold ws_send, bind, socket_at. rewrite Hso.
  destruct so as [u k i [c0|] snt]; [discriminate|]. reflexivity.
Qed.

(** The block of the rate limiter always gives the lock back: whatever
    happens inside, its last call is the exit of the [async with], and it
    touches neither the shard nor the sockets nor the tasks.  With
    [num_shards = 0] the key cannot be computed: [ZeroDivisionError] leaves
    the block, after the exit, and no slot has been taken. *)
Theorem limiter_block_releases (s : Sys) :
  last (calls (final (limiter_block s))) = Some ActLimiterExit /\
  self (final (limiter_block s)) = self s /\
  sockets (final (limiter_block s)) = sockets s /\
  tasks (final (limiter_block s)) = tasks s /\
  (num_shards (self s) = 0 ->
   limiter_block s
   = Abort (raise_of ZeroDivisionError "integer modulo by zero")
       (mk_sys (self s) (sockets s) (tasks s) (ratelimiter s) (connect_error s)
          (calls s ++ [ActLimiterEnter; ActLimiterExit]))).
Proof.
  destruct (Z.eq_dec (num_shards (self s)) 0) as [Hz|Hnz].
  - assert (Hrun : limiter_block s
                   = Abort (raise_of ZeroDivisionError "integer modulo by zero")
                       (mk_sys (self s) (sockets s) (tasks s) (ratelimiter s)
                          (connect_error s)
                          (calls s ++ [ActLimiterEnter; ActLimiterExit]))).
    { destruct s as [sh socks tks r ce cl]. cbn in *.
      unfold limiter_block, bind, call, modify, ratelimit_key, get_self, py_mod. cbn.
      rewrite Hz. cbn. rewrite <- app_assoc. reflexivity. }
    rewrite Hrun. cbn. rewrite last_app_cons.
    repeat split; try reflexivity; try (intros; reflexivity).
  - rewrite (limiter_block_spec s Hnz). cbn. unfold limiter_calls. cbn.
    rewrite last_app_cons.
    split; [destruct (exceeded _ _); reflexivity|].
    repeat split; try reflexivity; try (intros; contradiction).
Qed.

(** [send_identity] on a connected shard passes the block of the rate
    limiter and then writes one identify frame: op 2 with the client
    properties, [compress] set, a large-guild threshold of 250, the token,
    the intents, the pair of shard id and shard count, and a "presence"
    entry that is there even when no presence was given. *)
Theorem send_identity_sends
    (token_ intents presence : pyval) (s : Sys) (h : nat) (so : Socket) :
  ws (self s) = Some h ->
  sockets s !! h = Some so ->
  is_open so = true ->
  num_shards (self s) <> 0 ->
  let key := shard_id (self s) mod num_shards (self s) in
  let payload :=
    PDict [ ("op", PInt 2);
            ("d", PDict [ ("properties",
                            PDict [ ("$os", PStr sys_platform);
                                    ("$browser", PStr "acord");
                                    ("$device", PStr "acord");
                                    ("$referrer", PNone);
                                    ("$referring_domain", PNone) ]);
                          ("compress", PBool true);
                          ("large_threshold", PInt 250);
                          ("token", token_);
                          ("intents", intents);
                          ("presence", presence);
                          ("shard", PList [PInt (shard_id (self s));
                                           PInt (num_shards (self s))]) ]) ] in
  send_identity token_ intents presence s
  = Return tt
      (mk_sys (self s)
         (<[h := mk_socket (sock_url so) (sock_kwds so) (sock_inbox so) None
                   (sock_sent so ++ [payload])]> (sockets s))
         (tasks s) (limiter_after (ratelimiter s) key) (connect_error s)
         ((calls s ++ limiter_calls (ratelimiter s) key)
          ++ [ActSendStr h (payload_json payload)])).
Proof.
  intros Hws Hso Hopen Hn key payload.
  unfold send_identity, bind, get_self, attr. cbn -[limiter_block ws_send_str].
  rewrite limiter_block_spec by exact Hn. cbn -[limiter_block ws_send_str].
  rewrite Hws. cbn -[limiter_block ws_send_str].
  unfold ws_send_str. erewrite ws_send_spec; [reflexivity|exact Hso|exact Hopen].
Qed.

(** The rate limit is charged before the socket is looked at: on a shard
    that was never connected, [send_identity] raises [AttributeError] after
    it has taken a slot of the limiter, and nothing is sent. *)
Theorem send_identity_without_socket
    (token_ intents presence : pyval) (s : Sys) :
  ws (self s) = None ->
  num_shards (self s) <> 0 ->
  let key := shard_id (self s) mod num_shards (self s) in
  send_identity token_ intents presence s
  = Abort (raise_of AttributeError "'NoneType' object has no attribute 'send_str'")
      (mk_sys (self s) (sockets s) (tasks s)
         (limiter_after (ratelimiter s) key) (connect_error s)
         (calls s ++ limiter_calls (ratelimiter s) key)).
Proof.
  intros Hws Hn key.
  unfold send_identity, bind, get_self, attr. cbn -[limiter_block ws_send_str].
  rewrite limiter_block_spec by exact Hn. cbn -[limiter_block ws_send_str].
  rewrite Hws. reflexivity.
Qed.

(** [resume()] without [restart] writes the resume frame, op 6 with the
    token of the client and the session id and sequence of the shard, to the
    socket the shard already has: nothing is closed or opened, [ws] and the
    saved connection arguments stay, and [resuming] is set. *)
Theorem resume_on_open_socket (s : Sys) (h : nat) (so : Socket) :
  ws (self s) = Some h ->
  sockets s !! h = Some so ->
  is_open so = true ->
  num_shards (self s) <> 0 ->
  let key := shard_id (self s) mod num_shards (self s) in
  let frame :=
    PDict [ ("op", PInt 6);
            ("d", PDict [ ("token", token (self s));
                          ("session_id", session_id (self s));
                          ("seq", sequence (self s)) ]) ] in
  resume false s
  = Return (Some h)
      (mk_sys (set_resuming true (self s))
         (<[h := mk_socket (sock_url so) (sock_kwds so) (sock_inbox so) None
                   (sock_sent so ++ [frame])]> (sockets s))
         (tasks s) (limiter_after (ratelimiter s) key) (connect_error s)
         ((calls s ++ limiter_calls (ratelimiter s) key)
          ++ [ActSendJson h frame])).
Proof.
  intros Hws Hso Hopen Hn key frame.
  unfold resume, bind, when, get_self, attr, set_self, modify.
  cbn -[limiter_block ws_send_json].
  rewrite limiter_block_spec by exact Hn. cbn -[limiter_block ws_send_json].
  rewrite Hws. cbn -[limiter_block ws_send_json].
  erewrite ws_send_json_spec; [|exact Hso|exact Hopen].
  cbn. rewrite Hws. destruct s as [sh socks tks r ce cl].
  destruct sh as [u i n tok hd w sq sid gv rs sk kal tk]. reflexivity.
Qed.

(** On a shard that was never connected, [resume()] raises
    [AttributeError] only after it has taken a slot of the limiter and set
    [resuming]: the shard is left marked as resuming although nothing was
    sent. *)
Theorem resume_without_socket (s : Sys) :
  ws (self s) = None ->
  num_shards (self s) <> 0 ->
  let key := shard_id (self s) mod num_shards (self s) in
  resume false s
  = Abort (raise_of AttributeError "'NoneType' object has no attribute 'send_json'")
      (mk_sys (set_resuming true (self s)) (sockets s) (tasks s)
         (limiter_after (ratelimiter s) key) (connect_error s)
         (calls s ++ limiter_calls (ratelimiter s) key)).
Proof.
  intros Hws Hn key.
  unfold resume, bind, when, get_self, attr, set_self, modify.
  cbn -[limiter_block ws_send_json].
  rewrite limiter_block_spec by exact Hn. cbn -[limiter_block ws_send_json].
  rewrite Hws. reflexivity.
Qed.

(** When the reconnection of [resume(restart=True)] fails, the error of
    [ws_connect] leaves [resume] with the old socket already closed with
    code 4000 and still the socket of the shard; the limiter was not
    charged, [resuming] is as it was and nothing was sent. *)
Theorem resume_restart_connect_fails
    (s : Sys) (h : nat) (so : Socket) (k : kwds) (e : exn) :
  ws (self s) = Some h ->
  sockets s !! h = Some so ->
  _snd_kwds (self s) = Some k ->
  connect_error s = Some e ->
  resume true s
  = Abort e
      (mk_sys (self s) (<[h := closed_with 4000 so]> (sockets s)) (tasks s)
         (ratelimiter s) (connect_error s)
         (calls s ++ [ActClose h 4000 (is_open so)])).
Proof.
  intros Hws Hso Hk Hce.
  unfold resume, bind, when, attr, get_self. cbn -[ws_close connect limiter_block].
  rewrite Hws. cbn -[ws_close connect limiter_block].
  rewrite (ws_close_spec _ h 4000 so) by exact Hso.
  cbn -[ws_close connect limiter_block]. rewrite Hk.
  cbn -[ws_close connect limiter_block].
  unfold connect, bind, get_self, ws_connect. cbn. rewrite Hce. reflexivity.
Qed.


(** What [listen] does when the handler accepts the arguments. *)
Lemma listen_spec (s : Sys) (k : call_kwds) :
  has_name "self" k = false ->
  handler (self s) k = Ok tt ->
  listen k s
  = Return (length (tasks s))
      (mk_sys (set_task (length (tasks s)) (self s)) (sockets s)
         (tasks s ++ [mk_task k None]) (ratelimiter s) (connect_error s)
         (calls s ++ [ActCreateTask (length (tasks s))])).
Proof.
  intros Hself Hk. unfold listen, bind, get_self, when. rewrite Hself. cbn.
  rewrite Hk. reflexivity.
Qed.

(** A call the handler refuses leaves [listen] with the error of the call:
    no task is created and the shard is as it was. *)
Lemma listen_refused (s : Sys) (k : call_kwds) (e : exn) :
  has_name "self" k = false ->
  handler (self s) k = Err e -> listen k s = Abort e s.
Proof.
  intros Hself Hk. unfold listen, bind, get_self, when. rewrite Hself. cbn.
  rewrite Hk. reflexivity.
Qed.

(** With the default handler [listen] cannot be called at all: a keyword
    argument [self] is refused by [listen] itself, and without one
    [handle_websocket] misses its first parameter.  Either way [TypeError]
    is raised and no task is created. *)
Lemma listen_with_default_handler_raises (s : Sys) (k : call_kwds) :
  handler (self s) = handle_websocket_call ->
  exists e, listen k s = Abort e s /\ exc_type e = TypeError.
Proof.
  intros Hh. unfold listen, bind, get_self, when.
  destruct (has_name "self" k) eqn:Hself.
  - eexists. split; reflexivity.
  - cbn. rewrite Hh. unfold handle_websocket_call, async_def.
    destruct (negb (forallb _ k)); [eexists; split; reflexivity|].
    cbn [forallb]. rewrite Hself. cbn. eexists. split; reflexivity.
Qed.

(** [listen] keeps only the task it created last: after two calls whose
    arguments are accepted (none is called [self], and the handler takes
    them), [disconnect] cancels the second task and leaves the first one
    running. *)
Theorem disconnect_cancels_last_task_only
    (s : Sys) (ka : KeepAlive) (h : nat) (so : Socket) (k1 k2 : call_kwds) :
  _keep_alive (self s) = Some ka ->
  ws (self s) = Some h ->
  sockets s !! h = Some so ->
  has_name "self" k1 = false ->
  has_name "self" k2 = false ->
  handler (self s) k1 = Ok tt ->
  handler (self s) k2 = Ok tt ->
  exists s3,
    (let* _ := listen k1 in let* _ := listen k2 in disconnect) s = Return tt s3 /\
    tasks s3 !! length (tasks s) = Some (mk_task k1 None) /\
    tasks s3 !! S (length (tasks s)) = Some (mk_task k2 (Some "Disconnect called")) /\
    task (self s3) = Some (S (length (tasks s))).
Proof.
  intros Hka Hws Hso Hs1 Hs2 Hk1 Hk2.
  destruct s as [sh socks tks r ce cl]. cbn in *.
  destruct sh as [u i n tok hd w sq sid gv rs sk kal tk]. cbn in *. subst w kal.
  assert (Hlook : ((tks ++ [mk_task k1 None]) ++ [mk_task k2 None])%list !! S (length tks)
                  = Some (mk_task k2 None)).
  { rewrite lookup_app_r by (rewrite length_app; cbn; lia).
    rewrite length_app. cbn. rewrite Nat.add_1_r, Nat.sub_diag. reflexivity. }
  eexists. split.
  - unfold bind. rewrite listen_spec by assumption. cbn -[disconnect listen].
    rewrite listen_spec by assumption. cbn -[disconnect]. rewrite length_app.
    cbn -[disconnect]. rewrite Nat.add_1_r.
    erewrite (disconnect_spec _ ka h so); [reflexivity|reflexivity|reflexivity|exact Hso|].
    cbn. intros t Ht. assert (Heq : t = S (length tks)) by congruence. subst t.
    rewrite Hlook. eexists. reflexivity.
  - cbn. rewrite Hlook. cbn. split; [|split; [|reflexivity]].
    + rewrite list_lookup_insert_ne by lia.
      rewrite lookup_app_l by (rewrite length_app; cbn; lia).
      rewrite lookup_app_r by lia. rewrite Nat.sub_diag. reflexivity.
    + apply list_lookup_insert_eq. rewrite !length_app. cbn. lia.
Qed.

Lemma ws_receive_spec (s : Sys) (h : nat) (so : Socket) (d : ws_data)
    (inbox : list ws_data) :
  sockets s !! h = Some so ->
  sock_inbox so = d :: inbox ->
  ws_receive h s
  = Return (Some d)
      (mk_sys (self s)
         (<[h := mk_socket (sock_url so) (sock_kwds so) inbox (sock_close_code so)
                   (sock_sent so)]> (sockets s))
         (tasks s) (ratelimiter s) (connect_error s) (calls s ++ [ActReceive h])).
Proof.
  intros Hso Hin. unfold ws_receive, bind, socket_at. rewrite Hso.
  unfold call, modify. rewrite Hin. reflexivity.
Qed.

(** [receive_hello] takes one message off the socket.  When it is a Hello,
    a keep-alive object is created with the heartbeat interval of the
    payload and started; nothing else of the shard changes. *)
Theorem receive_hello_starts_keep_alive
    (s : Sys) (h : nat) (so : Socket) (d : ws_data) (inbox : list ws_data)
    (fields : list (string * pyval)) (payload interval : pyval) :
  ws (self s) = Some h ->
  sockets s !! h = Some so ->
  sock_inbox so = d :: inbox ->
  decodeResponse (Some d) = Ok (PDict fields) ->
  d_lookup "op" fields = Some (PInt gateway.HELLO) ->
  d_lookup "d" fields = Some payload ->
  py_getitem payload "heartbeat_interval" = Ok interval ->
  exists s' ka,
    receive_hello s = Return tt s' /\
    _keep_alive (self s') = Some ka /\
    ka_interval ka = interval /\
    ka_started ka = true /\
    self s' = set_keep_alive ka (self s) /\
    sockets s'
    = <[h := mk_socket (sock_url so) (sock_kwds so) inbox (sock_close_code so)
              (sock_sent so)]> (sockets s) /\
    calls s' = (calls s ++ [ActReceive h; ActKeepAliveStart])%list.
Proof.
  intros Hws Hso Hin Hdec Hop Hd Hint.
  destruct s as [sh socks tks r ce cl]. cbn in *.
  destruct sh as [u i n tok hd w sq sid gv rs sk kal tk]. cbn in *. subst w.
  eexists. eexists. split.
  - unfold receive_hello, bind, attr, get_self. cbn -[ws_receive].
    rewrite (ws_receive_spec _ h so d inbox) by assumption.
    cbn. rewrite Hdec. cbn. rewrite Hop. cbn.
    rewrite Hd. cbn. rewrite Hint. cbn.
    unfold call, modify. cbn. rewrite <- app_assoc. reflexivity.
  - cbn. repeat split; reflexivity.
Qed.

(** When the message is anything but a Hello (a decoded object whose "op"
    is not 10, or that has no "op" at all), [receive_hello] raises
    [GatewayError]; the message is consumed all the same and no keep-alive
    object is created. *)
Theorem receive_hello_rejects_other_ops
    (s : Sys) (h : nat) (so : Socket) (d : ws_data) (inbox : list ws_data)
    (fields : list (string * pyval)) :
  ws (self s) = Some h ->
  sockets s !! h = Some so ->
  sock_inbox so = d :: inbox ->
  decodeResponse (Some d) = Ok (PDict fields) ->
  py_eqb (match d_lookup "op" fields with Some v => v | None => PInt 0 end)
    (PInt gateway.HELLO) = false ->
  receive_hello s
  = Abort (raise_of GatewayError "Invalid op code recieved")
      (mk_sys (self s)
         (<[h := mk_socket (sock_url so) (sock_kwds so) inbox (sock_close_code so)
                   (sock_sent so)]> (sockets s))
         (tasks s) (ratelimiter s) (connect_error s)
         (calls s ++ [ActReceive h])).
Proof.
  intros Hws Hso Hin Hdec Hop.
  destruct s as [sh socks tks r ce cl]. cbn in *.
  destruct sh as [u i n tok hd w sq sid gv rs sk kal tk]. cbn in *. subst w.
  unfold receive_hello, bind, attr, get_self. cbn -[ws_receive].
  rewrite (ws_receive_spec _ h so d inbox) by assumption.
  cbn. rewrite Hdec. cbn. rewrite Hop. reflexivity.
Qed.

End ShardMethodProperties.

(** ** The shard, method by method, run on the scenario *)

Section ShardMethodRuns.
Import ShardModel Scenario MoreSessions.

Lemma limiter_block_releases_witness :
  num_shards (self sys_no_shards) = 0 /\
  limiter_block sys_no_shards
  = Abort (raise_of ZeroDivisionError "integer modulo by zero")
      (mk_sys (self sys_no_shards) [] [] 0%nat None [ActLimiterEnter; ActLimiterExit]).
Proof.
  split; [reflexivity|].
  exact (proj2 (proj2 (proj2 (proj2 (limiter_block_releases sys_no_shards)))) eq_refl).
Defined.

Lemma send_identity_sends_witness :
  ws (self sys_listening) = Some 0%nat /\
  sockets sys_listening !! 0%nat = Some socket0 /\
  exists s',
    send_identity (PStr "token") (PInt 513) PNone sys_listening = Return tt s' /\
    ShardModel.ratelimiter s' = 1%nat /\
    (exists so, sockets s' !! 0%nat = Some so /\ length (sock_sent so) = 1%nat) /\
    last (calls s')
    = Some (ActSendStr 0
              (json_dumps
                 (PDict [ ("op", PInt 2);
                          ("d", PDict [ ("properties",
                                          PDict [ ("$os", PStr "linux");
                                                  ("$browser", PStr "acord");
                                                  ("$device", PStr "acord");
                                                  ("$referrer", PNone);
                                                  ("$referring_domain", PNone) ]);
                                        ("compress", PBool true);
                                        ("large_threshold", PInt 250);
                                        ("token", PStr "token");
                                        ("intents", PInt 513);
                                        ("presence", PNone);
                                        ("shard", PList [PInt 0; PInt 1]) ]) ]))).
Proof.
  split; [reflexivity|]. split; [reflexivity|].
  rewrite (send_identity_sends (PStr "token") (PInt 513) PNone sys_listening 0%nat socket0
             eq_refl eq_refl eq_refl ltac:(vm_compute; discriminate)).
  eexists. split; [reflexivity|]. split; [reflexivity|]. split.
  - eexists. split; vm_compute; reflexivity.
  - vm_compute. reflexivity.
Defined.

Lemma send_identity_without_socket_witness :
  ws (self sys0) = None /\
  exists s',
    send_identity (PStr "token") (PInt 513) PNone sys0
    = Abort (raise_of AttributeError "'NoneType' object has no attribute 'send_str'") s' /\
    ShardModel.ratelimiter sys0 = 0%nat /\
    ShardModel.ratelimiter s' = 1%nat /\
    sockets s' = [].
Proof.
  split; [reflexivity|].
  rewrite (send_identity_without_socket (PStr "token") (PInt 513) PNone sys0
             eq_refl ltac:(vm_compute; discriminate)).
  eexists. split; [reflexivity|]. repeat split; reflexivity.
Defined.

Lemma resume_on_open_socket_witness :
  ws (self sys_listening) = Some 0%nat /\
  exists s',
    resume false sys_listening = Return (Some 0%nat) s' /\
    length (sockets s') = 1%nat /\
    resuming (self s') = true /\
    sockets s' !! 0%nat
    = Some (mk_socket "wss://gateway.discord.gg" [] [] None
              [PDict [ ("op", PInt 6);
                       ("d", PDict [ ("token", PStr "token");
                                     ("session_id", PStr "abc");
                                     ("seq", PInt 42) ]) ]]).
Proof.
  split; [reflexivity|].
  rewrite (resume_on_open_socket sys_listening 0%nat socket0
             eq_refl eq_refl eq_refl ltac:(vm_compute; discriminate)).
  eexists. split; [reflexivity|]. repeat split; reflexivity.
Defined.

Lemma resume_without_socket_witness :
  ws (self sys0) = None /\
  resuming (self sys0) = false /\
  exists s',
    resume false sys0
    = Abort (raise_of AttributeError "'NoneType' object has no attribute 'send_json'") s' /\
    resuming (self s') = true /\
    ShardModel.ratelimiter s' = 1%nat.
Proof.
  split; [reflexivity|]. split; [reflexivity|].
  rewrite (resume_without_socket sys0 eq_refl ltac:(vm_compute; discriminate)).
  eexists. split; [reflexivity|]. split; reflexivity.
Defined.

Lemma resume_restart_connect_fails_witness :
  connect_error sys_offline = Some (raise_of OSError "Cannot connect to host") /\
  exists s',
    resume true sys_offline = Abort (raise_of OSError "Cannot connect to host") s' /\
    ws (self s') = Some 0%nat /\
    sockets s' !! 0%nat = Some (closed_with 4000 socket0) /\
    resuming (self s') = false /\
    ShardModel.ratelimiter s' = ShardModel.ratelimiter sys_offline.
Proof.
  split; [reflexivity|].
  rewrite (resume_restart_connect_fails sys_offline 0%nat socket0 []
             (raise_of OSError "Cannot connect to host") eq_refl eq_refl eq_refl eq_refl).
  eexists. split; [reflexivity|]. repeat split; reflexivity.
Defined.


Lemma disconnect_cancels_last_task_only_witness :
  _keep_alive (self sys_after_hello) = Some keep_alive0 /\
  ws (self sys_after_hello) = Some 0%nat /\
  tasks sys_after_hello = [] /\
  has_name "self" listen_kwds = false /\
  handler (self sys_after_hello) listen_kwds = Ok tt /\
  exists s3,
    (let* _ := listen listen_kwds in let* _ := listen listen_kwds in disconnect)
      sys_after_hello
    = Return tt s3 /\
    tasks s3 !! 0%nat = Some (mk_task listen_kwds None) /\
    tasks s3 !! 1%nat = Some (mk_task listen_kwds (Some "Disconnect called")).
Proof.
  split; [reflexivity|]. split; [reflexivity|]. split; [reflexivity|].
  split; [reflexivity|]. split; [reflexivity|].
  destruct (disconnect_cancels_last_task_only sys_after_hello keep_alive0 0%nat socket0
              listen_kwds listen_kwds eq_refl eq_refl eq_refl eq_refl eq_refl
              eq_refl eq_refl)
    as (s3 & Hrun & Hfirst & Hsecond & _).
  exists s3. split; [exact Hrun|]. split; [exact Hfirst|exact Hsecond].
Defined.

(** On a shard constructed with the default handler, [listen] raises
    [TypeError] without arguments, with [ws] alone, and with [self] and
    [ws]. *)
Lemma listen_with_default_handler_runs :
  listen [] sys_no_shards
  = Abort (raise_of TypeError "handle_websocket() missing required positional arguments")
      sys_no_shards /\
  listen [("ws", ObjSocket 0)] sys_no_shards
  = Abort (raise_of TypeError "handle_websocket() missing required positional arguments")
      sys_no_shards /\
  listen [("self", ObjClient); ("ws", ObjSocket 0)] sys_no_shards
  = Abort (raise_of TypeError "listen() got multiple values for argument 'self'")
      sys_no_shards.
Proof. repeat split; reflexivity. Qed.

Lemma receive_hello_starts_keep_alive_witness :
  ws (self sys_hello_pending) = Some 0%nat /\
  exists s' ka,
    receive_hello sys_hello_pending = Return tt s' /\
    _keep_alive (self s') = Some ka /\
    ka_interval ka = PInt 41250 /\
    ka_started ka = true /\
    sockets s' = [socket0].
Proof.
  split; [reflexivity|].
  destruct (receive_hello_starts_keep_alive (RLim := Scenario.ratelimiter) (Env := shard_env)
              sys_hello_pending 0%nat
              (mk_socket "wss://gateway.discord.gg" [] [DText (json_dumps hello_env)] None [])
              (DText (json_dumps hello_env)) []
              [("t", PNone); ("s", PNone); ("op", PInt 10);
               ("d", PDict [("heartbeat_interval", PInt 41250)])]
              (PDict [("heartbeat_interval", PInt 41250)]) (PInt 41250)
              eq_refl eq_refl eq_refl ltac:(vm_compute; reflexivity)
              eq_refl eq_refl eq_refl)
    as (s' & ka & Hrun & Hka & Hint & Hstarted & _ & Hsocks & _).
  exists s', ka. split; [exact Hrun|]. split; [exact Hka|]. split; [exact Hint|].
  split; [exact Hstarted|exact Hsocks].
Defined.

Lemma receive_hello_rejects_other_ops_witness :
  ws (self sys_other_pending) = Some 0%nat /\
  exists s',
    receive_hello sys_other_pending
    = Abort (raise_of GatewayError "Invalid op code recieved") s' /\
    _keep_alive (self s') = None /\
    sockets s' !! 0%nat = Some socket0.
Proof.
  split; [reflexivity|].
  rewrite (receive_hello_rejects_other_ops (RLim := Scenario.ratelimiter) (Env := shard_env)
             sys_other_pending 0%nat
             (mk_socket "wss://gateway.discord.gg" [] [DText (json_dumps guild_create_env)]
                None [])
             (DText (json_dumps guild_create_env)) []
             [("t", PStr "GUILD_CREATE"); ("s", PInt 2); ("op", PInt 0);
              ("d", PDict [("id", PStr "123"); ("name", PStr "acord")])]
             eq_refl eq_refl eq_refl ltac:(vm_compute; reflexivity) eq_refl).
  eexists. split; [reflexivity|]. split; reflexivity.
Defined.

End ShardMethodRuns.

(** ** The voice player, method by method *)

Section PlayerMethodProperties.
Context {V : Voice}.
Import Writer.

Lemma take_then_rest {A} (n : nat) (l : list A) :
  (take n l ++ drop (length (take n l)) l)%list = l.
Proof.
  rewrite length_take. destruct (Nat.le_gt_cases n (length l)) as [Hle|Hgt].
  - rewrite Nat.min_l by exact Hle. apply take_drop.
  - rewrite Nat.min_r by lia. rewrite take_ge by lia.
    rewrite drop_all. apply app_nil_r.
Qed.

(** The chunk and what is behind it make up the unread bytes. *)
Lemma next_chunk_then_rest (p : BasePlayer) :
  (next_chunk p
   ++ drop (cursor (fp p) + length (next_chunk p)) (content (fp p)))%list
  = drop (cursor (fp p)) (content (fp p)).
Proof.
  rewrite <- drop_drop. unfold next_chunk.
  destruct (Z.ltb FRAME_SIZE 0).
  - rewrite drop_all. apply app_nil_r.
  - apply take_then_rest.
Qed.

(** [__anext__] on an open file with bytes left: the next chunk comes back,
    the file and [pos] move behind it, [index] counts one more. *)
Lemma anext_chunk (p : BasePlayer) :
  fclosed (fp p) = false ->
  next_chunk p <> [] ->
  anext p
  = Return (next_chunk p)
      (mk_player (conn p)
         (mk_file (content (fp p)) (cursor (fp p) + length (next_chunk p)) false)
         (cursor (fp p) + length (next_chunk p)) (index p + 1) (closed p)
         (_last_pack_err p) (_last_send_err p)).
Proof.
  intros Hopen Hchunk.
  destruct p as [c f ps ix cl pe se]. destruct f as [bytes cur fc].
  cbn in Hopen. subst fc. unfold next_chunk in *. cbn in Hchunk |- *.
  unfold anext, get_next_packet, bind, get, set_index, modify, lift, f_read. cbn.
  set (got := if Z.ltb FRAME_SIZE 0 then drop cur bytes
              else take (Z.to_nat FRAME_SIZE) (drop cur bytes)) in *.
  destruct got as [|b got'] eqn:Hgot; [contradiction|]. reflexivity.
Qed.

(** [__anext__] on an open player whose file has nothing more to give. *)
Lemma anext_end (p : BasePlayer) :
  fclosed (fp p) = false ->
  closed p = false ->
  next_chunk p = [] ->
  anext p
  = Abort (raise_of StopAsyncIteration "")
      (mk_player (conn p) (mk_file (content (fp p)) (cursor (fp p)) true)
         (pos p) (index p + 1) true (_last_pack_err p) (_last_send_err p)).
Proof.
  intros Hopen Hcl Hchunk.
  destruct p as [c f ps ix cl pe se]. destruct f as [bytes cur fc].
  cbn in Hopen, Hcl. subst fc cl. unfold next_chunk in *. cbn in Hchunk |- *.
  unfold anext, get_next_packet, bind, get, set_index, modify, lift, f_read. cbn.
  rewrite Hchunk. cbn. rewrite Nat.add_0_r. reflexivity.
Qed.

Lemma drain_partitions_upto (fuel : nat) (p : BasePlayer) :
  (unread p < fuel)%nat ->
  fclosed (fp p) = false ->
  closed p = false ->
  0 < FRAME_SIZE ->
  exists packets p',
    drain fuel p = Return packets p' /\
    concat packets = drop (cursor (fp p)) (content (fp p)) /\
    Forall (fun pk => pk <> [] /\ (length pk <= Z.to_nat FRAME_SIZE)%nat) packets /\
    closed p' = true /\
    conn p' = conn p /\
    index p' = index p + Z.of_nat (length packets) + 1.
Proof.
  revert p. induction fuel as [|fuel IH]; intros p Hfuel Hopen Hcl Hsize; [lia|].
  assert (Hnneg : Z.ltb FRAME_SIZE 0 = false) by (apply Z.ltb_ge; lia).
  destruct (next_chunk p) as [|b chunk'] eqn:Hchunk.
  - exists [], (mk_player (conn p) (mk_file (content (fp p)) (cursor (fp p)) true)
                  (pos p) (index p + 1) true (_last_pack_err p) (_last_send_err p)).
    cbn [drain]. rewrite (anext_end p Hopen Hcl Hchunk).
    split; [reflexivity|]. split.
    + cbn. unfold next_chunk in Hchunk. rewrite Hnneg in Hchunk.
      destruct (drop (cursor (fp p)) (content (fp p))) as [|x rest] eqn:Hrest;
        [reflexivity|].
      destruct (Z.to_nat FRAME_SIZE) eqn:Hn; [lia|]. discriminate Hchunk.
    + split; [constructor|]. split; [reflexivity|]. split; [reflexivity|].
      cbn. lia.
  - assert (Hne : next_chunk p <> []) by (rewrite Hchunk; discriminate).
    pose proof (anext_chunk p Hopen Hne) as Hnext.
    pose proof (next_chunk_then_rest p) as Hsplit.
    assert (Hlen : (length (next_chunk p) <= Z.to_nat FRAME_SIZE)%nat).
    { unfold next_chunk. rewrite Hnneg, length_take. lia. }
    assert (Hpos : (0 < length (next_chunk p))%nat) by (rewrite Hchunk; cbn; lia).
    assert (Hbound : (length (next_chunk p)
                      <= length (content (fp p)) - cursor (fp p))%nat).
    { unfold next_chunk. rewrite Hnneg, length_take, length_drop. lia. }
    set (p1 := mk_player (conn p)
                 (mk_file (content (fp p)) (cursor (fp p) + length (next_chunk p)) false)
                 (cursor (fp p) + length (next_chunk p)) (index p + 1) (closed p)
                 (_last_pack_err p) (_last_send_err p)) in *.
    destruct (IH p1) as (packets & p' & Hrun & Hcat & Hall & Hclosed & Hconn & Hindex).
    + unfold unread in *. rewrite Hopen in Hfuel. cbn.
      rewrite length_drop in *. lia.
    + reflexivity.
    + exact Hcl.
    + exact Hsize.
    + exists (next_chunk p :: packets), p'. cbn [drain]. rewrite Hnext, Hrun.
      split; [reflexivity|]. split.
      * cbn [concat]. rewrite Hcat. cbn. exact Hsplit.
      * split; [constructor; [split; [exact Hne|exact Hlen]|exact Hall]|].
        split; [exact Hclosed|]. split; [exact Hconn|].
        rewrite Hindex. cbn [length p1 index]. lia.
Qed.

(** Iterating over an open player with a positive frame size hands out the
    unread bytes of the file, in order and without loss: the packets are not
    empty, none is longer than [FRAME_SIZE], and joined together they are
    what the file held from the read position on.  The iteration then ends
    and leaves the player closed, [index] having counted every packet and
    the read that found the end. *)
Theorem iteration_yields_the_file (p : BasePlayer) :
  fclosed (fp p) = false ->
  closed p = false ->
  0 < FRAME_SIZE ->
  exists packets p',
    drain (S (unread p)) p = Return packets p' /\
    concat packets = drop (cursor (fp p)) (content (fp p)) /\
    Forall (fun pk => pk <> [] /\ (length pk <= Z.to_nat FRAME_SIZE)%nat) packets /\
    closed p' = true /\
    conn p' = conn p /\
    index p' = index p + Z.of_nat (length packets) + 1.
Proof.
  intros Hopen Hcl Hsize. apply drain_partitions_upto; [lia|assumption..].
Qed.

(** Leaving an [async with player] block never fails and always leaves the
    player closed: a player that is open is closed, and the [VoiceError] of
    closing twice is swallowed. *)
Theorem aexit_always_closes (p : BasePlayer) :
  exists p',
    aexit p = Return tt p' /\
    closed p' = true /\
    conn p' = conn p /\
    (closed p = true -> p' = p).
Proof.
  destruct p as [c f ps ix cl pe se]. destruct cl.
  - eexists. split; [reflexivity|]. repeat split; reflexivity.
  - eexists. split; [reflexivity|]. split; [reflexivity|]. split; [reflexivity|].
    cbn. discriminate.
Qed.

(** [send] on an open player whose packet the voice socket refuses. *)
Lemma send_failure_step
    (data enc : list Byte.byte) (flags c_flags : Z) (continued : bool)
    (exc : exn) (p : BasePlayer) :
  closed p = false ->
  encode data = Ok enc ->
  send_audio_packet (conn p) enc c_flags flags continued = Err exc ->
  send data flags c_flags continued p
  = if isinstance exc OSError
    then Abort (mk_exn VoiceError "Cannot send bytes through transport"
                  [("closed", PBool true)])
           (mk_player (conn p) (f_close (fp p)) (pos p) (index p) true
              (_last_pack_err p) (Some exc))
    else Abort exc p.
Proof.
  intros Hcl Henc Hsend. destruct p as [c f ps ix cl pe se]. cbn in Hcl, Hsend. subst cl.
  unfold send, bind, get, when, lift. cbn. rewrite Henc. cbn. rewrite Hsend.
  destruct (isinstance exc OSError); reflexivity.
Qed.

(** When the voice socket refuses a packet, [send] tells the two kinds of
    failure apart: an [OSError] closes the player, is kept in
    [_last_send_err] and is replaced by a [VoiceError] that carries
    [closed=True]; any other exception is passed on as it is, with the
    player still open and nothing recorded. *)
Theorem send_failure_handling
    (data enc : list Byte.byte) (flags c_flags : Z) (continued : bool)
    (exc : exn) (p : BasePlayer) :
  closed p = false ->
  encode data = Ok enc ->
  send_audio_packet (conn p) enc c_flags flags continued = Err exc ->
  send data flags c_flags continued p
  = if isinstance exc OSError
    then Abort (mk_exn VoiceError "Cannot send bytes through transport"
                  [("closed", PBool true)])
           (mk_player (conn p) (f_close (fp p)) (pos p) (index p) true
              (_last_pack_err p) (Some exc))
    else Abort exc p.
Proof.
  intros Hcl Henc Hsend.
  apply (send_failure_step data enc flags c_flags continued exc p Hcl Henc Hsend).
Qed.

Lemma voice_error_is_voice_error (msg : string) (attrs : list (string * pyval)) :
  isinstance (mk_exn VoiceError msg attrs) VoiceError = true.
Proof. reflexivity. Qed.

(** A write that fails with an [OSError] ends [play] without an error: the
    first packet is read, the socket refuses it, and [play] returns with the
    player closed and the error kept in [_last_send_err]; [stop_speaking] is
    not called. *)
Theorem play_ends_quietly_when_socket_fails
    (c_flags flags : Z) (c : Conn) (enc : list Byte.byte) (exc : exn)
    (p : BasePlayer) :
  wait_until_ready (conn p) = Ok c ->
  closed p = false ->
  fclosed (fp p) = false ->
  next_chunk p <> [] ->
  encode (next_chunk p) = Ok enc ->
  send_audio_packet c enc c_flags flags false = Err exc ->
  isinstance exc OSError = true ->
  play c_flags flags p
  = Return tt
      (mk_player c
         (mk_file (content (fp p)) (cursor (fp p) + length (next_chunk p)) true)
         (cursor (fp p) + length (next_chunk p)) (index p + 1) true
         (_last_pack_err p) (Some exc)).
Proof.
  intros Hready Hcl Hopen Hchunk Henc Hsend Hos.
  destruct p as [c0 f ps ix cl pe se]. cbn in Hready, Hcl, Hopen. subst cl.
  unfold play, bind, get, lift. cbn -[play_loop anext]. rewrite Hready.
  cbn -[play_loop anext]. unfold aiter, bind, get, when. cbn -[play_loop anext].
  cbn [play_loop].
  rewrite anext_chunk by assumption. cbn -[send next_chunk].
  unfold play_body, bind.
  erewrite send_failure_step; [|reflexivity|exact Henc|exact Hsend].
  rewrite Hos. rewrite voice_error_is_voice_error. reflexivity.
Qed.

(** A sampling rate below 1000 stops [play] after one packet: the packet is
    written to the voice socket, and the computation of the pause that
    follows divides by [SAMPLING_RATE // 1000], which is zero;
    [ZeroDivisionError] leaves [play] with the player still open. *)
Theorem play_fails_after_first_packet_at_low_rate
    (c_flags flags : Z) (c c' : Conn) (enc : list Byte.byte) (p : BasePlayer) :
  0 <= SAMPLING_RATE < 1000 ->
  wait_until_ready (conn p) = Ok c ->
  closed p = false ->
  fclosed (fp p) = false ->
  next_chunk p <> [] ->
  encode (next_chunk p) = Ok enc ->
  send_audio_packet c enc c_flags flags false = Ok c' ->
  play c_flags flags p
  = Abort (raise_of ZeroDivisionError "integer division or modulo by zero")
      (mk_player c'
         (mk_file (content (fp p)) (cursor (fp p) + length (next_chunk p)) false)
         (cursor (fp p) + length (next_chunk p)) (index p + 1) false
         (_last_pack_err p) (_last_send_err p)).
Proof.
  intros Hrate Hready Hcl Hopen Hchunk Henc Hsend.
  destruct p as [c0 f ps ix cl pe se]. cbn in Hready, Hcl, Hopen. subst cl.
  unfold play, bind, get, lift. cbn -[play_loop anext]. rewrite Hready.
  cbn -[play_loop anext]. unfold aiter, bind, get, when. cbn -[play_loop anext].
  cbn [play_loop].
  rewrite anext_chunk by assumption.
  unfold next_chunk in *. cbn [fp] in *.
  set (chunk := if Z.ltb FRAME_SIZE 0 then _ else _) in *. clearbody chunk.
  unfold play_body, send, bind, get, when, lift. cbn.
  rewrite Henc. cbn. rewrite Hsend. cbn.
  unfold getFrameDur_ms. rewrite (Z.div_small SAMPLING_RATE 1000 Hrate).
  reflexivity.
Qed.

(** [getFrameDur] raises exactly for sampling rates from 0 to 999. *)
Theorem getFrameDur_raises_below_1000 (x y : Z) :
  (exists e, getFrameDur_ms x y = Err e) <-> 0 <= y < 1000.
Proof.
  unfold getFrameDur_ms. split.
  - intros [e He]. destruct (Z.eqb_spec (y / 1000) 0) as [Hz|Hnz]; [|discriminate].
    apply Z.div_small_iff in Hz; lia.
  - intros Hy. rewrite (Z.div_small y 1000 Hy). eexists. reflexivity.
Qed.

(** [cleanup] rewinds an open player: the file is back at its first byte,
    [index] is zero and the recorded errors are gone, so that the next read
    returns the first bytes of the file again.  [pos] is not reset by
    [cleanup] itself; the read that follows sets it. *)
Theorem cleanup_replays_from_the_start (p : BasePlayer) :
  fclosed (fp p) = false ->
  0 < FRAME_SIZE ->
  content (fp p) <> [] ->
  cleanup p
  = Return tt
      (mk_player (conn p) (mk_file (content (fp p)) 0 false) (pos p) 0 (closed p)
         None None) /\
  (let* _ := cleanup in get_next_packet) p
  = Return (take (Z.to_nat FRAME_SIZE) (content (fp p)))
      (mk_player (conn p)
         (mk_file (content (fp p))
            (length (take (Z.to_nat FRAME_SIZE) (content (fp p)))) false)
         (length (take (Z.to_nat FRAME_SIZE) (content (fp p)))) 1 (closed p)
         None None).
Proof.
  intros Hopen Hsize Hne.
  destruct p as [c f ps ix cl pe se]. destruct f as [bytes cur fc].
  cbn in Hopen, Hne. subst fc.
  assert (Hnneg : Z.ltb FRAME_SIZE 0 = false) by (apply Z.ltb_ge; lia).
  split; [reflexivity|].
  unfold bind, cleanup, get_next_packet, bind, get, lift, f_seek, f_read, set_fp,
    set_last_pack_err, set_last_send_err, set_index, modify. cbn.
  rewrite Hnneg. cbn.
  destruct bytes as [|b bytes]; [contradiction|].
  destruct (Z.to_nat FRAME_SIZE) eqn:Hn; [lia|]. reflexivity.
Qed.

(** A player whose iteration has ended cannot be used again: with the file
    closed, [cleanup] raises [ValueError] and resets nothing, a further read
    raises [ValueError] too, after counting itself in [index], and
    [__anext__] passes that very error on: the iteration does not end with
    [StopAsyncIteration]. *)
Theorem finished_player_cannot_be_rewound (p : BasePlayer) :
  fclosed (fp p) = true ->
  let counted :=
    mk_player (conn p) (fp p) (pos p) (index p + 1) (closed p)
      (_last_pack_err p) (_last_send_err p) in
  cleanup p = Abort closed_file_error p /\
  get_next_packet p = Abort closed_file_error counted /\
  anext p = Abort closed_file_error counted /\
  exc_type closed_file_error = ValueError /\
  isinstance closed_file_error StopAsyncIteration = false.
Proof.
  intros Hclosed. destruct p as [c f ps ix cl pe se]. cbn in Hclosed.
  assert (Hget : get_next_packet (mk_player c f ps ix cl pe se)
                 = Abort closed_file_error (mk_player c f ps (ix + 1) cl pe se)).
  { unfold get_next_packet, bind, get, set_index, modify, lift, f_read. cbn.
    rewrite Hclosed. reflexivity. }
  cbn. split; [|split; [exact Hget|split; [|split; reflexivity]]].
  - unfold cleanup, bind, get, lift, f_seek. cbn. rewrite Hclosed. reflexivity.
  - unfold anext. rewrite Hget. reflexivity.
Qed.

(** A player built on a file object starts where the file object stands:
    [pos] is its position and the first packet is read from there, not from
    the first byte of the file.  A file object that is already closed is
    refused with [ValueError]. *)
Theorem init_reads_from_the_position_of_the_buffer (c : Conn) (f : FileObj) :
  0 < FRAME_SIZE ->
  (fclosed f = true -> init c (FromBuffer f) = Err closed_file_error) /\
  (fclosed f = false ->
   drop (cursor f) (content f) <> [] ->
   exists p p',
     init c (FromBuffer f) = Ok p /\
     pos p = cursor f /\
     closed p = false /\
     get_next_packet p
     = Return (take (Z.to_nat FRAME_SIZE) (drop (cursor f) (content f))) p' /\
     pos p' = (cursor f
               + length (take (Z.to_nat FRAME_SIZE) (drop (cursor f) (content f))))%nat).
Proof.
  intros Hsize. destruct f as [bytes cur fc]. cbn. split.
  - intros ->. reflexivity.
  - intros -> Hne.
    assert (Hnneg : Z.ltb FRAME_SIZE 0 = false) by (apply Z.ltb_ge; lia).
    destruct (drop cur bytes) as [|b rest] eqn:Hrest; [contradiction|].
    destruct (Z.to_nat FRAME_SIZE) eqn:Hn; [lia|].
    eexists. eexists. split; [reflexivity|]. split; [reflexivity|].
    split; [reflexivity|].
    unfold get_next_packet, bind, get, set_index, modify, lift, f_read. cbn.
    rewrite Hnneg, Hrest, Hn.
    cbn. split; reflexivity.
Qed.

End PlayerMethodProperties.

(** ** Sharding and bucket keys *)

(** The owner of a guild is decided by its snowflake above the low 22 bits
    alone: whatever the worker, process and increment bits [low] are, the
    guild with timestamp field [ts] is owned by the shard [ts % num_shards]. *)
Theorem ownership_ignores_low_bits (shard_id num_shards ts low : Z) :
  0 <= low < 4194304 ->
  num_shards <> 0 ->
  Sharding.contains_guild shard_id num_shards (Z.shiftl ts 22 + low)
  = Ok (Z.eqb (ts mod num_shards) shard_id).
Proof.
  intros Hlow Hn. unfold Sharding.contains_guild, py_mod, py_rshift.
  destruct (Z.eqb_spec num_shards 0) as [Hz|_]; [contradiction|].
  rewrite Z.shiftr_div_pow2 by lia. rewrite Z.shiftl_mul_pow2 by lia.
  change (2 ^ 22) with 4194304.
  rewrite Z.div_add_l by lia. rewrite (Z.div_small low 4194304 Hlow).
  rewrite Z.add_0_r. reflexivity.
Qed.

Lemma ownership_ignores_low_bits_witness :
  0 <= 117063 < 4194304 /\
  Sharding.contains_guild 1 4 (Z.shiftl 41944705 22 + 117063) = Ok true.
Proof.
  split; [lia|].
  exact (ownership_ignores_low_bits 1 4 41944705 117063 ltac:(lia) ltac:(lia)).
Defined.

(** A shard whose id is not in [0, num_shards) owns no guild at all. *)
Theorem shard_out_of_range_owns_nothing (shard_id num_shards guild_id : Z) :
  0 < num_shards ->
  shard_id < 0 \/ num_shards <= shard_id ->
  Sharding.contains_guild shard_id num_shards guild_id = Ok false.
Proof.
  intros Hn Hout. unfold Sharding.contains_guild, py_mod.
  destruct (Z.eqb_spec num_shards 0) as [Hz|_]; [lia|].
  pose proof (Z.mod_pos_bound (py_rshift guild_id 22) num_shards Hn) as Hb.
  destruct (Z.eqb_spec (py_rshift guild_id 22 mod num_shards) shard_id) as [Heq|_];
    [lia|reflexivity].
Qed.

Lemma shard_out_of_range_owns_nothing_witness :
  0 < 4 /\ Sharding.contains_guild 4 4 175928847299117063 = Ok false.
Proof.
  split; [lia|].
  exact (shard_out_of_range_owns_nothing 4 4 175928847299117063 ltac:(lia) ltac:(lia)).
Defined.

Section BucketKeys.
Context {RLim : Ratelimiter} {Env : ShardEnv}.
Import ShardModel.

(** In a valid configuration the bucket key of a shard is its own id, so
    that no two shards of one client share a bucket. *)
Theorem ratelimit_key_is_the_shard_id (s : Sys) :
  0 <= shard_id (self s) < num_shards (self s) ->
  ratelimit_key s = Return (shard_id (self s)) s.
Proof.
  intros Hrange. unfold ratelimit_key, bind, get_self, lift, py_mod.
  destruct (Z.eqb_spec (num_shards (self s)) 0) as [Hz|_]; [lia|].
  rewrite Z.mod_small by exact Hrange. reflexivity.
Qed.

End BucketKeys.

Lemma ratelimit_key_is_the_shard_id_witness :
  ShardModel.ratelimit_key Scenario.sys0 = Return 0 Scenario.sys0.
Proof.
  exact (ratelimit_key_is_the_shard_id Scenario.sys0 ltac:(cbn; lia)).
Defined.

(** ** The documentation filter *)

Section JinjaProperties.
Import Jinja.

Lemma filter_loop_spec (elements filtered : list string) :
  filter_loop elements filtered
  = (filtered ++ List.filter (fun x => negb (skipped x)) elements)%list.
Proof.
  revert filtered. induction elements as [|x elements IH]; intros filtered; cbn.
  - rewrite app_nil_r. reflexivity.
  - destruct (skipped x); cbn.
    + apply IH.
    + rewrite IH, <- app_assoc. reflexivity.
Qed.

Lemma skipped_false (x : string) :
  skipped x = false <-> String.prefix "_" x = false /\ ~ In x SHARED_PROPERTIES.
Proof.
  unfold skipped. rewrite orb_false_iff. split.
  - intros [Hp He]. split; [exact Hp|]. intros Hin.
    assert (Ht : existsb (String.eqb x) SHARED_PROPERTIES = true).
    { apply existsb_exists. exists x. split; [exact Hin|apply String.eqb_refl]. }
    congruence.
  - intros [Hp Hn]. split; [exact Hp|].
    destruct (existsb (String.eqb x) SHARED_PROPERTIES) eqn:He; [|reflexivity].
    apply existsb_exists in He. destruct He as (y & Hin & Heq).
    apply String.eqb_eq in Heq. subst y. contradiction.
Qed.

Lemma filter_is_sublist (f : string -> bool) (l : list string) :
  sublist (List.filter f l) l.
Proof.
  induction l as [|x l IH]; cbn; [constructor|].
  destruct (f x); [apply sublist_skip|apply sublist_cons]; exact IH.
Qed.

(** [filter_properties(cls)] keeps exactly the names of [dir(cls)] that
    neither start with an underscore nor are among the shared properties,
    each as often as [dir] gave it and in the order [dir] gave them. *)
Theorem filter_properties_keeps_public_names {I : Introspection} (cls : PyObject) :
  (forall x, In x (filter_properties cls)
             <-> In x (dir cls) /\ String.prefix "_" x = false /\
                 ~ In x SHARED_PROPERTIES) /\
  sublist (filter_properties cls) (dir cls) /\
  (forall x, String.prefix "_" x = false -> ~ In x SHARED_PROPERTIES ->
             count_occ string_dec (filter_properties cls) x
             = count_occ string_dec (dir cls) x).
Proof.
  unfold filter_properties. rewrite !filter_loop_spec. cbn [app].
  split; [|split].
  - intros x. rewrite List.filter_In, negb_true_iff, skipped_false. reflexivity.
  - apply filter_is_sublist.
  - intros x Hp Hn.
    assert (Hx : skipped x = false) by (apply skipped_false; split; assumption).
    induction (dir cls) as [|y l IH]; [reflexivity|]. cbn.
    destruct (skipped y) eqn:Hy; cbn.
    + destruct (string_dec y x) as [->|Hne]; [congruence|exact IH].
    + destruct (string_dec y x); [f_equal|]; exact IH.
Qed.

End JinjaProperties.

(** ** The voice player, method by method, run on the scenario *)

Section PlayerMethodRuns.
Import Writer Scenario MorePlayers.

Lemma iteration_yields_the_file_witness :
  fclosed (fp player0) = false /\
  closed player0 = false /\
  exists p',
    drain 4 player0 = Return [[Byte.x01; Byte.x02]; [Byte.x03]] p' /\
    closed p' = true /\
    index p' = 3.
Proof.
  split; [reflexivity|]. split; [reflexivity|].
  destruct (iteration_yields_the_file player0 eq_refl eq_refl ltac:(cbn; lia))
    as (packets & p' & Hrun & _ & _ & Hclosed & _ & Hindex).
  assert (Hpackets : packets = [[Byte.x01; Byte.x02]; [Byte.x03]]).
  { apply (f_equal returned) in Hrun. vm_compute in Hrun. congruence. }
  subst packets. exists p'. split; [exact Hrun|]. split; [exact Hclosed|exact Hindex].
Defined.

Lemma send_failure_handling_witness :
  closed player_broken = false /\
  exists p',
    send (V := voice_broken) [Byte.x01] 0 5 false player_broken
    = Abort (mk_exn VoiceError "Cannot send bytes through transport"
               [("closed", PBool true)]) p' /\
    closed p' = true /\
    _last_send_err p' = Some (raise_of OSError "Connection reset by peer").
Proof.
  split; [reflexivity|].
  rewrite (send_failure_handling (V := voice_broken) [Byte.x01] [Byte.x01] 0 5 false
             (raise_of OSError "Connection reset by peer") player_broken
             eq_refl eq_refl eq_refl).
  eexists. split; [reflexivity|]. split; reflexivity.
Defined.

Lemma play_ends_quietly_when_socket_fails_witness :
  closed player_broken = false /\
  exists p',
    play (V := voice_broken) 5 0 player_broken = Return tt p' /\
    closed p' = true /\
    conn p' = [] /\
    _last_send_err p' = Some (raise_of OSError "Connection reset by peer").
Proof.
  split; [reflexivity|].
  rewrite (play_ends_quietly_when_socket_fails (V := voice_broken) 5 0 []
             [Byte.x01; Byte.x02] (raise_of OSError "Connection reset by peer")
             player_broken eq_refl eq_refl eq_refl ltac:(discriminate)
             eq_refl eq_refl eq_refl).
  eexists. split; [reflexivity|]. repeat split; reflexivity.
Defined.

Lemma play_fails_after_first_packet_at_low_rate_witness :
  0 <= SAMPLING_RATE (Voice := voice_slow) < 1000 /\
  exists p',
    play (V := voice_slow) 5 0 player_slow
    = Abort (raise_of ZeroDivisionError "integer division or modulo by zero") p' /\
    conn p' = [[Byte.x01; Byte.x02]] /\
    closed p' = false.
Proof.
  split; [cbn; lia|].
  rewrite (play_fails_after_first_packet_at_low_rate (V := voice_slow) 5 0 []
             [[Byte.x01; Byte.x02]] [Byte.x01; Byte.x02] player_slow
             ltac:(cbn; lia) eq_refl eq_refl eq_refl ltac:(discriminate)
             eq_refl eq_refl).
  eexists. split; [reflexivity|]. split; reflexivity.
Defined.

Lemma cleanup_replays_from_the_start_witness :
  fclosed (fp player_at_end) = false /\
  cursor (fp player_at_end) = 3%nat /\
  exists p',
    (let* _ := cleanup in get_next_packet) player_at_end
    = Return [Byte.x01; Byte.x02] p' /\
    index p' = 1 /\
    pos p' = 2%nat.
Proof.
  split; [reflexivity|]. split; [reflexivity|].
  rewrite (proj2 (cleanup_replays_from_the_start player_at_end eq_refl
                    ltac:(cbn; lia) ltac:(discriminate))).
  eexists. split; [reflexivity|]. split; reflexivity.
Defined.

Lemma finished_player_cannot_be_rewound_witness :
  fclosed (fp player_closed) = true /\
  cleanup player_closed = Abort closed_file_error player_closed /\
  index (final (get_next_packet player_closed)) = 1 /\
  anext player_closed
  = Abort (raise_of ValueError "I/O operation on closed file")
      (Writer.mk_player [] (Writer.mk_file three_bytes 0 true) 0 1 true None None).
Proof.
  split; [reflexivity|].
  destruct (finished_player_cannot_be_rewound player_closed eq_refl)
    as (Hcleanup & Hget & Hnext & _).
  split; [exact Hcleanup|]. split; [rewrite Hget; reflexivity|exact Hnext].
Defined.

Lemma init_reads_from_the_position_of_the_buffer_witness :
  0 < FRAME_SIZE (Voice := voice) /\
  fclosed file_at_1 = false /\
  exists p p',
    init (V := voice) [] (FromBuffer file_at_1) = Ok p /\
    pos p = 1%nat /\
    get_next_packet p = Return [Byte.x02; Byte.x03] p' /\
    pos p' = 3%nat.
Proof.
  split; [cbn; lia|]. split; [reflexivity|].
  destruct (proj2 (init_reads_from_the_position_of_the_buffer (V := voice) [] file_at_1
                     ltac:(cbn; lia)) eq_refl ltac:(discriminate))
    as (p & p' & Hinit & Hpos & _ & Hget & Hpos').
  exists p, p'. split; [exact Hinit|]. split; [exact Hpos|].
  split; [exact Hget|exact Hpos'].
Defined.

End PlayerMethodRuns.
